(** * altMOD: the optimal-restraint analyser

    A shallow embedding of [altmod/automodel_optimal_restraints.py]
    (class [Automodel_optimal_restraints]) and the properties of the
    analysis it performs: sequence identity between model and target,
    the model/target residue correspondence, the per-restraint analysis
    rows, the resolution of template files and the order of the build
    stages.

    Conventions.
    - Python [str] is [string]; a residue's one-letter [code] is an [ascii].
    - Python [int] counters that start at 0 and are only incremented are
      [nat]; integers read from MODELLER files (atom serial numbers, residue
      indices) are [Z].
    - Python [float] is the kernel's binary64 [float].
    - A [dict] is a [gmap]; a Python list is a [list].
    - A raised exception is the [Raise] result; code that writes files or
      assigns attributes of [self] passes the store explicitly and returns
      the store reached when the exception was raised. *)

From Stdlib Require Import Floats Uint63 ZArith Ascii String.
From stdpp Require Import gmap strings list pretty.

Local Open Scope string_scope.
Local Open Scope list_scope.

(** ** Exceptions and results *)

(** The exceptions the module raises itself ([ValueError],
    [NotImplementedError], [IOError]) and the built-in ones its
    expressions can raise. *)
Inductive exn : Type :=
| ValueError (msg : string)
| NotImplementedError (msg : string)
| IOError (msg : string)
| OSError
| KeyError
| IndexError
| AttributeError
| ZeroDivisionError.

Inductive result (A : Type) : Type :=
| Ok (a : A)
| Raise (e : exn).

Arguments Ok {A} a.
Arguments Raise {A} e.

#[global] Instance result_ret : MRet result := fun A a => Ok a.

#[global] Instance result_bind : MBind result := fun A B f m =>
  match m with
  | Ok a => f a
  | Raise e => Raise e
  end.

(** [d[k]] on a dict: [KeyError] when the key is absent. *)
Definition getitem `{Countable K} {V : Type} (d : gmap K V) (k : K) : result V :=
  match d !! k with
  | Some v => Ok v
  | None => Raise KeyError
  end.

(** [l[i]] on a list with a non-negative index: [IndexError] out of range. *)
Definition list_getitem {A : Type} (l : list A) (i : nat) : result A :=
  match l !! i with
  | Some v => Ok v
  | None => Raise IndexError
  end.

(** [l[i] = v] on a list: [IndexError] out of range. *)
Definition list_setitem {A : Type} (l : list A) (i : nat) (v : A) : result (list A) :=
  if bool_decide (i < length l) then Ok (<[i := v]> l) else Raise IndexError.

(** ** Strings *)

Definition nl : string := String (ascii_of_nat 10) EmptyString.

(** [s] occurs in [t] as a contiguous substring. *)
Definition contains (t s : string) : Prop :=
  exists pre post : string, t = pre +:+ s +:+ post.

(** Joining a list of one-character strings with the empty separator. *)
Definition join_codes (l : list ascii) : string := string_of_list_ascii l.

(** [os.path.basename] (POSIX): what follows the last slash. *)
Fixpoint basename_from (acc : string) (p : string) : string :=
  match p with
  | EmptyString => acc
  | String c p' =>
      if bool_decide (c = "/"%char) then basename_from p' p' else basename_from acc p'
  end.

Definition basename (p : string) : string := basename_from p p.

Fixpoint ends_with_slash (p : string) : bool :=
  match p with
  | EmptyString => false
  | String c EmptyString => bool_decide (c = "/"%char)
  | String _ p' => ends_with_slash p'
  end.

(** [os.path.join(a, b)] (POSIX) for two components. *)
Definition path_join (a b : string) : string :=
  match b with
  | String "/"%char _ => b
  | _ =>
      if bool_decide (a = "") || ends_with_slash a then a +:+ b
      else a +:+ "/" +:+ b
  end.

(** ** Structures as MODELLER presents them *)

Record atom : Type := {
  atom_name : string;
  atom_x : float;
  atom_y : float;
  atom_z : float
}.

(** A residue object.  [index] is its position in its sequence as MODELLER
    numbers them, [num] the residue number of the PDB file, and [_id] the
    attribute the analysis assigns to model residues ([None] while it has
    not been assigned). *)
Record residue : Type := {
  code : ascii;
  index : Z;
  num : string;
  atoms : list atom;
  _id : option nat
}.

Definition set_id (r : residue) (i : nat) : residue :=
  {| code := code r; index := index r; num := num r; atoms := atoms r;
     _id := Some i |}.

(** [r._id]: [AttributeError] when the attribute was never assigned. *)
Definition get_id (r : residue) : result nat :=
  match _id r with
  | Some i => Ok i
  | None => Raise AttributeError
  end.

Record chain : Type := {
  chain_name : string;
  chain_residues : list residue
}.

(** A structure read by [complete_pdb]; its [residues] are those of its
    chains, in order. *)
Record structure : Type := {
  chains : list chain
}.

Definition residues (m : structure) : list residue :=
  concat (chain_residues <$> chains m).

(** [m.chains[name]]. *)
Definition chain_getitem (m : structure) (name : string) : result chain :=
  match find (fun c => bool_decide (chain_name c = name)) (chains m) with
  | Some c => Ok c
  | None => Raise KeyError
  end.

(** A sequence of an alignment. *)
Record sequence_obj : Type := {
  seq_code : string;
  atom_file : string;
  seq_n_chains : nat;
  seq_residues : list residue
}.

(** A column ([aln.positions] element): for each sequence code, the residue
    it holds there; an absent key is a gap. *)
Record alignment : Type := {
  aln_sequences : list sequence_obj;
  positions : list (gmap string residue)
}.

(** [aln[name]]. *)
Definition aln_getitem (aln : alignment) (name : string) : result sequence_obj :=
  match find (fun s => bool_decide (seq_code s = name)) (aln_sequences aln) with
  | Some s => Ok s
  | None => Raise KeyError
  end.

(** [pos.get_residue(seq)]. *)
Definition get_residue (pos : gmap string residue) (seq : sequence_obj) : option residue :=
  pos !! seq_code seq.

(** ** Functions used only in this module *)

Definition _get_modeller_res_code (modeller_res : option residue) : ascii :=
  match modeller_res with
  | None => "-"%char
  | Some r => code r
  end.

Definition main_chain_atoms : gset string :=
  {[ "CA"; "N"; "C"; "O"; "OXT" ]}.

(** ** The restraint group of an atom pair (source lines 279-288) *)

Definition grp_name_of (atm_1_type atm_2_type : string) : string :=
  if bool_decide (atm_1_type = "CA") && bool_decide (atm_2_type = "CA") then "9"
  else if (bool_decide (atm_1_type = "N") && bool_decide (atm_2_type = "O"))
          || (bool_decide (atm_1_type = "O") && bool_decide (atm_2_type = "N")) then "10"
  else if bool_decide (atm_1_type ∈ main_chain_atoms)
          || bool_decide (atm_2_type ∈ main_chain_atoms) then "23"
  else "26".

(** The cases of the classification, as conditions on the two labels. *)
Definition both_ca (t1 t2 : string) : Prop := t1 = "CA" /\ t2 = "CA".

Definition n_and_o (t1 t2 : string) : Prop :=
  (t1 = "N" /\ t2 = "O") \/ (t1 = "O" /\ t2 = "N").

Definition is_main (t : string) : Prop :=
  t = "CA" \/ t = "N" \/ t = "C" \/ t = "O" \/ t = "OXT".

(** ** Sequence identity of model and target (source lines 169-182) *)

(** [float(n)] for a counter.  The conversion goes through a 63-bit
    integer, which is exact for every count a string in memory can reach. *)
Definition float_of_nat (n : nat) : float :=
  PrimFloat.of_uint63 (Uint63.of_Z (Z.of_nat n)).

(** [a / float(b)]: Python raises [ZeroDivisionError] on a zero divisor. *)
Definition truediv (a b : nat) : result float :=
  if bool_decide (b = 0) then Raise ZeroDivisionError
  else Ok (PrimFloat.div (float_of_nat a) (float_of_nat b)).

Definition is_gap (c : ascii) : bool := bool_decide (c = "-"%char).

(** [zip(mod_aliseq, tar_aliseq)]: the columns of the pairwise alignment. *)
Definition columns (mod_aliseq tar_aliseq : string) : list (ascii * ascii) :=
  zip (list_ascii_of_string mod_aliseq) (list_ascii_of_string tar_aliseq).

(** One turn of the counting loop; the accumulator is
    [(matches_count, identities_count)]. *)
Definition seqid_step (acc : nat * nat) (p : ascii * ascii) : nat * nat :=
  let '(matches_count, identities_count) := acc in
  let '(mod_p, tar_p) := p in
  if negb (is_gap mod_p) && negb (is_gap tar_p) then
    (S matches_count,
     if bool_decide (mod_p = tar_p) then S identities_count else identities_count)
  else acc.

Definition seqid_counts (mod_aliseq tar_aliseq : string) : nat * nat :=
  foldl seqid_step (0, 0) (columns mod_aliseq tar_aliseq).

Definition seqid_message (tar_aliseq mod_aliseq : string) : string :=
  "The target and model sequence do not correspond:" +:+ nl
  +:+ "* Tar: " +:+ tar_aliseq +:+ nl +:+ "* Mod: " +:+ mod_aliseq.

(** Lines 169-182: the identity is computed, and the analysis stops with a
    [ValueError] when it is below the threshold. *)
Definition check_seqid (threshold : float) (mod_aliseq tar_aliseq : string)
  : result float :=
  let '(matches_count, identities_count) := seqid_counts mod_aliseq tar_aliseq in
  mod_tar_seqid ← truediv identities_count matches_count;
  if PrimFloat.ltb mod_tar_seqid threshold
  then Raise (ValueError (seqid_message tar_aliseq mod_aliseq))
  else Ok mod_tar_seqid.

(** The two counts as the specification words them: the columns where
    neither side is a gap, and those of them with the same residue code. *)
Definition both_nongap (p : ascii * ascii) : bool :=
  negb (is_gap p.1) && negb (is_gap p.2).

Definition identical (p : ascii * ascii) : bool :=
  both_nongap p && bool_decide (p.1 = p.2).

Definition count_pred {A : Type} (f : A -> bool) (l : list A) : nat :=
  length (List.filter f l).

(** ** Correspondence of model and target residues (source lines 184-194) *)

(** One turn of the loop; the accumulator is
    [(mod_c, tar_c, mod_tar_res_dict)]. *)
Definition res_dict_step (acc : nat * nat * gmap nat nat) (p : ascii * ascii)
  : nat * nat * gmap nat nat :=
  let '(mod_c, tar_c, mod_tar_res_dict) := acc in
  let '(mod_pos, tar_pos) := p in
  let mod_tar_res_dict :=
    if negb (is_gap mod_pos) && negb (is_gap tar_pos)
    then <[mod_c := tar_c]> mod_tar_res_dict else mod_tar_res_dict in
  let mod_c := if negb (is_gap mod_pos) then S mod_c else mod_c in
  let tar_c := if negb (is_gap tar_pos) then S tar_c else tar_c in
  (mod_c, tar_c, mod_tar_res_dict).

Definition build_mod_tar_res_dict (mod_aliseq tar_aliseq : string) : gmap nat nat :=
  (foldl res_dict_step (0, 0, ∅) (columns mod_aliseq tar_aliseq)).2.

(** The 0-based position, in its own sequence, of the residue that column
    [c] holds: the number of non-gap characters before the column. *)
Definition mod_position (cols : list (ascii * ascii)) (c : nat) : nat :=
  count_pred (fun p => negb (is_gap p.1)) (take c cols).

Definition tar_position (cols : list (ascii * ascii)) (c : nat) : nat :=
  count_pred (fun p => negb (is_gap p.2)) (take c cols).

(** ** The helpers of [altmod_utils] *)

(** Modelled from the spec: [get_modeller_atom] of [altmod_utils], a module
    that is not among the sources.  The specification (4.3, step 7) has it
    resolve the atom of a residue by its type label, with no atom when the
    residue lacks that type; the caller tests the result against [None]. *)
Definition get_modeller_atom (res : residue) (atm_type : string) : option atom :=
  find (fun a => bool_decide (atom_name a = atm_type)) (atoms res).

(** Modelled from the spec: [get_modeller_dist] of [altmod_utils], a module
    that is not among the sources.  The specification (4.3, step 8) has it
    return the three-dimensional Euclidean distance of two atoms. *)
Definition get_modeller_dist (a b : atom) : float :=
  let dx := PrimFloat.sub (atom_x a) (atom_x b) in
  let dy := PrimFloat.sub (atom_y a) (atom_y b) in
  let dz := PrimFloat.sub (atom_z a) (atom_z b) in
  PrimFloat.sqrt
    (PrimFloat.add (PrimFloat.add (PrimFloat.mul dx dx) (PrimFloat.mul dy dy))
                   (PrimFloat.mul dz dz)).

(** ** Analysis rows (source lines 295-312) *)

(** The dictionary [pair_results] after its [update]: one field per key. *)
Record row : Type := {
  RST_GRP : string;
  GRP_DN : float;
  GRP_DT : float;
  GRP_DD : float;
  MOD_ATOM_TYPE_I : string;
  MOD_ATOM_TYPE_J : string;
  MOD_ATOM_INDEX_I : Z;
  MOD_ATOM_INDEX_J : Z;
  MOD_RES_PDB_ID_I : Z;
  MOD_RES_PDB_ID_J : Z;
  MOD_RES_NAME_I : ascii;
  MOD_RES_NAME_J : ascii;
  TAR_RES_PDB_ID_I : string;
  TAR_RES_PDB_ID_J : string;
  TAR_RES_NAME_I : ascii;
  TAR_RES_NAME_J : ascii;
  TEM_RES_PDB_ID_I : string;
  TEM_RES_PDB_ID_J : string;
  TEM_RES_NAME_I : ascii;
  TEM_RES_NAME_J : ascii
}.

(** [sorted(results_list[0].keys())]. *)
Definition column_names : list string :=
  [ "GRP_DD"; "GRP_DN"; "GRP_DT";
    "MOD_ATOM_INDEX_I"; "MOD_ATOM_INDEX_J"; "MOD_ATOM_TYPE_I"; "MOD_ATOM_TYPE_J";
    "MOD_RES_NAME_I"; "MOD_RES_NAME_J"; "MOD_RES_PDB_ID_I"; "MOD_RES_PDB_ID_J";
    "RST_GRP";
    "TAR_RES_NAME_I"; "TAR_RES_NAME_J"; "TAR_RES_PDB_ID_I"; "TAR_RES_PDB_ID_J";
    "TEM_RES_NAME_I"; "TEM_RES_NAME_J"; "TEM_RES_PDB_ID_I"; "TEM_RES_PDB_ID_J" ].

(** What [csv.DictWriter] is given for one file: the header (absent when
    there is no row) and the rows, in order. *)
Record csv_file : Type := {
  fieldnames : list string;
  csv_rows : list row
}.

Definition csv_of (results_list : list row) : csv_file :=
  match results_list with
  | [] => {| fieldnames := []; csv_rows := [] |}
  | _ :: _ => {| fieldnames := column_names; csv_rows := results_list |}
  end.

(** ** The object and its store *)

(** The attributes [set_target_structure] assigns. *)
Record target_options : Type := {
  target_filepath : string;
  target_chain : option string;
  mod_tar_seqid_threshold : float;
  use_target_distances : bool
}.

(** The attributes of [self] the analysis reads or assigns.  [target] is
    [None] until [set_target_structure] is called ([hasattr] is false);
    [hddr_dict_all] is [self.hddr_dict] at the key all. *)
Record automodel : Type := {
  sequence : string;
  knowns : list string;
  target : option target_options;
  _has_custom_hddr_options : bool;
  hddr_dict_all : list (Z * Z);
  atm_type_dict : gmap Z string;
  atm_to_res_dict : gmap Z Z;
  hddr_params_filepaths : list (option string);
  atom_files_directory : list string
}.

(** The object together with the files written so far, oldest first; each
    [open(name, w)] with the rows written to it is one entry. *)
Record store : Type := {
  self : automodel;
  files : list (string * csv_file)
}.

Definition with_target (a : automodel) (t : target_options) : automodel :=
  {| sequence := sequence a; knowns := knowns a; target := Some t;
     _has_custom_hddr_options := _has_custom_hddr_options a;
     hddr_dict_all := hddr_dict_all a; atm_type_dict := atm_type_dict a;
     atm_to_res_dict := atm_to_res_dict a;
     hddr_params_filepaths := hddr_params_filepaths a;
     atom_files_directory := atom_files_directory a |}.

Definition with_hddr_params_filepaths (a : automodel) (l : list (option string))
  : automodel :=
  {| sequence := sequence a; knowns := knowns a; target := target a;
     _has_custom_hddr_options := _has_custom_hddr_options a;
     hddr_dict_all := hddr_dict_all a; atm_type_dict := atm_type_dict a;
     atm_to_res_dict := atm_to_res_dict a;
     hddr_params_filepaths := l;
     atom_files_directory := atom_files_directory a |}.

Definition write_file (s : store) (name : string) (f : csv_file) : store :=
  {| self := self s; files := files s ++ [(name, f)] |}.

Definition assign_hddr_params_filepaths (s : store) (l : list (option string))
  : store :=
  {| self := with_hddr_params_filepaths (self s) l; files := files s |}.

(** An attribute of [self] that [set_target_structure] assigns:
    [AttributeError] before the call. *)
Definition get_target (a : automodel) : result target_options :=
  match target a with
  | Some t => Ok t
  | None => Raise AttributeError
  end.

(** [set_target_structure], with the defaults of its keyword arguments. *)
Definition default_mod_tar_seqid_threshold : float := 0x1.fae147ae147aep-1%float.

Definition set_target_structure (a : automodel) (target_filepath : string)
    (target_chain : option string) (mod_tar_seqid_threshold : float)
    (use_target_distances : bool) : automodel :=
  with_target a
    {| target_filepath := target_filepath; target_chain := target_chain;
       mod_tar_seqid_threshold := mod_tar_seqid_threshold;
       use_target_distances := use_target_distances |}.

Definition set_target_structure_default (a : automodel) (target_filepath : string)
  : automodel :=
  set_target_structure a target_filepath None default_mod_tar_seqid_threshold false.

(** ** What the analysis asks of MODELLER and of the file system *)

Record services : Type := {
  (** [self.read_alignment()] *)
  read_alignment : alignment;
  (** [complete_pdb(self.env, path)] *)
  complete_pdb : string -> result structure;
  (** The columns of [new_aln] after [salign]: the residue of the first
      sequence (the target) and of the second (the model), [None] for a gap. *)
  salign : string -> string -> list (option residue * option residue);
  (** [os.path.isfile] *)
  isfile : string -> bool;
  (** [os.listdir]: the names in a directory, [None] when it cannot be
      listed *)
  listdir : string -> option (list string)
}.

(** [os.listdir(adp)]: an [OSError] when the directory cannot be listed. *)
Definition os_listdir (sv : services) (adp : string) : result (list string) :=
  match listdir sv adp with
  | Some content => Ok content
  | None => Raise OSError
  end.

(** ** Model/template matches (source lines 214-226) *)

(** One turn of the loop over [aln.positions]; the accumulator is
    [(matches_dict, mod_c)].  The model residue stored in the tuple is the
    very object that receives [_id] two statements later, so the stored
    residue carries the counter.  The list [matches] the source also fills
    is never read and is left out. *)
Definition matches_step (modeller_mod_seq modeller_tem_seq : sequence_obj)
    (acc : gmap Z (residue * residue) * nat) (pos : gmap string residue)
  : gmap Z (residue * residue) * nat :=
  let '(matches_dict, mod_c) := acc in
  match get_residue pos modeller_mod_seq with
  | None => (matches_dict, mod_c)
  | Some mod_pos =>
      let mod_pos := set_id mod_pos mod_c in
      let matches_dict :=
        match get_residue pos modeller_tem_seq with
        | Some tem_pos => <[index mod_pos := (mod_pos, tem_pos)]> matches_dict
        | None => matches_dict
        end in
      (matches_dict, S mod_c)
  end.

Definition build_matches_dict (aln : alignment)
    (modeller_mod_seq modeller_tem_seq : sequence_obj) : gmap Z (residue * residue) :=
  (foldl (matches_step modeller_mod_seq modeller_tem_seq) (∅, 0) (positions aln)).1.

(** ** One restraint (source lines 235-315) *)

(** The lookups of the [try] block for one atom: a [KeyError] of either
    dictionary is caught, which [None] stands for. *)
Definition matched_residues (a : automodel) (matches_dict : gmap Z (residue * residue))
    (atm : Z) : option (residue * residue) :=
  res ← atm_to_res_dict a !! atm; matches_dict !! res.

Definition make_row (grp_dn grp_dt : float) (atm_1_type atm_2_type : string)
    (atm_1 atm_2 : Z) (mod_res_1 mod_res_2 tar_res_1 tar_res_2 tem_res_1 tem_res_2 : residue)
  : row :=
  {| RST_GRP := grp_name_of atm_1_type atm_2_type;
     GRP_DN := grp_dn;
     GRP_DT := grp_dt;
     GRP_DD := PrimFloat.sub grp_dn grp_dt;
     MOD_ATOM_TYPE_I := atm_1_type; MOD_ATOM_TYPE_J := atm_2_type;
     MOD_ATOM_INDEX_I := atm_1; MOD_ATOM_INDEX_J := atm_2;
     MOD_RES_PDB_ID_I := index mod_res_1; MOD_RES_PDB_ID_J := index mod_res_2;
     MOD_RES_NAME_I := code mod_res_1; MOD_RES_NAME_J := code mod_res_2;
     TAR_RES_PDB_ID_I := num tar_res_1; TAR_RES_PDB_ID_J := num tar_res_2;
     TAR_RES_NAME_I := code tar_res_1; TAR_RES_NAME_J := code tar_res_2;
     TEM_RES_PDB_ID_I := num tem_res_1; TEM_RES_PDB_ID_J := num tem_res_2;
     TEM_RES_NAME_I := code tem_res_1; TEM_RES_NAME_J := code tem_res_2 |}.

(** The body of the loop over the restraints: [Ok None] is [continue],
    [Ok (Some r)] the row appended to [results_list]. *)
Definition analyse_restraint (a : automodel)
    (matches_dict : gmap Z (residue * residue)) (mod_tar_res_dict : gmap nat nat)
    (tar_residues : list residue) (p : Z * Z) : result (option row) :=
  let '(atm_1, atm_2) := p in
  atm_1_type ← getitem (atm_type_dict a) atm_1;
  atm_2_type ← getitem (atm_type_dict a) atm_2;
  match matched_residues a matches_dict atm_1 with
  | None => Ok None
  | Some (mod_res_1, tem_res_1) =>
  match matched_residues a matches_dict atm_2 with
  | None => Ok None
  | Some (mod_res_2, tem_res_2) =>
  id_1 ← get_id mod_res_1;
  match mod_tar_res_dict !! id_1 with
  | None => Ok None
  | Some tar_1 =>
  id_2 ← get_id mod_res_2;
  match mod_tar_res_dict !! id_2 with
  | None => Ok None
  | Some tar_2 =>
  tar_res_1 ← list_getitem tar_residues tar_1;
  tar_res_2 ← list_getitem tar_residues tar_2;
  let tem_atm_1 := get_modeller_atom tem_res_1 atm_1_type in
  let tem_atm_2 := get_modeller_atom tem_res_2 atm_2_type in
  let tar_atm_1 := get_modeller_atom tar_res_1 atm_1_type in
  let tar_atm_2 := get_modeller_atom tar_res_2 atm_2_type in
  match tem_atm_1, tem_atm_2 with
  | Some tem_atm_1, Some tem_atm_2 =>
      let grp_dt := get_modeller_dist tem_atm_1 tem_atm_2 in
      match tar_atm_1, tar_atm_2 with
      | Some tar_atm_1, Some tar_atm_2 =>
          let grp_dn := get_modeller_dist tar_atm_1 tar_atm_2 in
          Ok (Some (make_row grp_dn grp_dt atm_1_type atm_2_type atm_1 atm_2
                      mod_res_1 mod_res_2 tar_res_1 tar_res_2 tem_res_1 tem_res_2))
      | _, _ => Ok None
      end
  | _, _ => Ok None
  end
  end end end end.

(** The loop over [self.hddr_dict] at the key all: the rows, in order, or
    the first exception. *)
Fixpoint analyse_restraints (a : automodel)
    (matches_dict : gmap Z (residue * residue)) (mod_tar_res_dict : gmap nat nat)
    (tar_residues : list residue) (hddrs : list (Z * Z)) (results_list : list row)
  : result (list row) :=
  match hddrs with
  | [] => Ok results_list
  | p :: hddrs' =>
      r ← analyse_restraint a matches_dict mod_tar_res_dict tar_residues p;
      analyse_restraints a matches_dict mod_tar_res_dict tar_residues hddrs'
        (match r with Some pair_results => results_list ++ [pair_results]
                    | None => results_list end)
  end.

(** ** One template (source lines 203-334) *)

Definition analysis_filename_of (sequence : string) (tem_idx : nat) : string :=
  sequence +:+ "_tar_tem_" +:+ pretty tem_idx +:+ ".csv".

(** Lines 208-315 for one template: its sequence in the alignment, the
    matches and the rows of the restraints. *)
Definition template_rows (a : automodel) (aln : alignment)
    (modeller_mod_seq : sequence_obj) (mod_tar_res_dict : gmap nat nat)
    (tar_residues : list residue) (tem_name : string) : result (list row) :=
  modeller_tem_seq ← aln_getitem aln tem_name;
  let matches_dict := build_matches_dict aln modeller_mod_seq modeller_tem_seq in
  analyse_restraints a matches_dict mod_tar_res_dict tar_residues
    (hddr_dict_all a) [].

(** One turn of the loop over the templates: the rows are computed, the
    file is written and its name is stored at the index of the template. *)
Definition analyse_template (aln : alignment) (modeller_mod_seq : sequence_obj)
    (mod_tar_res_dict : gmap nat nat) (tar_residues : list residue)
    (tem_idx : nat) (tem_name : string) (s : store) : result unit * store :=
  match template_rows (self s) aln modeller_mod_seq mod_tar_res_dict tar_residues
          tem_name with
  | Raise e => (Raise e, s)
  | Ok results_list =>
      let analysis_filename := analysis_filename_of (sequence (self s)) tem_idx in
      let s := write_file s analysis_filename (csv_of results_list) in
      match list_setitem (hddr_params_filepaths (self s)) tem_idx
              (Some analysis_filename) with
      | Raise e => (Raise e, s)
      | Ok l => (Ok (), assign_hddr_params_filepaths s l)
      end
  end.

(** [enumerate(l)], counting from [n]. *)
Fixpoint enumerate_from {A : Type} (n : nat) (l : list A) : list (nat * A) :=
  match l with
  | [] => []
  | x :: l' => (n, x) :: enumerate_from (S n) l'
  end.

Definition enumerate {A : Type} (l : list A) : list (nat * A) := enumerate_from 0 l.

Fixpoint analyse_templates (aln : alignment) (modeller_mod_seq : sequence_obj)
    (mod_tar_res_dict : gmap nat nat) (tar_residues : list residue)
    (tems : list (nat * string)) (s : store) : result unit * store :=
  match tems with
  | [] => (Ok (), s)
  | (tem_idx, tem_name) :: tems' =>
      match analyse_template aln modeller_mod_seq mod_tar_res_dict tar_residues
              tem_idx tem_name s with
      | (Raise e, s') => (Raise e, s')
      | (Ok _, s') =>
          analyse_templates aln modeller_mod_seq mod_tar_res_dict tar_residues tems' s'
      end
  end.

(** ** Template files (source lines 337-371) *)

(** The file names tried in a directory, in the order of the tuple. *)
Definition candidate_names (tem_seq_obj : sequence_obj) : list string :=
  [ seq_code tem_seq_obj;
    seq_code tem_seq_obj +:+ ".pdb";
    basename (atom_file tem_seq_obj);
    basename (atom_file tem_seq_obj) +:+ ".pdb" ].

(** The inner loop over the names, for one directory; the accumulator is
    [(template_filepaths, template_found)].  Its [break] leaves this loop
    alone. *)
Fixpoint search_names (atom_dirpath : string) (atom_dir_content : list string)
    (names : list string) (acc : list string * bool) : list string * bool :=
  match names with
  | [] => acc
  | tem_seq_obj_code :: names' =>
      if bool_decide (tem_seq_obj_code ∈ atom_dir_content)
      then (acc.1 ++ [path_join atom_dirpath tem_seq_obj_code], true)
      else search_names atom_dirpath atom_dir_content names' acc
  end.

(** The loop over the directories zipped with their contents. *)
Definition search_dirs (dirs : list (string * list string)) (tem_seq_obj : sequence_obj)
    (acc : list string * bool) : list string * bool :=
  foldl (fun acc d => search_names d.1 d.2 (candidate_names tem_seq_obj) acc) acc dirs.

Definition not_found_message (tem_seq_obj : sequence_obj) : string :=
  "Structure file not found for template " +:+ seq_code tem_seq_obj +:+ ".".

(** The loop over [enumerate(aln)]. *)
Fixpoint template_filepaths_loop (sv : services) (n_knowns : nat)
    (dirs : list (string * list string)) (seqs : list (nat * sequence_obj))
    (template_filepaths : list string) : result (list string) :=
  match seqs with
  | [] => Ok template_filepaths
  | (tem_idx, tem_seq_obj) :: seqs' =>
      let '(template_filepaths, template_found) :=
        if isfile sv (atom_file tem_seq_obj)
        then (template_filepaths ++ [atom_file tem_seq_obj], true)
        else search_dirs dirs tem_seq_obj (template_filepaths, false) in
      if negb template_found then Raise (IOError (not_found_message tem_seq_obj))
      else if bool_decide (tem_idx + 1 = n_knowns) then Ok template_filepaths
      else template_filepaths_loop sv n_knowns dirs seqs' template_filepaths
  end.

Definition _get_template_filepaths (sv : services) (a : automodel) (aln : alignment)
  : result (list string) :=
  atom_dirs_content_list ← mapM (os_listdir sv) (atom_files_directory a);
  template_filepaths_loop sv (length (knowns a))
    (zip (atom_files_directory a) atom_dirs_content_list)
    (enumerate (aln_sequences aln)) [].

(** ** The analysis (source lines 126-334) *)

Definition multichain_model_message : string :=
  "Optimal restraints with multiple chain models are currently not implemented in altMOD.".

Definition multichain_target_message (n : nat) : string :=
  "The selected target structure has more than chain (" +:+ pretty n
  +:+ "). In order to extract optimal restraints, provide to the 'set_target_structure' the chain corresponding to the model.".

(** Lines 147-153: the residues of the target the analysis works with. *)
Definition get_target_residues (sv : services) (t : target_options)
  : result (list residue) :=
  modeller_tar_obj ← complete_pdb sv (target_filepath t);
  if bool_decide (1 < length (chains modeller_tar_obj)) then
    match target_chain t with
    | None =>
        Raise (ValueError (multichain_target_message (length (chains modeller_tar_obj))))
    | Some c => ch ← chain_getitem modeller_tar_obj c; Ok (chain_residues ch)
    end
  else Ok (residues modeller_tar_obj).

(** What lines 135-161 establish. *)
Record aligned : Type := {
  al_aln : alignment;
  al_mod_seq : sequence_obj;
  al_target : target_options;
  al_tar_residues : list residue;
  al_tar_aliseq : string;
  al_mod_aliseq : string
}.

Definition align_model_and_target (sv : services) (a : automodel) : result aligned :=
  let aln := read_alignment sv in
  modeller_mod_seq ← aln_getitem aln (sequence a);
  if bool_decide (1 < seq_n_chains modeller_mod_seq)
  then Raise (NotImplementedError multichain_model_message)
  else
    let mod_seq := join_codes (code <$> seq_residues modeller_mod_seq) in
    t ← get_target a;
    tar_residues ← get_target_residues sv t;
    let tar_seq := join_codes (code <$> tar_residues) in
    let new_aln := salign sv tar_seq mod_seq in
    Ok {| al_aln := aln; al_mod_seq := modeller_mod_seq; al_target := t;
          al_tar_residues := tar_residues;
          al_tar_aliseq :=
            join_codes ((fun p => _get_modeller_res_code p.1) <$> new_aln);
          al_mod_aliseq :=
            join_codes ((fun p => _get_modeller_res_code p.2) <$> new_aln) |}.

(** Lines 169-201, which write nothing: the identity check, the residue
    correspondence and the search of the template files (whose result the
    analysis does not use). *)
Definition check_and_correspond (sv : services) (a : automodel) (al : aligned)
  : result (gmap nat nat) :=
  _ ← check_seqid (mod_tar_seqid_threshold (al_target al))
        (al_mod_aliseq al) (al_tar_aliseq al);
  let mod_tar_res_dict :=
    build_mod_tar_res_dict (al_mod_aliseq al) (al_tar_aliseq al) in
  _ ← _get_template_filepaths sv a (al_aln al);
  Ok mod_tar_res_dict.

Definition analyse_target_template_pairs (sv : services) (s : store)
  : result unit * store :=
  match align_model_and_target sv (self s) with
  | Raise e => (Raise e, s)
  | Ok al =>
      match check_and_correspond sv (self s) al with
      | Raise e => (Raise e, s)
      | Ok mod_tar_res_dict =>
          analyse_templates (al_aln al) (al_mod_seq al) mod_tar_res_dict
            (al_tar_residues al) (enumerate (knowns (self s))) s
      end
  end.

(** ** The build stages (source lines 74-123) *)

(** The keyword arguments [set_custom_hddr_options] hands to the parent
    class. *)
Record hddr_options : Type := {
  opt_hddr_params_filepaths : list (option string);
  opt_sigma_col : string;
  opt_location_col : string;
  opt_atom_i_col : string;
  opt_atom_j_col : string
}.

(** The methods inherited from [Automodel_custom_restraints], whose module
    is not among the sources: each is any function of the store that
    returns or raises. *)
Record parent_class : Type := {
  build_initial_files : Z -> store -> result unit * store;
  Automodel_custom_restraints_set_custom_hddr_options :
    hddr_options -> store -> result unit * store;
  rebuild_restraints_file : store -> result unit * store
}.

(** [set_custom_hddr_options] called with no argument of the caller's. *)
Definition set_custom_hddr_options (pc : parent_class) (s : store)
  : result unit * store :=
  let hddr_params_filepaths := replicate (length (knowns (self s))) None in
  match get_target (self s) with
  | Raise e => (Raise e, s)
  | Ok t =>
      let location_col := if negb (use_target_distances t) then "GRP_DT" else "GRP_DN" in
      Automodel_custom_restraints_set_custom_hddr_options pc
        {| opt_hddr_params_filepaths := hddr_params_filepaths;
           opt_sigma_col := "GRP_DD";
           opt_location_col := location_col;
           opt_atom_i_col := "MOD_ATOM_INDEX_I";
           opt_atom_j_col := "MOD_ATOM_INDEX_J" |} s
  end.

(** The methods [homcsr] calls. *)
Inductive stage : Type :=
| Build_initial_files
| Set_custom_hddr_options
| Analyse_target_template_pairs
| Rebuild_restraints_file.

(** Computations of [homcsr]: they pass the store and the list of the
    stages called so far, oldest first, and may raise. *)
Definition traced (A : Type) : Type :=
  store * list stage -> result A * (store * list stage).

#[global] Instance traced_ret : MRet traced := fun A a st => (Ok a, st).

#[global] Instance traced_bind : MBind traced := fun A B f m st =>
  match m st with
  | (Ok a, st') => f a st'
  | (Raise e, st') => (Raise e, st')
  end.

Definition raise {A : Type} (e : exn) : traced A := fun st => (Raise e, st).

Definition read {A : Type} (f : automodel -> A) : traced A :=
  fun st => (Ok (f (self st.1)), st).

(** Calling the method [g]: the call is recorded, then the method runs. *)
Definition call (g : stage) (m : store -> result unit * store) : traced unit :=
  fun st => let '(r, s') := m st.1 in (r, (s', st.2 ++ [g])).

Definition homcsr_message : string :=
  "Please define a target filepath using the 'set_target_structure' method.".

Definition homcsr (sv : services) (pc : parent_class) (exit_stage : Z) : traced unit :=
  tgt ← read target;
  if negb (bool_decide (is_Some tgt)) then raise (ValueError homcsr_message)
  else
    call Build_initial_files (build_initial_files pc exit_stage);;
    configured ← read _has_custom_hddr_options;
    (if negb configured
     then call Set_custom_hddr_options (set_custom_hddr_options pc)
     else mret ());;
    call Analyse_target_template_pairs (analyse_target_template_pairs sv);;
    call Rebuild_restraints_file (rebuild_restraints_file pc).

(** The stages of a complete build, given whether custom options were
    configured when the initial files are done. *)
Definition stages_in_order (configured : bool) : list stage :=
  [Build_initial_files]
  ++ (if configured then [] else [Set_custom_hddr_options])
  ++ [Analyse_target_template_pairs; Rebuild_restraints_file].

(** ** Notions the properties are stated with *)

(** The exceptions a failed lookup raises. *)
Definition lookup_error (e : exn) : Prop :=
  e = KeyError \/ e = IndexError \/ e = AttributeError.

(** The model residue of index [ri] stands in a column of the alignment
    that also holds a residue of the template. *)
Definition template_aligned (aln : alignment) (modeller_mod_seq modeller_tem_seq : sequence_obj)
    (ri : Z) : Prop :=
  exists pos m te,
    pos ∈ positions aln /\ get_residue pos modeller_mod_seq = Some m
    /\ index m = ri /\ get_residue pos modeller_tem_seq = Some te.

(** Everything a restraint needs to give a row, and the row it gives: the
    atom types, the model and template residues of both atoms, the target
    residues the correspondence leads to, and the four atoms. *)
Inductive qualifies (a : automodel) (matches_dict : gmap Z (residue * residue))
    (mod_tar_res_dict : gmap nat nat) (tar_residues : list residue)
    (atm_1 atm_2 : Z) : row -> Prop :=
| qualifies_intro (t1 t2 : string) (m1 te1 m2 te2 : residue) (i1 i2 k1 k2 : nat)
    (tr1 tr2 : residue) (tem_atm_1 tem_atm_2 tar_atm_1 tar_atm_2 : atom) :
    atm_type_dict a !! atm_1 = Some t1 ->
    atm_type_dict a !! atm_2 = Some t2 ->
    matched_residues a matches_dict atm_1 = Some (m1, te1) ->
    matched_residues a matches_dict atm_2 = Some (m2, te2) ->
    _id m1 = Some i1 -> _id m2 = Some i2 ->
    mod_tar_res_dict !! i1 = Some k1 -> mod_tar_res_dict !! i2 = Some k2 ->
    tar_residues !! k1 = Some tr1 -> tar_residues !! k2 = Some tr2 ->
    get_modeller_atom te1 t1 = Some tem_atm_1 ->
    get_modeller_atom te2 t2 = Some tem_atm_2 ->
    get_modeller_atom tr1 t1 = Some tar_atm_1 ->
    get_modeller_atom tr2 t2 = Some tar_atm_2 ->
    qualifies a matches_dict mod_tar_res_dict tar_residues atm_1 atm_2
      (make_row (get_modeller_dist tar_atm_1 tar_atm_2)
                (get_modeller_dist tem_atm_1 tem_atm_2)
                t1 t2 atm_1 atm_2 m1 m2 tr1 tr2 te1 te2).

(** The row a restraint adds to the table, if any. *)
Definition emitted_row (a : automodel) (matches_dict : gmap Z (residue * residue))
    (mod_tar_res_dict : gmap nat nat) (tar_residues : list residue) (p : Z * Z)
  : option row :=
  match analyse_restraint a matches_dict mod_tar_res_dict tar_residues p with
  | Ok r => r
  | Raise _ => None
  end.

(** The path one directory adds for a template: the first candidate name
    that the directory holds, joined to the directory. *)
Definition found_in_dir (tem_seq_obj : sequence_obj) (d : string * list string)
  : option string :=
  path_join d.1 <$> find (fun n => bool_decide (n ∈ d.2)) (candidate_names tem_seq_obj).

(** The name stored at the index of every template of [tems], in turn. *)
Definition record_filepaths (sequence : string) (tems : list (nat * string))
    (l : list (option string)) : list (option string) :=
  foldl (fun l t => <[t.1 := Some (analysis_filename_of sequence t.1)]> l) l tems.

(** The sequences of the alignment that [_get_template_filepaths] goes
    through: the first [n_knowns] of them, and all of them when that number
    is 0 or exceeds theirs. *)
Definition examined_sequences (n_knowns : nat) (seqs : list sequence_obj)
  : list sequence_obj :=
  if bool_decide (1 <= n_knowns <= length seqs) then take n_knowns seqs else seqs.

(** The method a stage of [homcsr] stands for. *)
Definition run_stage (sv : services) (pc : parent_class) (exit_stage : Z)
    (g : stage) : store -> result unit * store :=
  match g with
  | Build_initial_files => build_initial_files pc exit_stage
  | Set_custom_hddr_options => set_custom_hddr_options pc
  | Analyse_target_template_pairs => analyse_target_template_pairs sv
  | Rebuild_restraints_file => rebuild_restraints_file pc
  end.

(** The methods of [gs] run one after the other, each on the store the one
    before left, up to the first that raises. *)
Fixpoint run_stages (sv : services) (pc : parent_class) (exit_stage : Z)
    (gs : list stage) (s : store) : result unit * store :=
  match gs with
  | [] => (Ok (), s)
  | g :: gs' =>
      match run_stage sv pc exit_stage g s with
      | (Ok _, s1) => run_stages sv pc exit_stage gs' s1
      | (Raise e, s1) => (Raise e, s1)
      end
  end.

(** The 0-based position of the model residue of column [c] of the
    alignment: the number of model residues in the columns before it. *)
Definition mod_rank (aln : alignment) (modeller_mod_seq : sequence_obj) (c : nat)
  : nat :=
  count_pred (fun pos => bool_decide (is_Some (get_residue pos modeller_mod_seq)))
    (take c (positions aln)).

(** In the columns of the two aligned sequences, the model residue of
    0-based position [i] faces the target residue of 0-based position [k]:
    one column holds both, neither being a gap. *)
Definition target_aligned (mod_aliseq tar_aliseq : string) (i k : nat) : Prop :=
  exists (c : nat) (mod_pos tar_pos : ascii),
    columns mod_aliseq tar_aliseq !! c = Some (mod_pos, tar_pos)
    /\ mod_pos <> "-"%char /\ tar_pos <> "-"%char
    /\ mod_position (columns mod_aliseq tar_aliseq) c = i
    /\ tar_position (columns mod_aliseq tar_aliseq) c = k.

(** The residues and atoms found for one atom of a restraint. *)
Record resolved_atom : Type := {
  res_mod : residue;
  res_tem : residue;
  res_tar : residue;
  atm_tem : atom;
  atm_tar : atom
}.

(** The atom [atm] of type [atm_type] is resolved to [x]: a column of the
    alignment holds the model residue of the atom and a template residue;
    the model residue, by its position, faces a target residue in the two
    aligned sequences; the template and the target residue hold an atom of
    the type. *)
Definition resolves (a : automodel) (aln : alignment)
    (modeller_mod_seq modeller_tem_seq : sequence_obj)
    (mod_aliseq tar_aliseq : string) (tar_residues : list residue)
    (atm : Z) (atm_type : string) (x : resolved_atom) : Prop :=
  atm_type_dict a !! atm = Some atm_type
  /\ exists (c : nat) (pos : gmap string residue) (k : nat),
       positions aln !! c = Some pos
       /\ get_residue pos modeller_mod_seq = Some (res_mod x)
       /\ atm_to_res_dict a !! atm = Some (index (res_mod x))
       /\ get_residue pos modeller_tem_seq = Some (res_tem x)
       /\ target_aligned mod_aliseq tar_aliseq (mod_rank aln modeller_mod_seq c) k
       /\ tar_residues !! k = Some (res_tar x)
       /\ get_modeller_atom (res_tem x) atm_type = Some (atm_tem x)
       /\ get_modeller_atom (res_tar x) atm_type = Some (atm_tar x).

(** The tag of a pair of atom types, by cases. *)
Definition tag_of_types (t1 t2 tag : string) : Prop :=
  (tag = "9" /\ both_ca t1 t2)
  \/ (tag = "10" /\ n_and_o t1 t2)
  \/ (tag = "23" /\ ~ both_ca t1 t2 /\ ~ n_and_o t1 t2 /\ (is_main t1 \/ is_main t2))
  \/ (tag = "26" /\ ~ is_main t1 /\ ~ is_main t2).

(** The twenty values of the row of a restraint whose atoms [atm_1] and
    [atm_2], of types [t1] and [t2], are resolved to [x1] and [x2]. *)
Definition row_holds (atm_1 atm_2 : Z) (t1 t2 : string) (x1 x2 : resolved_atom)
    (r : row) : Prop :=
  tag_of_types t1 t2 (RST_GRP r)
  /\ GRP_DN r = get_modeller_dist (atm_tar x1) (atm_tar x2)
  /\ GRP_DT r = get_modeller_dist (atm_tem x1) (atm_tem x2)
  /\ GRP_DD r = PrimFloat.sub (GRP_DN r) (GRP_DT r)
  /\ MOD_ATOM_TYPE_I r = t1 /\ MOD_ATOM_TYPE_J r = t2
  /\ MOD_ATOM_INDEX_I r = atm_1 /\ MOD_ATOM_INDEX_J r = atm_2
  /\ MOD_RES_PDB_ID_I r = index (res_mod x1) /\ MOD_RES_PDB_ID_J r = index (res_mod x2)
  /\ MOD_RES_NAME_I r = code (res_mod x1) /\ MOD_RES_NAME_J r = code (res_mod x2)
  /\ TAR_RES_PDB_ID_I r = num (res_tar x1) /\ TAR_RES_PDB_ID_J r = num (res_tar x2)
  /\ TAR_RES_NAME_I r = code (res_tar x1) /\ TAR_RES_NAME_J r = code (res_tar x2)
  /\ TEM_RES_PDB_ID_I r = num (res_tem x1) /\ TEM_RES_PDB_ID_J r = num (res_tem x2)
  /\ TEM_RES_NAME_I r = code (res_tem x1) /\ TEM_RES_NAME_J r = code (res_tem x2).

(** The files a log of writes leaves on a file system [fs]: each write
    creates the file or replaces the one of that name. *)
Definition file_system_after (fs : gmap string csv_file)
    (writes : list (string * csv_file)) : gmap string csv_file :=
  foldl (fun fs w => <[w.1 := w.2]> fs) fs writes.

(** ** A small build: one template, two residues, one restraint *)

Definition ex_atom (x y z : float) : atom :=
  {| atom_name := "CA"; atom_x := x; atom_y := y; atom_z := z |}.

Definition ex_residue (c : ascii) (i : Z) (n : string) (ats : list atom) : residue :=
  {| code := c; index := i; num := n; atoms := ats; _id := None |}.

Definition ex_mod_1 : residue := ex_residue "A" 1 "1" [].
Definition ex_mod_2 : residue := ex_residue "C" 2 "2" [].
Definition ex_tem_1 : residue := ex_residue "A" 1 "10" [ex_atom 0 0 0].
Definition ex_tem_2 : residue := ex_residue "C" 2 "11" [ex_atom 3 4 0].
Definition ex_tar_1 : residue := ex_residue "A" 1 "101" [ex_atom 1 1 1].
Definition ex_tar_2 : residue := ex_residue "C" 2 "102" [ex_atom 1 7 9].
Definition ex_tar_2' : residue := ex_residue "D" 2 "102" [ex_atom 1 7 9].

Definition ex_mod_seq : sequence_obj :=
  {| seq_code := "model_1"; atom_file := "model_1"; seq_n_chains := 1;
     seq_residues := [ex_mod_1; ex_mod_2] |}.

Definition ex_tem_seq : sequence_obj :=
  {| seq_code := "tem_0"; atom_file := "tem_0.pdb"; seq_n_chains := 1;
     seq_residues := [ex_tem_1; ex_tem_2] |}.

Definition ex_aln : alignment :=
  {| aln_sequences := [ex_tem_seq; ex_mod_seq];
     positions := [ {[ "model_1" := ex_mod_1; "tem_0" := ex_tem_1 ]};
                    {[ "model_1" := ex_mod_2; "tem_0" := ex_tem_2 ]} ] |}.

(** Targets: the protein of the model, a protein that differs in one
    residue, a structure of three chains, and a structure with no residue. *)
Definition ex_tar : structure :=
  {| chains := [ {| chain_name := "A"; chain_residues := [ex_tar_1; ex_tar_2] |} ] |}.

Definition ex_tar_other : structure :=
  {| chains := [ {| chain_name := "A"; chain_residues := [ex_tar_1; ex_tar_2'] |} ] |}.

Definition ex_tar_3 : structure :=
  {| chains := [ {| chain_name := "A"; chain_residues := [ex_tar_1; ex_tar_2] |};
                 {| chain_name := "B"; chain_residues := [ex_tar_1] |};
                 {| chain_name := "C"; chain_residues := [] |} ] |}.

Definition ex_tar_empty : structure :=
  {| chains := [ {| chain_name := "A"; chain_residues := [] |} ] |}.

(** An aligner that pairs the residues by position and sets the rest of
    the longer sequence against gaps. *)
Definition ex_salign (tar_seq mod_seq : string)
  : list (option residue * option residue) :=
  let t := list_ascii_of_string tar_seq in
  let m := list_ascii_of_string mod_seq in
  zip_with (fun x y => (Some (ex_residue x 0 "" []), Some (ex_residue y 0 "" []))) t m
  ++ ((fun x => (Some (ex_residue x 0 "" []), None)) <$> drop (length m) t)
  ++ ((fun y => (None, Some (ex_residue y 0 "" []))) <$> drop (length t) m).

Definition ex_services (tar : structure) : services :=
  {| read_alignment := ex_aln;
     complete_pdb := fun _ => Ok tar;
     salign := ex_salign;
     isfile := fun p => bool_decide (p = "tem_0.pdb");
     listdir := fun _ => Some [] |}.

Definition ex_self : automodel :=
  set_target_structure_default
    {| sequence := "model_1"; knowns := ["tem_0"]; target := None;
       _has_custom_hddr_options := false;
       hddr_dict_all := [(1%Z, 2%Z)];
       atm_type_dict := {[ 1%Z := "CA"; 2%Z := "CA" ]};
       atm_to_res_dict := {[ 1%Z := 1%Z; 2%Z := 2%Z ]};
       hddr_params_filepaths := [None];
       atom_files_directory := ["."] |}
    "target.pdb".

Definition ex_store : store := {| self := ex_self; files := [] |}.

Definition ex_target : target_options :=
  {| target_filepath := "target.pdb"; target_chain := None;
     mod_tar_seqid_threshold := default_mod_tar_seqid_threshold;
     use_target_distances := false |}.

(** What the alignment of model and target establishes for the three
    single-chain targets. *)
Definition ex_aligned (tar_residues : list residue) (tar_aliseq mod_aliseq : string)
  : aligned :=
  {| al_aln := ex_aln; al_mod_seq := ex_mod_seq; al_target := ex_target;
     al_tar_residues := tar_residues;
     al_tar_aliseq := tar_aliseq; al_mod_aliseq := mod_aliseq |}.

(** The row of the restraint on atoms 1 and 2. *)
Definition ex_row : row :=
  {| RST_GRP := "9"; GRP_DN := 10; GRP_DT := 5; GRP_DD := 5;
     MOD_ATOM_TYPE_I := "CA"; MOD_ATOM_TYPE_J := "CA";
     MOD_ATOM_INDEX_I := 1; MOD_ATOM_INDEX_J := 2;
     MOD_RES_PDB_ID_I := 1; MOD_RES_PDB_ID_J := 2;
     MOD_RES_NAME_I := "A"; MOD_RES_NAME_J := "C";
     TAR_RES_PDB_ID_I := "101"; TAR_RES_PDB_ID_J := "102";
     TAR_RES_NAME_I := "A"; TAR_RES_NAME_J := "C";
     TEM_RES_PDB_ID_I := "10"; TEM_RES_PDB_ID_J := "11";
     TEM_RES_NAME_I := "A"; TEM_RES_NAME_J := "C" |}.

Definition ex_store_done : store :=
  {| self := with_hddr_params_filepaths ex_self [Some "model_1_tar_tem_0.csv"];
     files := [("model_1_tar_tem_0.csv", csv_of [ex_row])] |}.

(** Two search directories that both hold the file [tem_0.pdb] of the
    template, which the alignment records under the path [tem_0]; no file
    has that path. *)
Definition ex_tem_seq_bare : sequence_obj :=
  {| seq_code := "tem_0"; atom_file := "tem_0"; seq_n_chains := 1;
     seq_residues := [ex_tem_1; ex_tem_2] |}.

Definition ex_aln_bare : alignment :=
  {| aln_sequences := [ex_tem_seq_bare; ex_mod_seq];
     positions := positions ex_aln |}.

Definition ex_services_two_dirs : services :=
  {| read_alignment := ex_aln_bare;
     complete_pdb := fun _ => Ok ex_tar;
     salign := ex_salign;
     isfile := fun _ => false;
     listdir := fun adp =>
       if bool_decide (adp = ".") then Some ["model_1.pir"; "tem_0.pdb"]
       else if bool_decide (adp = "pdbs") then Some ["tem_0.pdb"]
       else None |}.

Definition ex_self_two_dirs : automodel :=
  {| sequence := "model_1"; knowns := ["tem_0"]; target := Some ex_target;
     _has_custom_hddr_options := false;
     hddr_dict_all := [(1%Z, 2%Z)];
     atm_type_dict := {[ 1%Z := "CA"; 2%Z := "CA" ]};
     atm_to_res_dict := {[ 1%Z := 1%Z; 2%Z := 2%Z ]};
     hddr_params_filepaths := [None];
     atom_files_directory := ["."; "pdbs"] |}.

(** A search directory that cannot be listed, beside one that can; the
    recorded path of the template is a file. *)
Definition ex_services_unlisted : services :=
  {| read_alignment := ex_aln;
     complete_pdb := fun _ => Ok ex_tar;
     salign := ex_salign;
     isfile := fun p => bool_decide (p = "tem_0.pdb");
     listdir := fun adp => if bool_decide (adp = ".") then Some ["tem_0.pdb"] else None |}.

Definition ex_self_unlisted : automodel :=
  {| sequence := "model_1"; knowns := ["tem_0"]; target := Some ex_target;
     _has_custom_hddr_options := false;
     hddr_dict_all := [(1%Z, 2%Z)];
     atm_type_dict := {[ 1%Z := "CA"; 2%Z := "CA" ]};
     atm_to_res_dict := {[ 1%Z := 1%Z; 2%Z := 2%Z ]};
     hddr_params_filepaths := [None];
     atom_files_directory := ["."; "gone"] |}.

(** A parent class whose methods all return: the options method stores the
    list of file paths it is given, the other two leave the store alone. *)
Definition ex_parent : parent_class :=
  {| build_initial_files := fun _ s => (Ok (), s);
     Automodel_custom_restraints_set_custom_hddr_options := fun opts s =>
       (Ok (), assign_hddr_params_filepaths s (opt_hddr_params_filepaths opts));
     rebuild_restraints_file := fun s => (Ok (), s) |}.

(** The build of [ex_store] with the chain B of the target designated. *)
Definition ex_store_chain_B : store :=
  {| self := set_target_structure ex_self "target.pdb" (Some "B")
               default_mod_tar_seqid_threshold false;
     files := [] |}.

(** The build of [ex_store] run where a table of the template was written
    before. *)
Definition ex_store_rerun : store :=
  {| self := ex_self; files := [("model_1_tar_tem_0.csv", csv_of [])] |}.

(** * Properties *)

(** ** Restraint groups *)

Lemma elem_of_main_chain_atoms (t : string) :
  t ∈ main_chain_atoms <-> is_main t.
Proof.
  unfold main_chain_atoms, is_main.
  rewrite !elem_of_union, !elem_of_singleton. tauto.
Qed.

Lemma grp_name_of_cases t1 t2 :
  (both_ca t1 t2 /\ grp_name_of t1 t2 = "9")
  \/ (~ both_ca t1 t2 /\ n_and_o t1 t2 /\ grp_name_of t1 t2 = "10")
  \/ (~ both_ca t1 t2 /\ ~ n_and_o t1 t2 /\ (is_main t1 \/ is_main t2) /\ grp_name_of t1 t2 = "23")
  \/ (~ both_ca t1 t2 /\ ~ n_and_o t1 t2 /\ ~ is_main t1 /\ ~ is_main t2 /\ grp_name_of t1 t2 = "26").
Proof.
  unfold grp_name_of.
  destruct (bool_decide (t1 = "CA") && bool_decide (t2 = "CA")) eqn:E1.
  { left. apply andb_true_iff in E1 as [?%bool_decide_eq_true ?%bool_decide_eq_true].
    by split. }
  right.
  assert (~ both_ca t1 t2) as N1.
  { intros [-> ->]. by rewrite !bool_decide_eq_true_2 in E1. }
  destruct ((bool_decide (t1 = "N") && bool_decide (t2 = "O"))
            || (bool_decide (t1 = "O") && bool_decide (t2 = "N"))) eqn:E2.
  { left. split; [done|]. split; [|done].
    apply orb_true_iff in E2 as [E2|E2];
      apply andb_true_iff in E2 as [?%bool_decide_eq_true ?%bool_decide_eq_true];
      [left|right]; by split. }
  right.
  assert (~ n_and_o t1 t2) as N2.
  { intros [[-> ->]|[-> ->]]; by rewrite !bool_decide_eq_true_2 in E2. }
  destruct (bool_decide (t1 ∈ main_chain_atoms) || bool_decide (t2 ∈ main_chain_atoms)) eqn:E3.
  { left. repeat split; try done.
    apply orb_true_iff in E3 as [E3%bool_decide_eq_true|E3%bool_decide_eq_true];
      apply elem_of_main_chain_atoms in E3; [by left|by right]. }
  right. apply orb_false_iff in E3 as [E3%bool_decide_eq_false E4%bool_decide_eq_false].
  rewrite elem_of_main_chain_atoms in E3, E4. done.
Qed.

Lemma both_ca_main t1 t2 : both_ca t1 t2 -> is_main t1.
Proof. intros [-> _]. by left. Qed.
Lemma n_and_o_main t1 t2 : n_and_o t1 t2 -> is_main t1.
Proof. intros [[-> _]|[-> _]]; unfold is_main; tauto. Qed.
Lemma both_ca_not_n_and_o t1 t2 : both_ca t1 t2 -> ~ n_and_o t1 t2.
Proof. intros [-> ->] [[? _]|[? _]]; discriminate. Qed.

(** ** Sequence identity *)

Lemma count_pred_app {A : Type} (f : A -> bool) (l1 l2 : list A) :
  count_pred f (l1 ++ l2) = count_pred f l1 + count_pred f l2.
Proof. unfold count_pred. by rewrite List.filter_app, length_app. Qed.

Lemma count_pred_cons {A : Type} (f : A -> bool) (x : A) (l : list A) :
  count_pred f (x :: l) = (if f x then 1 else 0) + count_pred f l.
Proof. unfold count_pred. simpl. by destruct (f x). Qed.

Lemma seqid_fold (l : list (ascii * ascii)) (m i : nat) :
  foldl seqid_step (m, i) l
  = (m + count_pred both_nongap l, i + count_pred identical l).
Proof.
  revert m i. induction l as [|[mod_p tar_p] l IH]; intros m i.
  - unfold count_pred. simpl. f_equal; lia.
  - change (foldl seqid_step (m, i) ((mod_p, tar_p) :: l))
      with (foldl seqid_step (seqid_step (m, i) (mod_p, tar_p)) l).
    assert (seqid_step (m, i) (mod_p, tar_p)
            = (m + (if both_nongap (mod_p, tar_p) then 1 else 0),
               i + (if identical (mod_p, tar_p) then 1 else 0))) as ->.
    { unfold seqid_step, identical, both_nongap. simpl.
      destruct (negb (is_gap mod_p) && negb (is_gap tar_p)); simpl;
        [destruct (bool_decide (mod_p = tar_p))|]; simpl; f_equal; lia. }
    rewrite IH, !count_pred_cons. f_equal; lia.
Qed.

Lemma seqid_counts_eq (mod_aliseq tar_aliseq : string) :
  seqid_counts mod_aliseq tar_aliseq
  = (count_pred both_nongap (columns mod_aliseq tar_aliseq),
     count_pred identical (columns mod_aliseq tar_aliseq)).
Proof. unfold seqid_counts. by rewrite seqid_fold. Qed.

Lemma append_assoc (a b c : string) : (a +:+ b) +:+ c = a +:+ (b +:+ c).
Proof.
  induction a as [|x a IH]; [done|].
  change (String x ((a +:+ b) +:+ c) = String x (a +:+ (b +:+ c))).
  by rewrite IH.
Qed.

Lemma append_empty_r (a : string) : a +:+ EmptyString = a.
Proof.
  induction a as [|x a IH]; [done|].
  change (String x (a +:+ EmptyString) = String x a). by rewrite IH.
Qed.

Lemma contains_seqid_message_tar (tar_aliseq mod_aliseq : string) :
  contains (seqid_message tar_aliseq mod_aliseq) tar_aliseq.
Proof.
  exists ("The target and model sequence do not correspond:" +:+ nl +:+ "* Tar: "),
         (nl +:+ "* Mod: " +:+ mod_aliseq).
  reflexivity.
Qed.

Lemma contains_seqid_message_mod (tar_aliseq mod_aliseq : string) :
  contains (seqid_message tar_aliseq mod_aliseq) mod_aliseq.
Proof.
  exists ("The target and model sequence do not correspond:" +:+ nl
          +:+ "* Tar: " +:+ tar_aliseq +:+ nl +:+ "* Mod: "), EmptyString.
  unfold seqid_message. rewrite append_empty_r.
  by rewrite !append_assoc.
Qed.

(** The identity check, by cases on the two counts. *)
Lemma check_seqid_cases (threshold : float) (mod_aliseq tar_aliseq : string) :
  let cols := columns mod_aliseq tar_aliseq in
  let matches_count := count_pred both_nongap cols in
  let identities_count := count_pred identical cols in
  let mod_tar_seqid :=
    PrimFloat.div (float_of_nat identities_count) (float_of_nat matches_count) in
  check_seqid threshold mod_aliseq tar_aliseq
  = if bool_decide (matches_count = 0) then Raise ZeroDivisionError
    else if PrimFloat.ltb mod_tar_seqid threshold
         then Raise (ValueError (seqid_message tar_aliseq mod_aliseq))
         else Ok mod_tar_seqid.
Proof.
  cbv zeta. unfold check_seqid. rewrite seqid_counts_eq. unfold truediv.
  by case_bool_decide.
Qed.

(** ** Residue correspondence *)

Lemma is_gap_false (c : ascii) : is_gap c = false <-> c <> "-"%char.
Proof. unfold is_gap. by rewrite bool_decide_eq_false. Qed.

Lemma is_gap_true (c : ascii) : is_gap c = true <-> c = "-"%char.
Proof. unfold is_gap. by rewrite bool_decide_eq_true. Qed.

Lemma both_nongap_true (p : ascii * ascii) :
  both_nongap p = true <-> p.1 <> "-"%char /\ p.2 <> "-"%char.
Proof.
  unfold both_nongap.
  by rewrite andb_true_iff, !negb_true_iff, !is_gap_false.
Qed.

(** A column that counts lies strictly below the count of the whole list. *)
Lemma count_pred_take_lt {A : Type} (f : A -> bool) (l : list A) (c : nat) (x : A) :
  l !! c = Some x -> f x = true -> count_pred f (take c l) < count_pred f l.
Proof.
  intros Hc Hf. rewrite <- (take_drop_middle l c x Hc) at 2.
  rewrite count_pred_app, count_pred_cons, Hf. lia.
Qed.

Lemma count_pred_take_mono_lt {A : Type} (f : A -> bool) (l : list A)
    (c c' : nat) (x : A) :
  c < c' -> l !! c = Some x -> f x = true ->
  count_pred f (take c l) < count_pred f (take c' l).
Proof.
  intros Hlt Hc Hf.
  replace (take c l) with (take c (take c' l))
    by (rewrite take_take; f_equal; lia).
  apply count_pred_take_lt with x; [|done].
  by rewrite lookup_take_lt.
Qed.

(** Two columns that both count and have the same position are the same. *)
Lemma count_pred_take_inj {A : Type} (f : A -> bool) (l : list A)
    (c c' : nat) (x x' : A) :
  l !! c = Some x -> f x = true -> l !! c' = Some x' -> f x' = true ->
  count_pred f (take c l) = count_pred f (take c' l) -> c = c'.
Proof.
  intros Hc Hf Hc' Hf' Heq.
  destruct (Nat.lt_trichotomy c c') as [Hlt|[->|Hlt]]; [|done|].
  - pose proof (count_pred_take_mono_lt f l c c' x Hlt Hc Hf). lia.
  - pose proof (count_pred_take_mono_lt f l c' c x' Hlt Hc' Hf'). lia.
Qed.

Lemma res_dict_fold (l : list (ascii * ascii)) :
  exists d : gmap nat nat,
    foldl res_dict_step (0, 0, ∅) l
    = (count_pred (fun p => negb (is_gap p.1)) l,
       count_pred (fun p => negb (is_gap p.2)) l, d)
    /\ forall k v : nat,
         d !! k = Some v <->
         exists c p, l !! c = Some p /\ both_nongap p = true
                     /\ k = mod_position l c /\ v = tar_position l c.
Proof.
  induction l as [|[mod_pos tar_pos] l IH] using rev_ind.
  - exists ∅. split; [done|]. intros k v. split; [by rewrite lookup_empty|].
    intros (c & p & Hc & _). by rewrite lookup_nil in Hc.
  - destruct IH as (d & Hfold & Hd).
    rewrite foldl_app, Hfold. cbn [foldl]. unfold res_dict_step at 1.
    set (mc := count_pred (fun p => negb (is_gap p.1)) l) in *.
    set (tc := count_pred (fun p => negb (is_gap p.2)) l) in *.
    eexists. split.
    { rewrite !count_pred_app, !count_pred_cons. cbn [fst snd]. fold mc tc.
      unfold count_pred at 1 2. cbn [List.filter length].
      assert (forall (b : bool) (n : nat),
                (if b then S n else n) = n + ((if b then 1 else 0) + 0)) as Hif
        by (intros [] n; lia).
      by rewrite <- !Hif. }
    assert (forall c p, l !! c = Some p ->
              mod_position (l ++ [(mod_pos, tar_pos)]) c = mod_position l c
              /\ tar_position (l ++ [(mod_pos, tar_pos)]) c = tar_position l c)
      as Hpos.
    { intros c p Hc. apply lookup_lt_Some in Hc.
      unfold mod_position, tar_position. by rewrite take_app_le by lia. }
    assert (mod_position (l ++ [(mod_pos, tar_pos)]) (length l) = mc
            /\ tar_position (l ++ [(mod_pos, tar_pos)]) (length l) = tc)
      as [Hmc Htc].
    { unfold mod_position, tar_position. by rewrite take_app_length. }
    intros k v. split.
    + intros Hk.
      destruct (negb (is_gap mod_pos) && negb (is_gap tar_pos)) eqn:Hboth.
      * destruct (decide (k = mc)) as [->|Hne].
        -- rewrite lookup_insert_eq in Hk. injection Hk as <-.
           exists (length l), (mod_pos, tar_pos).
           by rewrite list_lookup_middle.
        -- rewrite lookup_insert_ne in Hk by done.
           apply Hd in Hk as (c & p & Hc & Hp & -> & ->).
           exists c, p. destruct (Hpos c p Hc) as [-> ->].
           by rewrite lookup_app_l by (by eapply lookup_lt_Some).
      * apply Hd in Hk as (c & p & Hc & Hp & -> & ->).
        exists c, p. destruct (Hpos c p Hc) as [-> ->].
        by rewrite lookup_app_l by (by eapply lookup_lt_Some).
    + intros (c & p & Hc & Hp & -> & ->).
      destruct (decide (c < length l)) as [Hlt|Hge].
      * rewrite lookup_app_l in Hc by done.
        destruct (Hpos c p Hc) as [-> ->].
        assert (d !! mod_position l c = Some (tar_position l c)) as Hin
          by (apply Hd; by exists c, p).
        destruct (negb (is_gap mod_pos) && negb (is_gap tar_pos)); [|done].
        rewrite lookup_insert_ne; [done|].
        apply andb_true_iff in Hp as [Hp _].
        pose proof (count_pred_take_lt (fun p => negb (is_gap p.1)) l c p Hc Hp)
          as Hbelow.
        unfold mod_position. fold mc in Hbelow. lia.
      * assert (c = length l) as ->.
        { apply lookup_lt_Some in Hc. rewrite length_app in Hc. simpl in Hc. lia. }
        rewrite list_lookup_middle in Hc by done. injection Hc as <-.
        unfold both_nongap in Hp. cbn [fst snd] in Hp. rewrite Hp, Hmc, Htc.
        by rewrite lookup_insert_eq.
Qed.

Lemma build_mod_tar_res_dict_lookup (mod_aliseq tar_aliseq : string) (k v : nat) :
  build_mod_tar_res_dict mod_aliseq tar_aliseq !! k = Some v <->
  exists c p, columns mod_aliseq tar_aliseq !! c = Some p /\ both_nongap p = true
              /\ k = mod_position (columns mod_aliseq tar_aliseq) c
              /\ v = tar_position (columns mod_aliseq tar_aliseq) c.
Proof.
  unfold build_mod_tar_res_dict.
  destruct (res_dict_fold (columns mod_aliseq tar_aliseq)) as (d & -> & Hd).
  apply Hd.
Qed.

(** C5: the correspondence maps the 0-based position of a model residue (the
    number of model residues in earlier columns) to the 0-based position of
    the target residue of the same column, for exactly the columns where
    neither side is a gap; a model residue whose column has a gap on the
    target side is not a key, and a target residue whose column has a gap on
    the model side is not a value. *)
Theorem mod_tar_res_dict_correspondence (mod_aliseq tar_aliseq : string) :
  let cols := columns mod_aliseq tar_aliseq in
  let mod_tar_res_dict := build_mod_tar_res_dict mod_aliseq tar_aliseq in
  (forall k v : nat,
      mod_tar_res_dict !! k = Some v <->
      exists (c : nat) (mod_pos tar_pos : ascii),
        cols !! c = Some (mod_pos, tar_pos)
        /\ mod_pos <> "-"%char /\ tar_pos <> "-"%char
        /\ k = mod_position cols c /\ v = tar_position cols c)
  /\ (forall (c : nat) (mod_pos : ascii),
        cols !! c = Some (mod_pos, "-"%char) -> mod_pos <> "-"%char ->
        mod_tar_res_dict !! mod_position cols c = None)
  /\ (forall (c : nat) (tar_pos : ascii),
        cols !! c = Some ("-"%char, tar_pos) -> tar_pos <> "-"%char ->
        forall k : nat, mod_tar_res_dict !! k <> Some (tar_position cols c)).
Proof.
  cbv zeta. split; [|split].
  - intros k v. rewrite build_mod_tar_res_dict_lookup. split.
    + intros (c & [mod_pos tar_pos] & Hc & Hp & -> & ->).
      apply both_nongap_true in Hp as [? ?]. by exists c, mod_pos, tar_pos.
    + intros (c & mod_pos & tar_pos & Hc & Hm & Ht & -> & ->).
      exists c, (mod_pos, tar_pos). by rewrite both_nongap_true.
  - intros c mod_pos Hc Hm.
    destruct (build_mod_tar_res_dict mod_aliseq tar_aliseq
                !! mod_position (columns mod_aliseq tar_aliseq) c) as [v|] eqn:Hk;
      [|done].
    apply build_mod_tar_res_dict_lookup in Hk as (c' & [m' t'] & Hc' & Hp & Heq & _).
    apply both_nongap_true in Hp as [Hm' Ht']. simpl in Hm', Ht'.
    assert (c = c') as <-.
    { apply (count_pred_take_inj (fun p => negb (is_gap p.1))
               (columns mod_aliseq tar_aliseq) c c' (mod_pos, "-"%char) (m', t'));
        try done; simpl; by rewrite negb_true_iff, is_gap_false. }
    rewrite Hc in Hc'. by injection Hc' as <- <-.
  - intros c tar_pos Hc Ht k Hk.
    apply build_mod_tar_res_dict_lookup in Hk as (c' & [m' t'] & Hc' & Hp & _ & Heq).
    apply both_nongap_true in Hp as [Hm' Ht']. simpl in Hm', Ht'.
    assert (c = c') as <-.
    { apply (count_pred_take_inj (fun p => negb (is_gap p.2))
               (columns mod_aliseq tar_aliseq) c c' ("-"%char, tar_pos) (m', t'));
        try done; simpl; by rewrite negb_true_iff, is_gap_false. }
    rewrite Hc in Hc'. by injection Hc' as <- <-.
Qed.

(** ** One restraint *)

Lemma getitem_Ok `{Countable K} {V : Type} (d : gmap K V) (k : K) (v : V) :
  getitem d k = Ok v <-> d !! k = Some v.
Proof. unfold getitem. destruct (d !! k); split; congruence. Qed.

Lemma list_getitem_Ok {A : Type} (l : list A) (i : nat) (v : A) :
  list_getitem l i = Ok v <-> l !! i = Some v.
Proof. unfold list_getitem. destruct (l !! i); split; congruence. Qed.

Lemma get_id_Ok (r : residue) (i : nat) : get_id r = Ok i <-> _id r = Some i.
Proof. unfold get_id. destruct (_id r); split; congruence. Qed.

Ltac split_lookup H :=
  match type of H with
  | context [getitem ?d ?k] =>
      let E := fresh "E" in destruct (getitem d k) eqn:E;
      [apply getitem_Ok in E|]
  | context [list_getitem ?l ?i] =>
      let E := fresh "E" in destruct (list_getitem l i) eqn:E;
      [apply list_getitem_Ok in E|]
  | context [get_id ?r] =>
      let E := fresh "E" in destruct (get_id r) eqn:E;
      [apply get_id_Ok in E|]
  | context [matched_residues ?a ?m ?k] =>
      let E := fresh "E" in destruct (matched_residues a m k) as [[? ?]|] eqn:E
  | context [get_modeller_atom ?r ?t] =>
      let E := fresh "E" in destruct (get_modeller_atom r t) eqn:E
  | context [@lookup nat nat (gmap nat nat) _ ?k ?d] =>
      let E := fresh "E" in destruct (d !! k) eqn:E
  end; cbn [mbind result_bind] in H; try discriminate H.

Lemma analyse_restraint_Some (a : automodel) (md : gmap Z (residue * residue))
    (d : gmap nat nat) (tr : list residue) (atm_1 atm_2 : Z) (r : row) :
  analyse_restraint a md d tr (atm_1, atm_2) = Ok (Some r)
  <-> qualifies a md d tr atm_1 atm_2 r.
Proof.
  split.
  - unfold analyse_restraint. intros H.
    repeat split_lookup H.
    injection H as <-. by econstructor.
  - intros [].
    unfold analyse_restraint.
    repeat match goal with
           | H : ?d !! ?k = Some _ |- context [getitem ?d ?k] =>
               rewrite (proj2 (getitem_Ok d k _) H)
           | H : ?l !! ?k = Some _ |- context [list_getitem ?l ?k] =>
               rewrite (proj2 (list_getitem_Ok l k _) H)
           | H : _id ?r = Some _ |- context [get_id ?r] =>
               rewrite (proj2 (get_id_Ok r _) H)
           | H : ?x = Some _ |- context [?x] => rewrite H
           | _ => progress cbn [mbind result_bind]
           end.
    done.
Qed.

Lemma analyse_restraint_Raise (a : automodel) (md : gmap Z (residue * residue))
    (d : gmap nat nat) (tr : list residue) (p : Z * Z) (e : exn) :
  analyse_restraint a md d tr p = Raise e -> lookup_error e.
Proof.
  destruct p as [atm_1 atm_2]. unfold analyse_restraint, lookup_error. intros H.
  repeat first
    [ split_lookup H
    | match type of H with
      | Raise _ = Raise _ => injection H as <-
      end ];
    try match goal with
      | E : getitem _ _ = Raise _ |- _ =>
          unfold getitem in E; destruct (_ !! _) in E; [discriminate|injection E as <-]
      | E : list_getitem _ _ = Raise _ |- _ =>
          unfold list_getitem in E; destruct (_ !! _) in E;
          [discriminate|injection E as <-]
      | E : get_id _ = Raise _ |- _ =>
          unfold get_id in E; destruct (_id _) in E; [discriminate|injection E as <-]
      end; tauto.
Qed.

(** ** The loop over the restraints *)

Lemma analyse_restraints_Ok (a : automodel) (md : gmap Z (residue * residue))
    (d : gmap nat nat) (tr : list residue) (hddrs : list (Z * Z))
    (results_list rows : list row) :
  analyse_restraints a md d tr hddrs results_list = Ok rows <->
  Forall (fun p => exists r, analyse_restraint a md d tr p = Ok r) hddrs
  /\ rows = results_list ++ omap (emitted_row a md d tr) hddrs.
Proof.
  revert results_list. induction hddrs as [|p hddrs IH]; intros results_list.
  - simpl. rewrite app_nil_r. split.
    + intros [= <-]. by split.
    + by intros [_ ->].
  - cbn [analyse_restraints omap list_omap]. unfold emitted_row at 1.
    destruct (analyse_restraint a md d tr p) as [r|e] eqn:Hp;
      cbn [mbind result_bind].
    + rewrite IH, Forall_cons. split.
      * intros [Hall ->]. split; [split; [by exists r|done]|].
        destruct r; [by rewrite <- app_assoc|done].
      * intros [[_ Hall] ->]. split; [done|].
        destruct r; [by rewrite <- app_assoc|done].
    + split; [done|]. rewrite Forall_cons. intros [[[r Hr] _] _]. congruence.
Qed.

Lemma analyse_restraints_Raise (a : automodel) (md : gmap Z (residue * residue))
    (d : gmap nat nat) (tr : list residue) (hddrs : list (Z * Z))
    (results_list : list row) (e : exn) :
  analyse_restraints a md d tr hddrs results_list = Raise e -> lookup_error e.
Proof.
  revert results_list. induction hddrs as [|p hddrs IH]; intros results_list.
  - done.
  - cbn [analyse_restraints].
    destruct (analyse_restraint a md d tr p) as [r|e'] eqn:Hp;
      cbn [mbind result_bind].
    + apply IH.
    + intros [= <-]. by eapply analyse_restraint_Raise.
Qed.

(** A row of the table comes from a restraint that qualifies, and carries
    its two atom indices. *)
Lemma elem_of_emitted_rows (a : automodel) (md : gmap Z (residue * residue))
    (d : gmap nat nat) (tr : list residue) (hddrs : list (Z * Z)) (r : row) :
  r ∈ omap (emitted_row a md d tr) hddrs <->
  exists atm_1 atm_2, (atm_1, atm_2) ∈ hddrs /\ qualifies a md d tr atm_1 atm_2 r.
Proof.
  rewrite list_elem_of_omap. split.
  - intros ([atm_1 atm_2] & Hin & Hr). exists atm_1, atm_2. split; [done|].
    apply analyse_restraint_Some. unfold emitted_row in Hr.
    destruct (analyse_restraint a md d tr (atm_1, atm_2)); congruence.
  - intros (atm_1 & atm_2 & Hin & Hq). exists (atm_1, atm_2). split; [done|].
    apply analyse_restraint_Some in Hq. unfold emitted_row. by rewrite Hq.
Qed.

Lemma qualifies_atom_indices (a : automodel) (md : gmap Z (residue * residue))
    (d : gmap nat nat) (tr : list residue) (atm_1 atm_2 : Z) (r : row) :
  qualifies a md d tr atm_1 atm_2 r ->
  MOD_ATOM_INDEX_I r = atm_1 /\ MOD_ATOM_INDEX_J r = atm_2.
Proof. by intros []. Qed.

(** ** Model/template matches *)

Lemma matches_fold (modeller_mod_seq modeller_tem_seq : sequence_obj)
    (l : list (gmap string residue)) :
  let has_mod := fun pos : gmap string residue =>
    bool_decide (is_Some (get_residue pos modeller_mod_seq)) in
  exists md : gmap Z (residue * residue),
    foldl (matches_step modeller_mod_seq modeller_tem_seq) (∅, 0) l
    = (md, count_pred has_mod l)
    /\ (forall ri m te,
          md !! ri = Some (m, te) ->
          exists c pos m0,
            l !! c = Some pos /\ get_residue pos modeller_mod_seq = Some m0
            /\ get_residue pos modeller_tem_seq = Some te /\ index m0 = ri
            /\ m = set_id m0 (count_pred has_mod (take c l)))
    /\ (forall ri,
          is_Some (md !! ri) <->
          exists pos m0 te,
            pos ∈ l /\ get_residue pos modeller_mod_seq = Some m0
            /\ index m0 = ri /\ get_residue pos modeller_tem_seq = Some te).
Proof.
  intros has_mod. induction l as [|pos l IH] using rev_ind.
  - exists ∅. split; [done|]. split.
    + intros ri m te. by rewrite lookup_empty.
    + intros ri. rewrite lookup_empty. split; [by intros [? ?]|].
      intros (pos & ? & ? & Hin & _). by apply elem_of_nil in Hin.
  - destruct IH as (md & Hfold & Hsome & Hdom).
    rewrite foldl_app, Hfold. cbn [foldl]. unfold matches_step at 1.
    rewrite count_pred_app, count_pred_cons.
    assert (forall c x, l !! c = Some x ->
              (l ++ [pos]) !! c = Some x /\ take c (l ++ [pos]) = take c l) as Hpre.
    { intros c x Hc. pose proof (lookup_lt_Some _ _ _ Hc).
      split; [by rewrite lookup_app_l|by rewrite take_app_le by lia]. }
    assert (forall ri m te,
              md !! ri = Some (m, te) ->
              exists c pos0 m0,
                (l ++ [pos]) !! c = Some pos0
                /\ get_residue pos0 modeller_mod_seq = Some m0
                /\ get_residue pos0 modeller_tem_seq = Some te /\ index m0 = ri
                /\ m = set_id m0 (count_pred has_mod (take c (l ++ [pos])))) as Hold.
    { intros ri m te Hri.
      destruct (Hsome ri m te Hri) as (c & pos0 & m0 & Hc & ? & ? & ? & ->).
      destruct (Hpre c pos0 Hc) as [Hc' Htake]. exists c, pos0, m0.
      by rewrite Htake. }
    assert (forall ri,
              (exists pos0 m0 te,
                  pos0 ∈ l ++ [pos] /\ get_residue pos0 modeller_mod_seq = Some m0
                  /\ index m0 = ri /\ get_residue pos0 modeller_tem_seq = Some te)
              <-> is_Some (md !! ri)
                  \/ exists m0 te, get_residue pos modeller_mod_seq = Some m0
                       /\ index m0 = ri
                       /\ get_residue pos modeller_tem_seq = Some te) as Hsplit.
    { intros ri. rewrite Hdom. split.
      - intros (pos0 & m0 & te & Hin & ? & ? & ?).
        apply elem_of_app in Hin as [Hin|Hin%list_elem_of_singleton].
        + left. by exists pos0, m0, te.
        + subst pos0. right. by exists m0, te.
      - intros [(pos0 & m0 & te & Hin & ? & ? & ?)|(m0 & te & ? & ? & ?)].
        + exists pos0, m0, te. rewrite elem_of_app. tauto.
        + exists pos, m0, te. rewrite elem_of_app, list_elem_of_singleton. tauto. }
    change (count_pred has_mod []) with 0.
    destruct (get_residue pos modeller_mod_seq) as [m0|] eqn:Hm.
    + assert (has_mod pos = true) as ->
        by (unfold has_mod; rewrite Hm; apply bool_decide_eq_true_2; eauto).
      destruct (get_residue pos modeller_tem_seq) as [te0|] eqn:Ht.
      * eexists. split; [f_equal; lia|]. split.
        -- intros ri m te Hri.
           destruct (decide (ri = index m0)) as [->|Hne].
           ++ change (index (set_id m0 (count_pred has_mod l))) with (index m0) in Hri.
              rewrite lookup_insert_eq in Hri. injection Hri as <- <-.
              exists (length l), pos, m0.
              rewrite list_lookup_middle by done. rewrite take_app_length.
              by rewrite Hm, Ht.
           ++ change (index (set_id m0 (count_pred has_mod l))) with (index m0) in Hri.
              rewrite lookup_insert_ne in Hri by done. by apply Hold.
        -- intros ri. rewrite Hsplit.
           change (index (set_id m0 (count_pred has_mod l))) with (index m0).
           destruct (decide (ri = index m0)) as [->|Hne].
           ++ rewrite lookup_insert_eq. split; [|by eauto].
              intros _. right. by exists m0, te0.
           ++ rewrite lookup_insert_ne by done. split; [tauto|].
              intros [?|(? & ? & [= <-] & ? & _)]; [done|congruence].
      * exists md. split; [f_equal; lia|]. split; [done|].
        intros ri. rewrite Hsplit. split; [tauto|].
        intros [?|(? & ? & _ & _ & ?)]; [done|discriminate].
    + assert (has_mod pos = false) as ->
        by (unfold has_mod; rewrite Hm; apply bool_decide_eq_false_2; by intros [? ?]).
      exists md. split; [f_equal; lia|]. split; [done|].
      intros ri. rewrite Hsplit. split; [tauto|].
      intros [?|(? & ? & ? & _)]; [done|discriminate].
Qed.

Lemma build_matches_dict_stored (aln : alignment)
    (modeller_mod_seq modeller_tem_seq : sequence_obj) (ri : Z) (m te : residue) :
  build_matches_dict aln modeller_mod_seq modeller_tem_seq !! ri = Some (m, te) ->
  index m = ri /\ is_Some (_id m)
  /\ exists pos m0,
       pos ∈ positions aln /\ get_residue pos modeller_mod_seq = Some m0
       /\ get_residue pos modeller_tem_seq = Some te
       /\ code m = code m0 /\ index m = index m0.
Proof.
  unfold build_matches_dict.
  destruct (matches_fold modeller_mod_seq modeller_tem_seq (positions aln))
    as (md & -> & Hsome & _).
  intros Hri. destruct (Hsome ri m te Hri) as (c & pos & m0 & Hc & ? & ? & <- & ->).
  split; [done|]. split; [by eexists|].
  exists pos, m0. split; [by eapply list_elem_of_lookup_2|done].
Qed.

Lemma build_matches_dict_is_Some (aln : alignment)
    (modeller_mod_seq modeller_tem_seq : sequence_obj) (ri : Z) :
  is_Some (build_matches_dict aln modeller_mod_seq modeller_tem_seq !! ri)
  <-> template_aligned aln modeller_mod_seq modeller_tem_seq ri.
Proof.
  unfold build_matches_dict, template_aligned.
  destruct (matches_fold modeller_mod_seq modeller_tem_seq (positions aln))
    as (md & -> & _ & Hdom).
  apply Hdom.
Qed.

Lemma matched_residues_Some (a : automodel) (md : gmap Z (residue * residue))
    (atm : Z) (m te : residue) :
  matched_residues a md atm = Some (m, te) <->
  exists ri, atm_to_res_dict a !! atm = Some ri /\ md !! ri = Some (m, te).
Proof.
  unfold matched_residues. destruct (atm_to_res_dict a !! atm) as [ri|]; simpl.
  - split; [by exists ri|]. by intros (? & [= <-] & ?).
  - split; [done|]. by intros (? & ? & _).
Qed.

Lemma matched_residues_None (a : automodel) (aln : alignment)
    (modeller_mod_seq modeller_tem_seq : sequence_obj) (atm : Z) :
  (forall ri, atm_to_res_dict a !! atm = Some ri ->
              ~ template_aligned aln modeller_mod_seq modeller_tem_seq ri) ->
  matched_residues a (build_matches_dict aln modeller_mod_seq modeller_tem_seq) atm
  = None.
Proof.
  intros Hno. unfold matched_residues.
  destruct (atm_to_res_dict a !! atm) as [ri|] eqn:Hri; simpl; [|done].
  apply eq_None_not_Some. rewrite build_matches_dict_is_Some. by apply Hno.
Qed.

(** C4: in a row, the template distance is the distance of the two atoms
    resolved in the template residues, the target distance that of the two
    atoms resolved in the target residues, each the square root of the sum
    of the squared coordinate differences, and the deviation is the target
    distance minus the template distance. *)
Theorem row_distances (a : automodel) (md : gmap Z (residue * residue))
    (d : gmap nat nat) (tr : list residue) (atm_1 atm_2 : Z) (r : row) :
  analyse_restraint a md d tr (atm_1, atm_2) = Ok (Some r) ->
  let euclid := fun p q : atom =>
    PrimFloat.sqrt
      (PrimFloat.add
         (PrimFloat.add
            (PrimFloat.mul (PrimFloat.sub (atom_x p) (atom_x q))
                           (PrimFloat.sub (atom_x p) (atom_x q)))
            (PrimFloat.mul (PrimFloat.sub (atom_y p) (atom_y q))
                           (PrimFloat.sub (atom_y p) (atom_y q))))
         (PrimFloat.mul (PrimFloat.sub (atom_z p) (atom_z q))
                        (PrimFloat.sub (atom_z p) (atom_z q)))) in
  exists t1 t2 m1 te1 m2 te2 i1 i2 k1 k2 tr1 tr2 tem_atm_1 tem_atm_2 tar_atm_1 tar_atm_2,
    atm_type_dict a !! atm_1 = Some t1 /\ atm_type_dict a !! atm_2 = Some t2
    /\ matched_residues a md atm_1 = Some (m1, te1)
    /\ matched_residues a md atm_2 = Some (m2, te2)
    /\ _id m1 = Some i1 /\ _id m2 = Some i2
    /\ d !! i1 = Some k1 /\ d !! i2 = Some k2
    /\ tr !! k1 = Some tr1 /\ tr !! k2 = Some tr2
    /\ get_modeller_atom te1 t1 = Some tem_atm_1
    /\ get_modeller_atom te2 t2 = Some tem_atm_2
    /\ get_modeller_atom tr1 t1 = Some tar_atm_1
    /\ get_modeller_atom tr2 t2 = Some tar_atm_2
    /\ GRP_DT r = euclid tem_atm_1 tem_atm_2
    /\ GRP_DN r = euclid tar_atm_1 tar_atm_2
    /\ GRP_DD r = PrimFloat.sub (GRP_DN r) (GRP_DT r).
Proof.
  intros Hr euclid. apply analyse_restraint_Some in Hr.
  destruct Hr as [t1 t2 m1 te1 m2 te2 i1 i2 k1 k2 tr1 tr2 a1 a2 b1 b2].
  exists t1, t2, m1, te1, m2, te2, i1, i2, k1, k2, tr1, tr2, a1, a2, b1, b2.
  repeat split; done.
Qed.

(** ** The loop over the templates *)

Lemma analyse_restraints_frame (a : automodel) (l : list (option string))
    (md : gmap Z (residue * residue)) (d : gmap nat nat) (tr : list residue)
    (hddrs : list (Z * Z)) (results_list : list row) :
  analyse_restraints (with_hddr_params_filepaths a l) md d tr hddrs results_list
  = analyse_restraints a md d tr hddrs results_list.
Proof.
  revert results_list. induction hddrs as [|[atm_1 atm_2] hddrs IH];
    intros results_list; [done|].
  cbn [analyse_restraints].
  change (analyse_restraint (with_hddr_params_filepaths a l) md d tr (atm_1, atm_2))
    with (analyse_restraint a md d tr (atm_1, atm_2)).
  destruct (analyse_restraint a md d tr (atm_1, atm_2)); cbn [mbind result_bind];
    [apply IH|done].
Qed.

Lemma template_rows_frame (a : automodel) (l : list (option string))
    (aln : alignment) (modeller_mod_seq : sequence_obj) (d : gmap nat nat)
    (tr : list residue) (tem_name : string) :
  template_rows (with_hddr_params_filepaths a l) aln modeller_mod_seq d tr tem_name
  = template_rows a aln modeller_mod_seq d tr tem_name.
Proof.
  unfold template_rows. destruct (aln_getitem aln tem_name); [|done].
  cbn [mbind result_bind]. apply analyse_restraints_frame.
Qed.

Lemma template_rows_Raise (a : automodel) (aln : alignment)
    (modeller_mod_seq : sequence_obj) (d : gmap nat nat) (tr : list residue)
    (tem_name : string) (e : exn) :
  template_rows a aln modeller_mod_seq d tr tem_name = Raise e -> lookup_error e.
Proof.
  unfold template_rows, aln_getitem.
  destruct (find _ _); cbn [mbind result_bind].
  - apply analyse_restraints_Raise.
  - intros [= <-]. by left.
Qed.

Lemma record_filepaths_length (sequence : string) (tems : list (nat * string))
    (l : list (option string)) :
  length (record_filepaths sequence tems l) = length l.
Proof.
  unfold record_filepaths. revert l.
  induction tems as [|t tems IH]; intros l; simpl; [done|].
  by rewrite IH, length_insert.
Qed.

Lemma analyse_templates_Ok (aln : alignment) (modeller_mod_seq : sequence_obj)
    (d : gmap nat nat) (tr : list residue) (tems : list (nat * string))
    (s s' : store) :
  analyse_templates aln modeller_mod_seq d tr tems s = (Ok (), s') ->
  exists tables : list (list row),
    Forall2 (fun t rows =>
               template_rows (self s) aln modeller_mod_seq d tr t.2 = Ok rows)
            tems tables
    /\ files s' = files s ++
         zip_with (fun t rows =>
                     (analysis_filename_of (sequence (self s)) t.1, csv_of rows))
                  tems tables
    /\ self s' = with_hddr_params_filepaths (self s)
                   (record_filepaths (sequence (self s)) tems
                      (hddr_params_filepaths (self s)))
    /\ Forall (fun t => t.1 < length (hddr_params_filepaths (self s))) tems.
Proof.
  revert s. induction tems as [|[tem_idx tem_name] tems IH]; intros s.
  - intros [= <-]. exists []. split; [constructor|]. split; [by rewrite app_nil_r|].
    split; [by destruct s as [[] ?]|constructor].
  - cbn [analyse_templates]. unfold analyse_template.
    destruct (template_rows (self s) aln modeller_mod_seq d tr tem_name)
      as [rows|e] eqn:Hrows; [|done].
    unfold list_setitem. cbn [write_file self files].
    case_bool_decide as Hlt; [|done].
    intros Hrest. apply IH in Hrest as (tables & Htables & Hfiles & Hself & Hall).
    cbn [assign_hddr_params_filepaths write_file with_hddr_params_filepaths
         self files hddr_params_filepaths sequence] in *.
    assert (Forall2 (fun t rows0 =>
                       template_rows (self s) aln modeller_mod_seq d tr t.2
                       = Ok rows0) tems tables) as Htables'.
    { eapply Forall2_impl; [exact Htables|]. intros t rows0. cbn beta.
      intros <-. symmetry. apply (template_rows_frame (self s)). }
    exists (rows :: tables). split; [by constructor|].
    split; [by rewrite Hfiles, <- app_assoc|]. split; [by rewrite Hself|].
    constructor; [done|].
    eapply Forall_impl; [exact Hall|]. intros t. cbn beta. by rewrite length_insert.
Qed.

Lemma analyse_templates_Raise (aln : alignment) (modeller_mod_seq : sequence_obj)
    (d : gmap nat nat) (tr : list residue) (tems : list (nat * string))
    (s s' : store) (e : exn) :
  analyse_templates aln modeller_mod_seq d tr tems s = (Raise e, s') ->
  lookup_error e.
Proof.
  revert s. induction tems as [|[tem_idx tem_name] tems IH]; intros s; [done|].
  cbn [analyse_templates]. unfold analyse_template.
  destruct (template_rows (self s) aln modeller_mod_seq d tr tem_name)
    as [rows|e'] eqn:Hrows.
  - unfold list_setitem. case_bool_decide.
    + apply IH.
    + intros [= <- _]. right. by left.
  - intros [= <- _]. by eapply template_rows_Raise.
Qed.

Lemma enumerate_from_length {A : Type} (n : nat) (l : list A) :
  length (enumerate_from n l) = length l.
Proof. revert n. induction l as [|x l IH]; intros n; simpl; [done|by rewrite IH]. Qed.

Lemma enumerate_from_lookup {A : Type} (n i : nat) (l : list A) (x : A) :
  l !! i = Some x -> enumerate_from n l !! i = Some (n + i, x).
Proof.
  revert n i. induction l as [|y l IH]; intros n [|i]; simpl; try done.
  - intros [= ->]. by rewrite Nat.add_0_r.
  - intros Hi. rewrite (IH (S n) i Hi). do 2 f_equal. lia.
Qed.

Lemma zip_with_enumerate_from {A B C : Type} (f : nat -> B -> C) (n : nat)
    (l : list A) (tables : list B) :
  length l = length tables ->
  zip_with (fun t rows => f t.1 rows) (enumerate_from n l) tables
  = imap (fun i rows => f (n + i) rows) tables.
Proof.
  revert n tables. induction l as [|x l IH]; intros n [|rows tables]; simpl;
    try done.
  intros [= Hlen]. rewrite Nat.add_0_r. f_equal.
  rewrite (IH (S n) tables Hlen). apply imap_ext. intros i y _. simpl.
  f_equal. lia.
Qed.

Lemma record_filepaths_lookup (sequence : string) (n : nat) (ks : list string)
    (l0 : list (option string)) (i : nat) :
  n + length ks <= length l0 ->
  (n <= i < n + length ks ->
   record_filepaths sequence (enumerate_from n ks) l0 !! i
   = Some (Some (analysis_filename_of sequence i)))
  /\ (i < n -> record_filepaths sequence (enumerate_from n ks) l0 !! i = l0 !! i).
Proof.
  unfold record_filepaths. revert n l0.
  induction ks as [|k ks IH]; intros n l0 Hlen; simpl in *.
  - split; [lia|done].
  - destruct (IH (S n)
                (<[n := Some (analysis_filename_of sequence n)]> l0)) as [IH1 IH2].
    { rewrite length_insert. lia. }
    split.
    + intros Hi. destruct (decide (i = n)) as [->|Hne].
      * rewrite IH2 by lia. apply list_lookup_insert_eq. lia.
      * apply IH1. lia.
    + intros Hi. rewrite IH2 by lia. apply list_lookup_insert_ne. lia.
Qed.

(** ** File names *)

Lemma length_append (a b : string) :
  String.length (a +:+ b) = String.length a + String.length b.
Proof.
  induction a as [|x a IH]; [done|].
  change (S (String.length (a +:+ b)) = S (String.length a + String.length b)).
  by rewrite IH.
Qed.

Lemma append_inj_r (a b c : string) : a +:+ c = b +:+ c -> a = b.
Proof.
  revert b. induction a as [|x a IH]; intros [|y b] H.
  - done.
  - apply (f_equal String.length) in H. rewrite !length_append in H.
    simpl in H. lia.
  - apply (f_equal String.length) in H. rewrite !length_append in H.
    simpl in H. lia.
  - change (String x (a +:+ c) = String y (b +:+ c)) in H.
    injection H as -> H. by rewrite (IH b H).
Qed.

Lemma analysis_filename_of_inj (sequence : string) (i j : nat) :
  analysis_filename_of sequence i = analysis_filename_of sequence j -> i = j.
Proof.
  unfold analysis_filename_of. intros H.
  apply (inj (String.append sequence)) in H.
  apply (inj (String.append "_tar_tem_")) in H.
  apply append_inj_r in H. by apply (inj pretty) in H.
Qed.

(** ** Template files *)

Lemma mapM_os_listdir_Raise (sv : services) (dirs : list string) (e : exn) :
  mapM (os_listdir sv) dirs = Raise e -> e = OSError.
Proof.
  induction dirs as [|adp dirs IH]; [done|].
  cbn [mapM].
  destruct (os_listdir sv adp) as [content|e0] eqn:Hadp; cbn [mbind result_bind].
  - destruct (mapM (os_listdir sv) dirs); cbn [mbind result_bind]; [done|].
    exact IH.
  - intros [= <-]. unfold os_listdir in Hadp.
    destruct (listdir sv adp); congruence.
Qed.

Lemma template_filepaths_loop_Raise (sv : services) (n_knowns : nat)
    (dirs : list (string * list string)) (seqs : list (nat * sequence_obj))
    (template_filepaths : list string) (e : exn) :
  template_filepaths_loop sv n_knowns dirs seqs template_filepaths = Raise e ->
  exists msg, e = IOError msg.
Proof.
  revert template_filepaths.
  induction seqs as [|[tem_idx tem_seq_obj] seqs IH]; intros tfs; [done|].
  cbn [template_filepaths_loop].
  destruct (if isfile sv (atom_file tem_seq_obj) then _ else _)
    as [tfs' found].
  destruct found; cbn [negb].
  - case_bool_decide; [done|apply IH].
  - intros [= <-]. by eexists.
Qed.

Lemma get_template_filepaths_Raise (sv : services) (a : automodel)
    (aln : alignment) (e : exn) :
  _get_template_filepaths sv a aln = Raise e ->
  e = OSError \/ exists msg, e = IOError msg.
Proof.
  unfold _get_template_filepaths.
  destruct (mapM (os_listdir sv) (atom_files_directory a)) eqn:Hdirs;
    cbn [mbind result_bind].
  - intros H. right. by eapply template_filepaths_loop_Raise.
  - intros [= <-]. left. by eapply mapM_os_listdir_Raise.
Qed.

(** ** The analysis *)

Lemma analysis_after_alignment (sv : services) (s : store) (al : aligned) :
  align_model_and_target sv (self s) = Ok al ->
  analyse_target_template_pairs sv s
  = match check_and_correspond sv (self s) al with
    | Raise e => (Raise e, s)
    | Ok mod_tar_res_dict =>
        analyse_templates (al_aln al) (al_mod_seq al) mod_tar_res_dict
          (al_tar_residues al) (enumerate (knowns (self s))) s
    end.
Proof. intros Hal. unfold analyse_target_template_pairs. by rewrite Hal. Qed.

(** What lines 169-201 come to, by cases on the two counts and on the
    search of the template files. *)
Lemma check_and_correspond_cases (sv : services) (a : automodel) (al : aligned) :
  let cols := columns (al_mod_aliseq al) (al_tar_aliseq al) in
  let matches_count := count_pred both_nongap cols in
  let identities_count := count_pred identical cols in
  let mod_tar_seqid :=
    PrimFloat.div (float_of_nat identities_count) (float_of_nat matches_count) in
  check_and_correspond sv a al
  = if bool_decide (matches_count = 0) then Raise ZeroDivisionError
    else if PrimFloat.ltb mod_tar_seqid (mod_tar_seqid_threshold (al_target al))
         then Raise (ValueError
                       (seqid_message (al_tar_aliseq al) (al_mod_aliseq al)))
         else match _get_template_filepaths sv a (al_aln al) with
              | Ok _ => Ok (build_mod_tar_res_dict (al_mod_aliseq al)
                              (al_tar_aliseq al))
              | Raise e => Raise e
              end.
Proof.
  cbv zeta. unfold check_and_correspond. rewrite check_seqid_cases.
  case_bool_decide; [done|].
  destruct (PrimFloat.ltb _ _); [done|]. cbn [mbind result_bind].
  by destruct (_get_template_filepaths sv a (al_aln al)).
Qed.

Lemma lookup_error_not_value (e : exn) :
  lookup_error e ->
  e <> ZeroDivisionError /\ forall msg, e <> ValueError msg.
Proof. intros [-> | [-> | ->]]; split; intros; discriminate. Qed.

(** C1: the identity of model and target is the number of columns of their
    pairwise alignment where neither side is a gap and the codes are equal,
    divided by the number of columns where neither side is a gap; once the
    two sequences are aligned, the analysis raises [ValueError] exactly
    when that quotient is below the threshold, the message holds both
    aligned sequences, and nothing has been written. *)
Theorem analysis_rejects_iff_identity_below_threshold (sv : services) (s : store)
    (al : aligned) :
  align_model_and_target sv (self s) = Ok al ->
  let cols := columns (al_mod_aliseq al) (al_tar_aliseq al) in
  let matches_count := count_pred both_nongap cols in
  let identities_count := count_pred identical cols in
  let mod_tar_seqid :=
    PrimFloat.div (float_of_nat identities_count) (float_of_nat matches_count) in
  seqid_counts (al_mod_aliseq al) (al_tar_aliseq al)
  = (matches_count, identities_count)
  /\ ((exists msg, (analyse_target_template_pairs sv s).1 = Raise (ValueError msg))
      <-> matches_count <> 0
          /\ PrimFloat.ltb mod_tar_seqid (mod_tar_seqid_threshold (al_target al))
             = true)
  /\ (forall msg,
        (analyse_target_template_pairs sv s).1 = Raise (ValueError msg) ->
        contains msg (al_tar_aliseq al) /\ contains msg (al_mod_aliseq al)
        /\ (analyse_target_template_pairs sv s).2 = s).
Proof.
  intros Hal cols matches_count identities_count mod_tar_seqid.
  split; [apply seqid_counts_eq|].
  rewrite (analysis_after_alignment sv s al Hal).
  pose proof (check_and_correspond_cases sv (self s) al) as Hcases.
  cbv zeta in Hcases. fold cols matches_count identities_count mod_tar_seqid in Hcases.
  rewrite Hcases. clear Hcases.
  case_bool_decide as Hzero.
  { split; [split; [by intros [? ?]|by intros [? _]]|done]. }
  destruct (PrimFloat.ltb mod_tar_seqid (mod_tar_seqid_threshold (al_target al))).
  { split; [split; [done|by eexists]|].
    intros msg [= <-].
    split; [apply contains_seqid_message_tar|].
    split; [apply contains_seqid_message_mod|done]. }
  assert (forall msg,
            (match
                match _get_template_filepaths sv (self s) (al_aln al) with
                | Ok _ => Ok (build_mod_tar_res_dict (al_mod_aliseq al)
                                (al_tar_aliseq al))
                | Raise e => Raise e
                end
              with
              | Ok mod_tar_res_dict =>
                  analyse_templates (al_aln al) (al_mod_seq al) mod_tar_res_dict
                    (al_tar_residues al) (enumerate (knowns (self s))) s
              | Raise e => (Raise e, s)
              end).1 <> Raise (ValueError msg)) as Hno.
  { intros msg.
    destruct (_get_template_filepaths sv (self s) (al_aln al)) eqn:Hfiles.
    - destruct (analyse_templates _ _ _ _ _ s) as [[[]|e] s'] eqn:Hloop; [done|].
      apply analyse_templates_Raise in Hloop.
      apply lookup_error_not_value in Hloop as [_ Hloop]. simpl. intros [= ->].
      by eapply Hloop.
    - apply get_template_filepaths_Raise in Hfiles as [->|[? ->]]; done. }
  split; [split; [intros [msg Hmsg]; by apply Hno in Hmsg|by intros [_ ?]]|].
  intros msg Hmsg. by apply Hno in Hmsg.
Qed.

(** C10: the quotient is taken with no guard on the divisor; once the two
    sequences are aligned, the analysis raises [ZeroDivisionError], with
    nothing written, exactly when no column of the pairwise alignment has
    a residue on both sides; with at least one such column the identity
    check ends normally or with the [ValueError] of the threshold. *)
Theorem analysis_divides_by_zero_iff_no_match (sv : services) (s : store)
    (al : aligned) :
  align_model_and_target sv (self s) = Ok al ->
  let matches_count :=
    count_pred both_nongap (columns (al_mod_aliseq al) (al_tar_aliseq al)) in
  ((analyse_target_template_pairs sv s).1 = Raise ZeroDivisionError
   <-> matches_count = 0)
  /\ (matches_count = 0 ->
      analyse_target_template_pairs sv s = (Raise ZeroDivisionError, s))
  /\ (check_seqid (mod_tar_seqid_threshold (al_target al)) (al_mod_aliseq al)
        (al_tar_aliseq al) = Raise ZeroDivisionError <-> matches_count = 0)
  /\ (matches_count <> 0 ->
      (exists mod_tar_seqid,
          check_seqid (mod_tar_seqid_threshold (al_target al)) (al_mod_aliseq al)
            (al_tar_aliseq al) = Ok mod_tar_seqid)
      \/ check_seqid (mod_tar_seqid_threshold (al_target al)) (al_mod_aliseq al)
           (al_tar_aliseq al)
         = Raise (ValueError (seqid_message (al_tar_aliseq al) (al_mod_aliseq al)))).
Proof.
  intros Hal matches_count.
  assert (check_seqid (mod_tar_seqid_threshold (al_target al)) (al_mod_aliseq al)
            (al_tar_aliseq al) = Raise ZeroDivisionError <-> matches_count = 0)
    as Hcheck.
  { rewrite check_seqid_cases. fold matches_count.
    case_bool_decide; [done|]. by destruct (PrimFloat.ltb _ _). }
  assert (matches_count = 0 ->
          analyse_target_template_pairs sv s = (Raise ZeroDivisionError, s)) as Hzero.
  { intros Hz. rewrite (analysis_after_alignment sv s al Hal).
    rewrite check_and_correspond_cases. fold matches_count.
    by rewrite bool_decide_eq_true_2. }
  split; [|split; [done|split; [done|]]].
  - split; [|by intros ->%Hzero].
    rewrite (analysis_after_alignment sv s al Hal).
    rewrite check_and_correspond_cases. fold matches_count.
    case_bool_decide; [done|].
    destruct (PrimFloat.ltb _ _); [done|].
    destruct (_get_template_filepaths sv (self s) (al_aln al)) eqn:Hfiles.
    + destruct (analyse_templates _ _ _ _ _ s) as [[[]|e] s'] eqn:Hloop; [done|].
      apply analyse_templates_Raise in Hloop.
      apply lookup_error_not_value in Hloop as [Hloop _]. simpl. by intros [= ->].
    + apply get_template_filepaths_Raise in Hfiles as [->|[? ->]]; done.
  - intros Hnz. rewrite check_seqid_cases. fold matches_count.
    rewrite bool_decide_eq_false_2 by done.
    destruct (PrimFloat.ltb _ _); [by right|left; by eexists].
Qed.

(** ** The small build *)

Example ex_analysis_done :
  analyse_target_template_pairs (ex_services ex_tar) ex_store
  = (Ok (), ex_store_done).
Proof. vm_compute. reflexivity. Qed.

Example ex_analysis_rejected :
  analyse_target_template_pairs (ex_services ex_tar_other) ex_store
  = (Raise (ValueError (seqid_message "AD" "AC")), ex_store).
Proof. vm_compute. reflexivity. Qed.

Example ex_analysis_three_chains :
  analyse_target_template_pairs (ex_services ex_tar_3) ex_store
  = (Raise (ValueError (multichain_target_message 3)), ex_store).
Proof. vm_compute. reflexivity. Qed.

Example ex_analysis_empty_target :
  analyse_target_template_pairs (ex_services ex_tar_empty) ex_store
  = (Raise ZeroDivisionError, ex_store).
Proof. vm_compute. reflexivity. Qed.

(** Identities of 99 and of 98 columns in 100 against the default
    threshold. *)
Example ex_threshold_99 :
  PrimFloat.ltb (PrimFloat.div (float_of_nat 99) (float_of_nat 100))
    default_mod_tar_seqid_threshold = false.
Proof. vm_compute. reflexivity. Qed.

Example ex_threshold_98 :
  PrimFloat.ltb (PrimFloat.div (float_of_nat 98) (float_of_nat 100))
    default_mod_tar_seqid_threshold = true.
Proof. vm_compute. reflexivity. Qed.

Example ex_default_threshold (a : automodel) (path : string) :
  mod_tar_seqid_threshold <$> target (set_target_structure_default a path)
  = Some 0x1.fae147ae147aep-1%float.
Proof. reflexivity. Qed.

Example ex_distance_5 :
  get_modeller_dist (ex_atom 0 0 0) (ex_atom 3 4 0) = 5%float.
Proof. vm_compute. reflexivity. Qed.

Lemma analysis_rejects_witness :
  align_model_and_target (ex_services ex_tar_other) (self ex_store)
  = Ok (ex_aligned [ex_tar_1; ex_tar_2'] "AD" "AC")
  /\ (exists msg,
         (analyse_target_template_pairs (ex_services ex_tar_other) ex_store).1
         = Raise (ValueError msg)).
Proof.
  assert (align_model_and_target (ex_services ex_tar_other) (self ex_store)
          = Ok (ex_aligned [ex_tar_1; ex_tar_2'] "AD" "AC")) as Hal
    by (vm_compute; reflexivity).
  split; [exact Hal|].
  apply (analysis_rejects_iff_identity_below_threshold _ _ _ Hal).
  split; vm_compute; [discriminate|reflexivity].
Defined.

Lemma row_distances_witness :
  analyse_restraint ex_self (build_matches_dict ex_aln ex_mod_seq ex_tem_seq)
    (build_mod_tar_res_dict "AC" "AC") [ex_tar_1; ex_tar_2] (1%Z, 2%Z)
  = Ok (Some ex_row)
  /\ GRP_DD ex_row = PrimFloat.sub (GRP_DN ex_row) (GRP_DT ex_row).
Proof.
  assert (analyse_restraint ex_self
            (build_matches_dict ex_aln ex_mod_seq ex_tem_seq)
            (build_mod_tar_res_dict "AC" "AC") [ex_tar_1; ex_tar_2] (1%Z, 2%Z)
          = Ok (Some ex_row)) as Hrow by (vm_compute; reflexivity).
  split; [exact Hrow|].
  destruct (row_distances _ _ _ _ _ _ _ Hrow)
    as (? & ? & ? & ? & ? & ? & ? & ? & ? & ? & ? & ? & ? & ? & ? & ?
        & _ & _ & _ & _ & _ & _ & _ & _ & _ & _ & _ & _ & _ & _ & _ & _ & Hdd).
  exact Hdd.
Defined.

Lemma analysis_divides_by_zero_witness :
  align_model_and_target (ex_services ex_tar_empty) (self ex_store)
  = Ok (ex_aligned [] "--" "AC")
  /\ analyse_target_template_pairs (ex_services ex_tar_empty) ex_store
     = (Raise ZeroDivisionError, ex_store).
Proof.
  assert (align_model_and_target (ex_services ex_tar_empty) (self ex_store)
          = Ok (ex_aligned [] "--" "AC")) as Hal by (vm_compute; reflexivity).
  split; [exact Hal|].
  apply (analysis_divides_by_zero_iff_no_match _ _ _ Hal).
  vm_compute. reflexivity.
Defined.

(** ** The search of one template *)

Lemma search_names_find (atom_dirpath : string) (atom_dir_content names : list string)
    (acc : list string * bool) :
  search_names atom_dirpath atom_dir_content names acc
  = match find (fun n => bool_decide (n ∈ atom_dir_content)) names with
    | Some n => (acc.1 ++ [path_join atom_dirpath n], true)
    | None => acc
    end.
Proof.
  induction names as [|n names IH]; [done|].
  cbn [search_names find]. by destruct (bool_decide (n ∈ atom_dir_content)).
Qed.

Lemma search_dirs_paths (dirs : list (string * list string))
    (tem_seq_obj : sequence_obj) (tfs : list string) (found : bool) :
  search_dirs dirs tem_seq_obj (tfs, found)
  = (tfs ++ omap (found_in_dir tem_seq_obj) dirs,
     found || match omap (found_in_dir tem_seq_obj) dirs with
              | [] => false
              | _ :: _ => true
              end).
Proof.
  unfold search_dirs. revert tfs found.
  induction dirs as [|[adp content] dirs IH]; intros tfs found.
  - simpl. by rewrite app_nil_r, orb_false_r.
  - cbn [foldl omap list_omap fst snd].
    assert (search_names adp content (candidate_names tem_seq_obj) (tfs, found)
            = match found_in_dir tem_seq_obj (adp, content) with
              | Some path => (tfs ++ [path], true)
              | None => (tfs, found)
              end) as ->.
    { rewrite search_names_find. unfold found_in_dir. cbn [fst snd].
      by destruct (find _ (candidate_names tem_seq_obj)). }
    destruct (found_in_dir tem_seq_obj (adp, content)) as [path|].
    + rewrite IH, <- app_assoc. cbn [orb app]. by rewrite orb_true_r.
    + by rewrite IH.
Qed.

(** X1: with one template, which the alignment lists first, the paths
    returned are the recorded path alone when it is a file, and otherwise,
    for every search directory in order, the first of the four candidate
    names that the directory holds, joined to the directory; when no
    directory holds a candidate the [IOError] is raised. *)
Theorem get_template_filepaths_one_template (sv : services) (a : automodel)
    (aln : alignment) (tem_seq_obj : sequence_obj) (others : list sequence_obj)
    (atom_dirs_content_list : list (list string)) :
  length (knowns a) = 1 ->
  aln_sequences aln = tem_seq_obj :: others ->
  mapM (os_listdir sv) (atom_files_directory a) = Ok atom_dirs_content_list ->
  _get_template_filepaths sv a aln
  = if isfile sv (atom_file tem_seq_obj) then Ok [atom_file tem_seq_obj]
    else match omap (found_in_dir tem_seq_obj)
                 (zip (atom_files_directory a) atom_dirs_content_list) with
         | [] => Raise (IOError (not_found_message tem_seq_obj))
         | path :: paths => Ok (path :: paths)
         end.
Proof.
  intros Hone Haln Hdirs. unfold _get_template_filepaths.
  rewrite Hdirs, Haln, Hone. cbn [mbind result_bind enumerate enumerate_from].
  cbn [template_filepaths_loop].
  destruct (isfile sv (atom_file tem_seq_obj)); [done|].
  rewrite search_dirs_paths. cbn [app orb].
  by destruct (omap _ _) as [|path paths].
Qed.

Lemma get_template_filepaths_one_template_witness :
  length (knowns ex_self_two_dirs) = 1
  /\ aln_sequences ex_aln_bare = ex_tem_seq_bare :: [ex_mod_seq]
  /\ mapM (os_listdir ex_services_two_dirs) (atom_files_directory ex_self_two_dirs)
     = Ok [["model_1.pir"; "tem_0.pdb"]; ["tem_0.pdb"]]
  /\ _get_template_filepaths ex_services_two_dirs ex_self_two_dirs ex_aln_bare
     = Ok ["./tem_0.pdb"; "pdbs/tem_0.pdb"].
Proof.
  assert (mapM (os_listdir ex_services_two_dirs)
            (atom_files_directory ex_self_two_dirs)
          = Ok [["model_1.pir"; "tem_0.pdb"]; ["tem_0.pdb"]]) as Hdirs
    by (vm_compute; reflexivity).
  split; [reflexivity|]. split; [reflexivity|]. split; [exact Hdirs|].
  rewrite (get_template_filepaths_one_template ex_services_two_dirs
             ex_self_two_dirs ex_aln_bare ex_tem_seq_bare [ex_mod_seq]
             _ eq_refl eq_refl Hdirs).
  vm_compute. reflexivity.
Defined.

(** ** Two directories that hold the same template *)

(** C6: the first existing candidate is not all that is returned for a
    template: the search goes on in the second directory after the file
    was found in the first (the [break] leaves the loop over the names
    only), and a second path is added for the one template. *)
Example get_template_filepaths_two_directories :
  _get_template_filepaths ex_services_two_dirs ex_self_two_dirs ex_aln_bare
  = Ok ["./tem_0.pdb"; "pdbs/tem_0.pdb"]
  /\ length (knowns ex_self_two_dirs) = 1.
Proof. split; [vm_compute|]; reflexivity. Qed.

(** ** More on the sequence identity *)

Lemma list_ascii_of_string_append (a b : string) :
  list_ascii_of_string (a +:+ b) = list_ascii_of_string a ++ list_ascii_of_string b.
Proof.
  induction a as [|x a IH]; [done|].
  change (x :: list_ascii_of_string (a +:+ b)
          = x :: (list_ascii_of_string a ++ list_ascii_of_string b)).
  by rewrite IH.
Qed.

Lemma length_list_ascii_of_string (a : string) :
  length (list_ascii_of_string a) = String.length a.
Proof. induction a as [|x a IH]; simpl; [done|by rewrite IH]. Qed.

Lemma columns_app (m1 m2 t1 t2 : string) :
  String.length m1 = String.length t1 ->
  columns (m1 +:+ m2) (t1 +:+ t2) = columns m1 t1 ++ columns m2 t2.
Proof.
  intros Hlen. unfold columns. rewrite !list_ascii_of_string_append.
  apply zip_with_app. by rewrite !length_list_ascii_of_string.
Qed.

Lemma seqid_counts_columns (mod_aliseq tar_aliseq mod_aliseq' tar_aliseq' : string) :
  count_pred both_nongap (columns mod_aliseq tar_aliseq)
  = count_pred both_nongap (columns mod_aliseq' tar_aliseq') ->
  count_pred identical (columns mod_aliseq tar_aliseq)
  = count_pred identical (columns mod_aliseq' tar_aliseq') ->
  seqid_counts mod_aliseq tar_aliseq = seqid_counts mod_aliseq' tar_aliseq'.
Proof. intros H1 H2. by rewrite !seqid_counts_eq, H1, H2. Qed.

(** X2: a column with a gap on either side weighs nothing in the identity:
    with the column taken out of both aligned sequences the two counts are
    the same, and so is the verdict of the check against any threshold. *)
Theorem seqid_ignores_gap_columns (threshold : float) (m1 m2 t1 t2 : string)
    (c d : ascii) :
  String.length m1 = String.length t1 ->
  c = "-"%char \/ d = "-"%char ->
  seqid_counts (m1 +:+ String c m2) (t1 +:+ String d t2)
  = seqid_counts (m1 +:+ m2) (t1 +:+ t2)
  /\ ((exists f, check_seqid threshold (m1 +:+ String c m2) (t1 +:+ String d t2) = Ok f)
      <-> (exists f, check_seqid threshold (m1 +:+ m2) (t1 +:+ t2) = Ok f))
  /\ (check_seqid threshold (m1 +:+ String c m2) (t1 +:+ String d t2)
      = Raise ZeroDivisionError
      <-> check_seqid threshold (m1 +:+ m2) (t1 +:+ t2) = Raise ZeroDivisionError).
Proof.
  intros Hlen Hgap.
  assert (columns (m1 +:+ String c m2) (t1 +:+ String d t2)
          = columns m1 t1 ++ (c, d) :: columns m2 t2) as Hcols
    by (by rewrite columns_app).
  assert (both_nongap (c, d) = false) as Hboth.
  { unfold both_nongap. cbn [fst snd].
    destruct Hgap as [-> | ->]; unfold is_gap;
      rewrite (bool_decide_eq_true_2 ("-"%char = "-"%char)) by done;
      cbn [negb andb]; [done|by rewrite andb_false_r]. }
  assert (identical (c, d) = false) as Hid by (unfold identical; by rewrite Hboth).
  assert (count_pred both_nongap (columns (m1 +:+ String c m2) (t1 +:+ String d t2))
          = count_pred both_nongap (columns (m1 +:+ m2) (t1 +:+ t2))) as Hm.
  { rewrite Hcols, columns_app by done.
    by rewrite !count_pred_app, count_pred_cons, Hboth. }
  assert (count_pred identical (columns (m1 +:+ String c m2) (t1 +:+ String d t2))
          = count_pred identical (columns (m1 +:+ m2) (t1 +:+ t2))) as Hi.
  { rewrite Hcols, columns_app by done.
    by rewrite !count_pred_app, count_pred_cons, Hid. }
  split; [by apply seqid_counts_columns|].
  rewrite !check_seqid_cases, Hm, Hi.
  case_bool_decide; [done|].
  destruct (PrimFloat.ltb _ _); split; split; try done;
    intros [? ?]; discriminate.
Qed.

Lemma seqid_ignores_gap_columns_witness :
  String.length "A" = String.length "A"
  /\ ("-"%char = "-"%char \/ "D"%char = "-"%char)
  /\ seqid_counts "A-C" "ADC" = seqid_counts "AC" "AC".
Proof.
  split; [reflexivity|]. split; [by left|].
  exact (proj1 (seqid_ignores_gap_columns default_mod_tar_seqid_threshold
                  "A" "C" "A" "C" "-" "D" eq_refl (or_introl eq_refl))).
Defined.

Lemma count_pred_le_length {A : Type} (f : A -> bool) (l : list A) :
  count_pred f l <= length l.
Proof.
  induction l as [|x l IH]; [done|]. rewrite count_pred_cons. simpl.
  destruct (f x); lia.
Qed.

Lemma count_pred_le {A : Type} (f g : A -> bool) (l : list A) :
  (forall x, f x = true -> g x = true) -> count_pred f l <= count_pred g l.
Proof.
  intros Hfg. induction l as [|x l IH]; [done|]. rewrite !count_pred_cons.
  destruct (f x) eqn:Hf; [rewrite (Hfg x Hf)|destruct (g x)]; lia.
Qed.

Lemma count_pred_swap (f : ascii * ascii -> bool) (l1 l2 : list ascii) :
  (forall x y, f (x, y) = f (y, x)) ->
  count_pred f (zip l1 l2) = count_pred f (zip l2 l1).
Proof.
  intros Hf. revert l2. induction l1 as [|x l1 IH]; intros [|y l2]; try done.
  change (count_pred f ((x, y) :: zip l1 l2) = count_pred f ((y, x) :: zip l2 l1)).
  by rewrite !count_pred_cons, IH, Hf.
Qed.

(** X3: of the two counts of the identity loop, the identical columns are
    at most the matched columns, which are at most the shorter of the two
    aligned sequences; and the counts are the same when the two sequences
    change places. *)
Theorem seqid_counts_bounds (mod_aliseq tar_aliseq : string) :
  (seqid_counts mod_aliseq tar_aliseq).2 <= (seqid_counts mod_aliseq tar_aliseq).1
  /\ (seqid_counts mod_aliseq tar_aliseq).1
     <= Nat.min (String.length mod_aliseq) (String.length tar_aliseq)
  /\ seqid_counts tar_aliseq mod_aliseq = seqid_counts mod_aliseq tar_aliseq.
Proof.
  rewrite !seqid_counts_eq. cbn [fst snd]. split; [|split].
  - apply count_pred_le. intros p. unfold identical. by intros [? _]%andb_true_iff.
  - etrans; [apply count_pred_le_length|]. unfold columns.
    by rewrite length_zip_with, !length_list_ascii_of_string.
  - unfold columns. f_equal; apply count_pred_swap; intros x y.
    + unfold both_nongap. cbn [fst snd]. apply andb_comm.
    + unfold identical, both_nongap. cbn [fst snd].
      rewrite (andb_comm (negb (is_gap y))). f_equal.
      apply bool_decide_ext. split; congruence.
Qed.

(** ** More on the residue correspondence *)

Lemma count_pred_take_le {A : Type} (f : A -> bool) (l : list A) (c : nat) :
  count_pred f (take c l) <= count_pred f l.
Proof.
  rewrite <- (take_drop c l) at 2. rewrite count_pred_app. lia.
Qed.

(** X4: the correspondence keeps the order of the residues: of two entries,
    the one with the smaller model position has the smaller target
    position; so no two model residues share a target residue. *)
Theorem mod_tar_res_dict_increasing (mod_aliseq tar_aliseq : string)
    (k1 k2 v1 v2 : nat) :
  build_mod_tar_res_dict mod_aliseq tar_aliseq !! k1 = Some v1 ->
  build_mod_tar_res_dict mod_aliseq tar_aliseq !! k2 = Some v2 ->
  (k1 < k2 <-> v1 < v2) /\ (k1 = k2 <-> v1 = v2).
Proof.
  intros H1 H2.
  apply build_mod_tar_res_dict_lookup in H1 as (c1 & p1 & Hc1 & Hp1 & -> & ->).
  apply build_mod_tar_res_dict_lookup in H2 as (c2 & p2 & Hc2 & Hp2 & -> & ->).
  set (cols := columns mod_aliseq tar_aliseq) in *.
  apply andb_true_iff in Hp1 as [Hm1 Ht1]. apply andb_true_iff in Hp2 as [Hm2 Ht2].
  unfold mod_position, tar_position.
  destruct (Nat.lt_trichotomy c1 c2) as [Hlt|[->|Hlt]].
  - pose proof (count_pred_take_mono_lt (fun p => negb (is_gap p.1)) cols c1 c2 p1
                  Hlt Hc1 Hm1).
    pose proof (count_pred_take_mono_lt (fun p => negb (is_gap p.2)) cols c1 c2 p1
                  Hlt Hc1 Ht1).
    lia.
  - lia.
  - pose proof (count_pred_take_mono_lt (fun p => negb (is_gap p.1)) cols c2 c1 p2
                  Hlt Hc2 Hm2).
    pose proof (count_pred_take_mono_lt (fun p => negb (is_gap p.2)) cols c2 c1 p2
                  Hlt Hc2 Ht2).
    lia.
Qed.

Lemma mod_tar_res_dict_increasing_witness :
  build_mod_tar_res_dict "A-CD" "AGC-" !! 0 = Some 0
  /\ build_mod_tar_res_dict "A-CD" "AGC-" !! 1 = Some 2
  /\ (0 < 1 <-> 0 < 2).
Proof.
  assert (build_mod_tar_res_dict "A-CD" "AGC-" !! 0 = Some 0) as H1
    by (vm_compute; reflexivity).
  assert (build_mod_tar_res_dict "A-CD" "AGC-" !! 1 = Some 2) as H2
    by (vm_compute; reflexivity).
  split; [exact H1|]. split; [exact H2|].
  exact (proj1 (mod_tar_res_dict_increasing _ _ _ _ _ _ H1 H2)).
Defined.

Lemma res_dict_fold_size (l : list (ascii * ascii)) :
  exists d : gmap nat nat,
    foldl res_dict_step (0, 0, ∅) l
    = (count_pred (fun p => negb (is_gap p.1)) l,
       count_pred (fun p => negb (is_gap p.2)) l, d)
    /\ size d = count_pred both_nongap l
    /\ forall k, is_Some (d !! k) -> k < count_pred (fun p => negb (is_gap p.1)) l.
Proof.
  induction l as [|[mod_pos tar_pos] l IH] using rev_ind.
  - exists ∅. split; [done|]. split; [done|].
    intros k [? Hk]. by rewrite lookup_empty in Hk.
  - destruct IH as (d & Hfold & Hsize & Hkeys).
    rewrite foldl_app, Hfold. cbn [foldl]. unfold res_dict_step at 1.
    rewrite !count_pred_app, !count_pred_cons. cbn [fst snd].
    change (count_pred (fun p : ascii * ascii => negb (is_gap p.1)) []) with 0.
    change (count_pred (fun p : ascii * ascii => negb (is_gap p.2)) []) with 0.
    change (count_pred both_nongap []) with 0.
    unfold both_nongap at 2. cbn [fst snd].
    set (mc := count_pred (fun p => negb (is_gap p.1)) l) in *.
    set (tc := count_pred (fun p => negb (is_gap p.2)) l) in *.
    assert (d !! mc = None) as Hfresh.
    { apply eq_None_not_Some. intros Hsome%Hkeys. lia. }
    eexists. split.
    { assert (forall (b : bool) (n : nat),
                (if b then S n else n) = n + ((if b then 1 else 0) + 0)) as Hif
        by (intros [] n; lia).
      by rewrite <- !Hif. }
    destruct (negb (is_gap mod_pos)) eqn:Hm; cbn [andb].
    + destruct (negb (is_gap tar_pos)) eqn:Ht.
      * split; [rewrite map_size_insert_None by done; lia|].
        intros k Hk. destruct (decide (k = mc)) as [->|Hne]; [lia|].
        rewrite lookup_insert_ne in Hk by done. apply Hkeys in Hk. lia.
      * split; [lia|]. intros k Hk%Hkeys. lia.
    + split; [lia|]. intros k Hk%Hkeys. lia.
Qed.

Lemma build_mod_tar_res_dict_bounds (mod_aliseq tar_aliseq : string) (k v : nat) :
  build_mod_tar_res_dict mod_aliseq tar_aliseq !! k = Some v ->
  k < count_pred (fun p => negb (is_gap p.1)) (columns mod_aliseq tar_aliseq)
  /\ v < count_pred (fun p => negb (is_gap p.2)) (columns mod_aliseq tar_aliseq).
Proof.
  intros Hk.
  apply build_mod_tar_res_dict_lookup in Hk as (c & p & Hc & Hp & -> & ->).
  apply andb_true_iff in Hp as [Hm Ht]. unfold mod_position, tar_position.
  split; by eapply count_pred_take_lt.
Qed.

(** X5: the correspondence has one entry for each column with a residue on
    both sides (as many as the matched columns of the identity); its keys
    are below the number of model residues and its values below the number
    of target residues of the two aligned sequences. *)
Theorem mod_tar_res_dict_size_and_bounds (mod_aliseq tar_aliseq : string) :
  let cols := columns mod_aliseq tar_aliseq in
  size (build_mod_tar_res_dict mod_aliseq tar_aliseq)
  = (seqid_counts mod_aliseq tar_aliseq).1
  /\ forall k v : nat,
       build_mod_tar_res_dict mod_aliseq tar_aliseq !! k = Some v ->
       k < count_pred (fun p => negb (is_gap p.1)) cols
       /\ v < count_pred (fun p => negb (is_gap p.2)) cols.
Proof.
  cbv zeta. split.
  - rewrite seqid_counts_eq. cbn [fst]. unfold build_mod_tar_res_dict.
    by destruct (res_dict_fold_size (columns mod_aliseq tar_aliseq))
      as (d & -> & Hsize & _).
  - intros k v Hk. by apply build_mod_tar_res_dict_bounds.
Qed.

(** ** When the loop over the restraints raises *)

Lemma analyse_restraint_no_type (a : automodel) (md : gmap Z (residue * residue))
    (d : gmap nat nat) (tr : list residue) (atm_1 atm_2 : Z) :
  atm_type_dict a !! atm_1 = None \/ atm_type_dict a !! atm_2 = None ->
  analyse_restraint a md d tr (atm_1, atm_2) = Raise KeyError.
Proof.
  unfold analyse_restraint, getitem. intros [H|H].
  - by rewrite H.
  - rewrite H. by destruct (atm_type_dict a !! atm_1).
Qed.

Lemma analyse_restraint_typed (a : automodel) (aln : alignment)
    (modeller_mod_seq modeller_tem_seq : sequence_obj) (d : gmap nat nat)
    (tr : list residue) (atm_1 atm_2 : Z) :
  is_Some (atm_type_dict a !! atm_1) -> is_Some (atm_type_dict a !! atm_2) ->
  (forall k v, d !! k = Some v -> v < length tr) ->
  exists r,
    analyse_restraint a (build_matches_dict aln modeller_mod_seq modeller_tem_seq)
      d tr (atm_1, atm_2) = Ok r.
Proof.
  intros [t1 Ht1] [t2 Ht2] Hbound. unfold analyse_restraint.
  rewrite (proj2 (getitem_Ok _ _ _) Ht1), (proj2 (getitem_Ok _ _ _) Ht2).
  cbn [mbind result_bind].
  destruct (matched_residues a _ atm_1) as [[m1 te1]|] eqn:Hm1; [|by eexists].
  destruct (matched_residues a _ atm_2) as [[m2 te2]|] eqn:Hm2; [|by eexists].
  apply matched_residues_Some in Hm1 as (ri1 & _ & Hmd1).
  apply matched_residues_Some in Hm2 as (ri2 & _ & Hmd2).
  apply build_matches_dict_stored in Hmd1 as (_ & [i1 Hi1] & _).
  apply build_matches_dict_stored in Hmd2 as (_ & [i2 Hi2] & _).
  rewrite (proj2 (get_id_Ok m1 i1) Hi1). cbn [mbind result_bind].
  destruct (d !! i1) as [k1|] eqn:Hk1; [|by eexists].
  rewrite (proj2 (get_id_Ok m2 i2) Hi2). cbn [mbind result_bind].
  destruct (d !! i2) as [k2|] eqn:Hk2; [|by eexists].
  destruct (lookup_lt_is_Some_2 tr k1 (Hbound _ _ Hk1)) as [tr1 Hr1].
  destruct (lookup_lt_is_Some_2 tr k2 (Hbound _ _ Hk2)) as [tr2 Hr2].
  rewrite (proj2 (list_getitem_Ok tr k1 tr1) Hr1).
  rewrite (proj2 (list_getitem_Ok tr k2 tr2) Hr2). cbn [mbind result_bind].
  repeat match goal with
         | |- context [get_modeller_atom ?r ?t] => destruct (get_modeller_atom r t)
         end; by eexists.
Qed.

Lemma length_omap_le {A B : Type} (f : A -> option B) (l : list A) :
  length (omap f l) <= length l.
Proof.
  induction l as [|x l IH]; [done|]. cbn [omap list_omap].
  destruct (f x); simpl; lia.
Qed.

(** X6: when the target has at least as many residues as its aligned
    sequence, the loop over the restraints of a template ends normally
    exactly when both atoms of every restraint have a type in
    [atm_type_dict]; it then gives at most one row for each restraint, and
    otherwise raises [KeyError]: no other exception leaves the loop, the
    atom lookup and the distance of [altmod_utils] being functions that
    return. *)
Theorem restraints_loop_raises_only_for_untyped_atoms (a : automodel)
    (aln : alignment) (modeller_mod_seq modeller_tem_seq : sequence_obj)
    (mod_aliseq tar_aliseq : string) (tr : list residue) (hddrs : list (Z * Z)) :
  count_pred (fun p => negb (is_gap p.2)) (columns mod_aliseq tar_aliseq)
  <= length tr ->
  let outcome :=
    analyse_restraints a (build_matches_dict aln modeller_mod_seq modeller_tem_seq)
      (build_mod_tar_res_dict mod_aliseq tar_aliseq) tr hddrs [] in
  ((exists rows, outcome = Ok rows /\ length rows <= length hddrs)
   <-> forall atm_1 atm_2,
         (atm_1, atm_2) ∈ hddrs ->
         is_Some (atm_type_dict a !! atm_1) /\ is_Some (atm_type_dict a !! atm_2))
  /\ (forall e, outcome = Raise e -> e = KeyError).
Proof.
  intros Hfit outcome. subst outcome.
  set (md := build_matches_dict aln modeller_mod_seq modeller_tem_seq).
  set (d := build_mod_tar_res_dict mod_aliseq tar_aliseq).
  assert (forall k v, d !! k = Some v -> v < length tr) as Hbound.
  { intros k v Hk.
    destruct (build_mod_tar_res_dict_bounds mod_aliseq tar_aliseq k v Hk)
      as [_ Hv]. lia. }
  assert (forall p, (exists r, analyse_restraint a md d tr p = Ok r)
                    \/ analyse_restraint a md d tr p = Raise KeyError) as Hstep.
  { intros [atm_1 atm_2].
    destruct (atm_type_dict a !! atm_1) as [t1|] eqn:Ht1;
      [|right; apply analyse_restraint_no_type; by left].
    destruct (atm_type_dict a !! atm_2) as [t2|] eqn:Ht2;
      [|right; apply analyse_restraint_no_type; by right].
    left. apply analyse_restraint_typed; [by rewrite Ht1|by rewrite Ht2|done]. }
  split.
  - split.
    + intros (rows & Hrows & _) atm_1 atm_2 Hin.
      apply analyse_restraints_Ok in Hrows as [Hall _].
      rewrite Forall_forall in Hall. destruct (Hall _ Hin) as [r Hr].
      destruct (atm_type_dict a !! atm_1) as [t1|] eqn:Ht1.
      * destruct (atm_type_dict a !! atm_2) as [t2|] eqn:Ht2; [by split|].
        rewrite analyse_restraint_no_type in Hr by (by right). discriminate.
      * rewrite analyse_restraint_no_type in Hr by (by left). discriminate.
    + intros Htyped. eexists. split.
      * apply analyse_restraints_Ok. split; [|reflexivity].
        apply Forall_forall. intros [atm_1 atm_2] Hin.
        destruct (Htyped _ _ Hin). by apply analyse_restraint_typed.
      * rewrite app_nil_l. apply length_omap_le.
  - generalize (@nil row). induction hddrs as [|p hddrs IH]; intros acc e; [done|].
    cbn [analyse_restraints].
    destruct (Hstep p) as [[r ->] | ->]; cbn [mbind result_bind].
    + apply IH.
    + by intros [= <-].
Qed.

(** ** What a row holds *)

(** X7: a row written for a template carries, for each of its two atoms,
    the atom index of the restraint, the type [atm_type_dict] gives it, the
    residue index [atm_to_res_dict] gives it, the code of the model residue
    with that index and the number and code of the template residue of the
    same alignment column, and the number and code of a residue of the
    target; its group is the one of the two types, one of 9, 10, 23, 26. *)
Theorem row_identifiers (a : automodel) (aln : alignment)
    (modeller_mod_seq modeller_tem_seq : sequence_obj) (d : gmap nat nat)
    (tr : list residue) (atm_1 atm_2 : Z) (r : row) :
  analyse_restraint a (build_matches_dict aln modeller_mod_seq modeller_tem_seq)
    d tr (atm_1, atm_2) = Ok (Some r) ->
  let side := fun (atm : Z) (atom_index : Z) (atom_type : string)
                  (mod_id : Z) (mod_name : ascii) (tem_id : string)
                  (tem_name : ascii) (tar_id : string) (tar_name : ascii) =>
    atom_index = atm
    /\ atm_type_dict a !! atm = Some atom_type
    /\ atm_to_res_dict a !! atm = Some mod_id
    /\ (exists pos m te,
           pos ∈ positions aln
           /\ get_residue pos modeller_mod_seq = Some m
           /\ get_residue pos modeller_tem_seq = Some te
           /\ index m = mod_id /\ code m = mod_name
           /\ num te = tem_id /\ code te = tem_name)
    /\ (exists t, t ∈ tr /\ num t = tar_id /\ code t = tar_name) in
  side atm_1 (MOD_ATOM_INDEX_I r) (MOD_ATOM_TYPE_I r) (MOD_RES_PDB_ID_I r)
       (MOD_RES_NAME_I r) (TEM_RES_PDB_ID_I r) (TEM_RES_NAME_I r)
       (TAR_RES_PDB_ID_I r) (TAR_RES_NAME_I r)
  /\ side atm_2 (MOD_ATOM_INDEX_J r) (MOD_ATOM_TYPE_J r) (MOD_RES_PDB_ID_J r)
          (MOD_RES_NAME_J r) (TEM_RES_PDB_ID_J r) (TEM_RES_NAME_J r)
          (TAR_RES_PDB_ID_J r) (TAR_RES_NAME_J r)
  /\ RST_GRP r = grp_name_of (MOD_ATOM_TYPE_I r) (MOD_ATOM_TYPE_J r)
  /\ RST_GRP r ∈ ["9"; "10"; "23"; "26"].
Proof.
  intros Hr side. apply analyse_restraint_Some in Hr.
  destruct Hr as [t1 t2 m1 te1 m2 te2 i1 i2 k1 k2 tr1 tr2 ? ? ? ?
                    Ht1 Ht2 Hm1 Hm2 _ _ _ _ Hr1 Hr2].
  apply matched_residues_Some in Hm1 as (ri1 & Hri1 & Hmd1).
  apply matched_residues_Some in Hm2 as (ri2 & Hri2 & Hmd2).
  apply build_matches_dict_stored
    in Hmd1 as (Hix1 & _ & pos1 & m01 & Hin1 & Hmod1 & Htem1 & Hc1 & Hx1).
  apply build_matches_dict_stored
    in Hmd2 as (Hix2 & _ & pos2 & m02 & Hin2 & Hmod2 & Htem2 & Hc2 & Hx2).
  cbn [make_row RST_GRP MOD_ATOM_INDEX_I MOD_ATOM_INDEX_J MOD_ATOM_TYPE_I
       MOD_ATOM_TYPE_J MOD_RES_PDB_ID_I MOD_RES_PDB_ID_J MOD_RES_NAME_I
       MOD_RES_NAME_J TEM_RES_PDB_ID_I TEM_RES_PDB_ID_J TEM_RES_NAME_I
       TEM_RES_NAME_J TAR_RES_PDB_ID_I TAR_RES_PDB_ID_J TAR_RES_NAME_I
       TAR_RES_NAME_J].
  split; [|split; [|split]].
  - unfold side. split; [done|]. split; [done|]. split; [by rewrite Hix1|].
    split.
    + exists pos1, m01, te1. repeat split; try done; congruence.
    + exists tr1. split; [by eapply list_elem_of_lookup_2|done].
  - unfold side. split; [done|]. split; [done|]. split; [by rewrite Hix2|].
    split.
    + exists pos2, m02, te2. repeat split; try done; congruence.
    + exists tr2. split; [by eapply list_elem_of_lookup_2|done].
  - done.
  - destruct (grp_name_of_cases t1 t2)
      as [(? & ->)|[(? & ? & ->)|[(? & ? & ? & ->)|(? & ? & ? & ? & ->)]]];
      rewrite !list_elem_of_In; simpl; tauto.
Qed.

Lemma row_identifiers_witness :
  analyse_restraint ex_self (build_matches_dict ex_aln ex_mod_seq ex_tem_seq)
    (build_mod_tar_res_dict "AC" "AC") [ex_tar_1; ex_tar_2] (1%Z, 2%Z)
  = Ok (Some ex_row)
  /\ RST_GRP ex_row ∈ ["9"; "10"; "23"; "26"].
Proof.
  assert (analyse_restraint ex_self
            (build_matches_dict ex_aln ex_mod_seq ex_tem_seq)
            (build_mod_tar_res_dict "AC" "AC") [ex_tar_1; ex_tar_2] (1%Z, 2%Z)
          = Ok (Some ex_row)) as Hrow by (vm_compute; reflexivity).
  split; [exact Hrow|].
  exact (proj2 (proj2 (proj2 (row_identifiers _ _ _ _ _ _ _ _ _ Hrow)))).
Defined.

Lemma restraints_loop_witness :
  count_pred (fun p => negb (is_gap p.2)) (columns "AC" "AC")
  <= length [ex_tar_1; ex_tar_2]
  /\ exists rows,
       analyse_restraints ex_self (build_matches_dict ex_aln ex_mod_seq ex_tem_seq)
         (build_mod_tar_res_dict "AC" "AC") [ex_tar_1; ex_tar_2]
         (hddr_dict_all ex_self) [] = Ok rows
       /\ length rows <= length (hddr_dict_all ex_self).
Proof.
  assert (count_pred (fun p => negb (is_gap p.2)) (columns "AC" "AC")
          <= length [ex_tar_1; ex_tar_2]) as Hfit by (vm_compute; lia).
  split; [exact Hfit|].
  apply (restraints_loop_raises_only_for_untyped_atoms ex_self ex_aln ex_mod_seq
           ex_tem_seq "AC" "AC" _ (hddr_dict_all ex_self) Hfit).
  intros atm_1 atm_2 Hin. apply list_elem_of_singleton in Hin. injection Hin as -> ->.
  split; by eexists.
Defined.

(** ** What the analysis leaves behind, whatever its outcome *)

Lemma with_hddr_params_filepaths_id (a : automodel) :
  with_hddr_params_filepaths a (hddr_params_filepaths a) = a.
Proof. by destruct a. Qed.

Lemma enumerate_from_lookup_inv {A : Type} (n i : nat) (l : list A) (t : nat * A) :
  enumerate_from n l !! i = Some t -> t.1 = n + i /\ l !! i = Some t.2.
Proof.
  revert n i. induction l as [|y l IH]; intros n [|i]; simpl; try done.
  - intros [= <-]. simpl. split; [lia|done].
  - intros Hi. destruct (IH (S n) i Hi) as [-> ->]. split; [lia|done].
Qed.

Lemma analyse_templates_any (aln : alignment) (modeller_mod_seq : sequence_obj)
    (d : gmap nat nat) (tr : list residue) (tems : list (nat * string))
    (s s' : store) (r : result unit) :
  analyse_templates aln modeller_mod_seq d tr tems s = (r, s') ->
  exists (tables : list (list row)) (l : list (option string)),
    let new := zip_with (fun t rows =>
                           (analysis_filename_of (sequence (self s)) t.1,
                            csv_of rows)) tems tables in
    self s' = with_hddr_params_filepaths (self s) l
    /\ length l = length (hddr_params_filepaths (self s))
    /\ files s' = files s ++ new
    /\ length tables <= length tems
    /\ forall i name,
         l !! i = Some (Some name) ->
         hddr_params_filepaths (self s) !! i = Some (Some name) \/ name ∈ new.*1.
Proof.
  revert s. induction tems as [|[tem_idx tem_name] tems IH]; intros s.
  - intros [= <- <-]. exists [], (hddr_params_filepaths (self s)). cbv zeta.
    rewrite with_hddr_params_filepaths_id, app_nil_r. cbn [zip_with].
    repeat split; auto; simpl; lia.
  - cbn [analyse_templates]. unfold analyse_template.
    destruct (template_rows (self s) aln modeller_mod_seq d tr tem_name)
      as [rows|e].
    2:{ intros [= <- <-]. exists [], (hddr_params_filepaths (self s)). cbv zeta.
        rewrite with_hddr_params_filepaths_id. cbn [zip_with].
        rewrite app_nil_r. repeat split; auto; simpl; lia. }
    unfold list_setitem. cbn [write_file self files].
    case_bool_decide as Hlt.
    2:{ intros [= <- <-]. exists [rows], (hddr_params_filepaths (self s)). cbv zeta.
        rewrite with_hddr_params_filepaths_id. cbn [self files zip_with fst].
        rewrite zip_with_nil_r. repeat split; auto; simpl; lia. }
    intros Hrest. apply IH in Hrest as (tables & l & Hrest). cbv zeta in Hrest.
    cbn [assign_hddr_params_filepaths write_file with_hddr_params_filepaths
         self files hddr_params_filepaths sequence] in Hrest.
    destruct Hrest as (Hself & Hlen & Hfiles & Htables & Hrec).
    exists (rows :: tables), l. cbv zeta. cbn [zip_with fst].
    split; [done|]. split; [by rewrite Hlen, length_insert|].
    split; [by rewrite Hfiles, <- app_assoc|]. split; [simpl; lia|].
    intros i name Hi. rewrite fmap_cons. cbn [fst].
    destruct (Hrec i name Hi) as [Hold|Hnew].
    + destruct (decide (i = tem_idx)) as [->|Hne].
      * rewrite list_lookup_insert_eq in Hold by done. injection Hold as <-.
        right. by left.
      * rewrite list_lookup_insert_ne in Hold by done. by left.
    + right. by right.
Qed.

(** ** The errors that come before the alignment *)

(** X9: the analysis fails before it aligns anything, the store left as it
    was, in this order of precedence: [KeyError] when the alignment has no
    sequence of the model's name; [NotImplementedError] when the model has
    more than one chain, whether or not a target was set or can be read;
    [AttributeError] when no target was set; then whatever [complete_pdb]
    raises on the target file. *)
Theorem analysis_early_errors (sv : services) (s : store) :
  (forall e,
      aln_getitem (read_alignment sv) (sequence (self s)) = Raise e ->
      e = KeyError /\ analyse_target_template_pairs sv s = (Raise KeyError, s))
  /\ (forall modeller_mod_seq,
        aln_getitem (read_alignment sv) (sequence (self s)) = Ok modeller_mod_seq ->
        (1 < seq_n_chains modeller_mod_seq ->
         analyse_target_template_pairs sv s
         = (Raise (NotImplementedError multichain_model_message), s))
        /\ (seq_n_chains modeller_mod_seq <= 1 -> target (self s) = None ->
            analyse_target_template_pairs sv s = (Raise AttributeError, s))
        /\ (forall t e,
              seq_n_chains modeller_mod_seq <= 1 -> target (self s) = Some t ->
              complete_pdb sv (target_filepath t) = Raise e ->
              analyse_target_template_pairs sv s = (Raise e, s))).
Proof.
  unfold analyse_target_template_pairs, align_model_and_target. split.
  - intros e He. assert (e = KeyError) as ->.
    { unfold aln_getitem in He. destruct (find _ _); congruence. }
    split; [done|]. by rewrite He.
  - intros modeller_mod_seq ->. cbn [mbind result_bind]. split; [|split].
    + intros Hmany. by rewrite bool_decide_eq_true_2.
    + intros Hone Hnone. rewrite bool_decide_eq_false_2 by lia.
      unfold get_target. by rewrite Hnone.
    + intros t e Hone Hsome Hpdb. rewrite bool_decide_eq_false_2 by lia.
      unfold get_target, get_target_residues. rewrite Hsome. cbn [mbind result_bind].
      by rewrite Hpdb.
Qed.

(** ** The target and the two aligned sequences *)

(** X10: for a target structure of one chain (or none) the chain given to
    [set_target_structure] is not looked at: whatever it is, and even if the
    structure has no chain of that name, the analysis works with all the
    residues of the structure. *)
Theorem single_chain_target_ignores_chain (sv : services) (t : target_options)
    (modeller_tar_obj : structure) :
  complete_pdb sv (target_filepath t) = Ok modeller_tar_obj ->
  length (chains modeller_tar_obj) <= 1 ->
  forall c : option string,
    get_target_residues sv
      {| target_filepath := target_filepath t; target_chain := c;
         mod_tar_seqid_threshold := mod_tar_seqid_threshold t;
         use_target_distances := use_target_distances t |}
    = Ok (residues modeller_tar_obj).
Proof.
  intros Hpdb Hone c. unfold get_target_residues. cbn [target_filepath target_chain].
  rewrite Hpdb. cbn [mbind result_bind]. by rewrite bool_decide_eq_false_2 by lia.
Qed.

Lemma single_chain_target_witness :
  complete_pdb (ex_services ex_tar) (target_filepath ex_target) = Ok ex_tar
  /\ length (chains ex_tar) <= 1
  /\ get_target_residues (ex_services ex_tar)
       {| target_filepath := "target.pdb"; target_chain := Some "Z";
          mod_tar_seqid_threshold := default_mod_tar_seqid_threshold;
          use_target_distances := false |}
     = Ok [ex_tar_1; ex_tar_2].
Proof.
  assert (length (chains ex_tar) <= 1) as Hone by (simpl; lia).
  split; [reflexivity|]. split; [exact Hone|].
  exact (single_chain_target_ignores_chain (ex_services ex_tar) ex_target ex_tar
           eq_refl Hone (Some "Z")).
Defined.

Lemma columns_of_codes (new_aln : list (option residue * option residue)) :
  columns (join_codes ((fun p => _get_modeller_res_code p.2) <$> new_aln))
          (join_codes ((fun p => _get_modeller_res_code p.1) <$> new_aln))
  = (fun p => (_get_modeller_res_code p.2, _get_modeller_res_code p.1)) <$> new_aln.
Proof.
  unfold columns, join_codes. rewrite !list_ascii_of_string_of_list_ascii.
  induction new_aln as [|p new_aln IH]; [done|].
  rewrite !fmap_cons. cbn [zip zip_with]. f_equal. exact IH.
Qed.

(** X11: the two aligned sequences have one character for each position of
    the pairwise alignment, so the loops over their columns see every
    position; a column reads as a gap on a side exactly when the position
    has no residue there or has a residue whose code is the gap character
    itself. *)
Theorem aligned_sequences_columns (sv : services) (a : automodel) (al : aligned) :
  align_model_and_target sv a = Ok al ->
  exists new_aln : list (option residue * option residue),
    new_aln = salign sv (join_codes (code <$> al_tar_residues al))
                (join_codes (code <$> seq_residues (al_mod_seq al)))
    /\ String.length (al_mod_aliseq al) = length new_aln
    /\ String.length (al_tar_aliseq al) = length new_aln
    /\ columns (al_mod_aliseq al) (al_tar_aliseq al)
       = (fun p => (_get_modeller_res_code p.2, _get_modeller_res_code p.1))
           <$> new_aln
    /\ forall modeller_res : option residue,
         is_gap (_get_modeller_res_code modeller_res) = true
         <-> modeller_res = None
             \/ exists res, modeller_res = Some res /\ code res = "-"%char.
Proof.
  unfold align_model_and_target. intros Hal.
  destruct (aln_getitem (read_alignment sv) (sequence a)) as [m|]; [|done].
  cbn [mbind result_bind] in Hal. case_bool_decide; [done|].
  destruct (get_target a) as [t|]; [|done]. cbn [mbind result_bind] in Hal.
  destruct (get_target_residues sv t) as [trs|]; [|done].
  cbn [mbind result_bind] in Hal. injection Hal as <-.
  cbn [al_tar_residues al_mod_seq al_mod_aliseq al_tar_aliseq].
  eexists. split; [reflexivity|].
  split; [|split; [|split]].
  - unfold join_codes. rewrite <- length_list_ascii_of_string.
    by rewrite list_ascii_of_string_of_list_ascii, length_fmap.
  - unfold join_codes. rewrite <- length_list_ascii_of_string.
    by rewrite list_ascii_of_string_of_list_ascii, length_fmap.
  - apply columns_of_codes.
  - intros [res|]; rewrite is_gap_true; cbn [_get_modeller_res_code].
    + split; [intros ?; right; by exists res|].
      intros [?|(? & [= <-] & ?)]; done.
    + split; [by left|done].
Qed.

Lemma aligned_sequences_witness :
  align_model_and_target (ex_services ex_tar) ex_self
  = Ok (ex_aligned [ex_tar_1; ex_tar_2] "AC" "AC")
  /\ exists new_aln : list (option residue * option residue),
       String.length "AC" = length new_aln.
Proof.
  assert (align_model_and_target (ex_services ex_tar) ex_self
          = Ok (ex_aligned [ex_tar_1; ex_tar_2] "AC" "AC")) as Hal
    by (vm_compute; reflexivity).
  split; [exact Hal|].
  destruct (aligned_sequences_columns _ _ _ Hal) as (new_aln & _ & Hlen & _).
  by exists new_aln.
Defined.

(** ** More on the template files *)

Lemma mapM_os_listdir_None (sv : services) (dirs : list string) (adp : string) :
  adp ∈ dirs -> listdir sv adp = None ->
  mapM (os_listdir sv) dirs = Raise OSError.
Proof.
  intros Hin Hnone. induction dirs as [|x dirs IH]; [by apply elem_of_nil in Hin|].
  cbn [mapM]. destruct (os_listdir sv x) as [content|e] eqn:Hx;
    cbn [mbind result_bind].
  - apply elem_of_cons in Hin as [->|Hin].
    + unfold os_listdir in Hx. by rewrite Hnone in Hx.
    + by rewrite (IH Hin).
  - unfold os_listdir in Hx. destruct (listdir sv x); congruence.
Qed.

(** X12: the search directories are all listed before any template is
    looked for: when one of them cannot be listed, [OSError] is raised even
    though every recorded path may be an existing file. *)
Theorem get_template_filepaths_lists_first (sv : services) (a : automodel)
    (aln : alignment) (adp : string) :
  adp ∈ atom_files_directory a -> listdir sv adp = None ->
  _get_template_filepaths sv a aln = Raise OSError.
Proof.
  intros Hin Hnone. unfold _get_template_filepaths.
  by rewrite (mapM_os_listdir_None sv _ adp Hin Hnone).
Qed.

Lemma get_template_filepaths_lists_first_witness :
  "gone" ∈ atom_files_directory ex_self_unlisted
  /\ listdir ex_services_unlisted "gone" = None
  /\ isfile ex_services_unlisted (atom_file ex_tem_seq) = true
  /\ _get_template_filepaths ex_services_unlisted ex_self_unlisted ex_aln
     = Raise OSError.
Proof.
  assert ("gone" ∈ atom_files_directory ex_self_unlisted) as Hin
    by (right; left).
  assert (listdir ex_services_unlisted "gone" = None) as Hnone by reflexivity.
  split; [exact Hin|]. split; [exact Hnone|]. split; [reflexivity|].
  exact (get_template_filepaths_lists_first _ _ _ "gone" Hin Hnone).
Defined.

Lemma template_filepaths_loop_files (sv : services) (n_knowns : nat)
    (dirs : list (string * list string)) (seqs : list sequence_obj) (k : nat)
    (template_filepaths : list string) :
  Forall (fun seq => isfile sv (atom_file seq) = true)
    (if bool_decide (k < n_knowns <= k + length seqs)
     then take (n_knowns - k) seqs else seqs) ->
  template_filepaths_loop sv n_knowns dirs (enumerate_from k seqs) template_filepaths
  = Ok (template_filepaths
        ++ (atom_file <$> (if bool_decide (k < n_knowns <= k + length seqs)
                           then take (n_knowns - k) seqs else seqs))).
Proof.
  revert k template_filepaths.
  induction seqs as [|seq seqs IH]; intros k tfs Hall.
  - cbn [enumerate_from template_filepaths_loop].
    case_bool_decide; [rewrite take_nil|]; by rewrite app_nil_r.
  - cbn [enumerate_from template_filepaths_loop].
    assert (isfile sv (atom_file seq) = true) as ->.
    { destruct (bool_decide (k < n_knowns <= k + length (seq :: seqs))) eqn:Hk.
      - apply bool_decide_eq_true in Hk.
        destruct (n_knowns - k) as [|m] eqn:Hm; [lia|].
        by apply Forall_inv in Hall.
      - by apply Forall_inv in Hall. }
    cbn [negb]. destruct (decide (k + 1 = n_knowns)) as [Hlast|Hlast].
    + rewrite (bool_decide_eq_true_2 (k + 1 = n_knowns)) by done.
      rewrite (bool_decide_eq_true_2 (k < n_knowns <= k + length (seq :: seqs)))
        by (simpl; lia).
      replace (n_knowns - k) with 1 by lia.
      change (take 1 (seq :: seqs)) with (seq :: take 0 seqs). by rewrite take_0.
    + rewrite (bool_decide_eq_false_2 (k + 1 = n_knowns)) by done.
      assert (bool_decide (k < n_knowns <= k + length (seq :: seqs))
              = bool_decide (S k < n_knowns <= S k + length seqs)) as Hcond
        by (apply bool_decide_ext; simpl; lia).
      rewrite Hcond in Hall |- *. clear Hcond.
      rewrite IH.
      * rewrite <- app_assoc. f_equal.
        case_bool_decide as Hk; [|done].
        by replace (n_knowns - k) with (S (n_knowns - S k)) by lia.
      * case_bool_decide as Hk; [|by apply Forall_inv_tail in Hall].
        replace (n_knowns - k) with (S (n_knowns - S k)) in Hall by lia.
        by apply Forall_inv_tail in Hall.
Qed.

(** X13: the templates are taken by their rank in the alignment, not by
    the names in [knowns], of which only the number counts: when the
    directories can be listed and the recorded paths of the first
    [len(knowns)] sequences of the alignment are files, these paths are
    returned, whatever the sequences are; with no template, or more
    templates than sequences, every sequence of the alignment is gone
    through, the model's too. *)
Theorem get_template_filepaths_by_rank (sv : services) (a : automodel)
    (aln : alignment) (atom_dirs_content_list : list (list string)) :
  mapM (os_listdir sv) (atom_files_directory a) = Ok atom_dirs_content_list ->
  Forall (fun seq => isfile sv (atom_file seq) = true)
    (examined_sequences (length (knowns a)) (aln_sequences aln)) ->
  _get_template_filepaths sv a aln
  = Ok (atom_file <$> examined_sequences (length (knowns a)) (aln_sequences aln)).
Proof.
  intros Hdirs Hall. unfold _get_template_filepaths, enumerate.
  rewrite Hdirs. cbn [mbind result_bind].
  pose proof (template_filepaths_loop_files sv (length (knowns a))
                (zip (atom_files_directory a) atom_dirs_content_list)
                (aln_sequences aln) 0 []) as Hloop.
  rewrite Nat.sub_0_r in Hloop. unfold examined_sequences in *.
  assert (bool_decide (1 <= length (knowns a) <= length (aln_sequences aln))
          = bool_decide (0 < length (knowns a) <= 0 + length (aln_sequences aln)))
    as Hcond by (apply bool_decide_ext; lia).
  rewrite Hcond in Hall |- *. exact (Hloop Hall).
Qed.

Lemma get_template_filepaths_by_rank_witness :
  mapM (os_listdir (ex_services ex_tar)) (atom_files_directory ex_self) = Ok [[]]
  /\ Forall (fun seq => isfile (ex_services ex_tar) (atom_file seq) = true)
       (examined_sequences (length (knowns ex_self)) (aln_sequences ex_aln))
  /\ _get_template_filepaths (ex_services ex_tar) ex_self ex_aln = Ok ["tem_0.pdb"].
Proof.
  assert (mapM (os_listdir (ex_services ex_tar)) (atom_files_directory ex_self)
          = Ok [[]]) as Hdirs by reflexivity.
  assert (Forall (fun seq => isfile (ex_services ex_tar) (atom_file seq) = true)
            (examined_sequences (length (knowns ex_self)) (aln_sequences ex_aln)))
    as Hall by (repeat constructor).
  split; [exact Hdirs|]. split; [exact Hall|].
  exact (get_template_filepaths_by_rank _ _ _ _ Hdirs Hall).
Defined.

(** ** More on the build stages *)

(** X14: with a target set, [homcsr] ends as the last method it called
    ended.  The methods called before it all returned, each run on the
    store the one before left; the last one was run on the store they left,
    and what it returned or raised, and the store it left, are those of
    [homcsr]: an exception of a stage is passed on as it is and no later
    stage is called.  When [homcsr] returns, the last method called is the
    rebuild of the restraints file. *)
Theorem homcsr_ends_as_last_stage (sv : services) (pc : parent_class)
    (exit_stage : Z) (s s' : store) (tr tr' : list stage) (r : result unit) :
  is_Some (target (self s)) ->
  homcsr sv pc exit_stage (s, tr) = (r, (s', tr')) ->
  exists (before : list stage) (g : stage) (s0 : store),
    tr' = tr ++ before ++ [g]
    /\ run_stages sv pc exit_stage before s = (Ok (), s0)
    /\ run_stage sv pc exit_stage g s0 = (r, s')
    /\ (r = Ok () -> g = Rebuild_restraints_file).
Proof.
  intros Hsome.
  unfold homcsr, read, raise, call, mbind, traced_bind, mret, traced_ret.
  cbn [fst snd]. rewrite bool_decide_eq_true_2 by done. cbn [negb fst snd].
  destruct (build_initial_files pc exit_stage s) as [[[]|e1] s1] eqn:H1;
    cbn [fst snd].
  2:{ intros [= <- <- <-]. by exists [], Build_initial_files, s. }
  destruct (_has_custom_hddr_options (self s1)) eqn:Hconf;
    cbn [negb fst snd].
  - destruct (analyse_target_template_pairs sv s1) as [[[]|e3] s3] eqn:H3;
      cbn [fst snd].
    2:{ intros [= <- <- <-].
        exists [Build_initial_files], Analyse_target_template_pairs, s1.
        rewrite <- app_assoc. cbn [run_stages run_stage]. by rewrite H1. }
    destruct (rebuild_restraints_file pc s3) as [r4 s4] eqn:H4.
    intros [= <- <- <-].
    exists [Build_initial_files; Analyse_target_template_pairs],
      Rebuild_restraints_file, s3.
    rewrite <- !app_assoc. cbn [run_stages run_stage]. by rewrite H1, H3.
  - destruct (set_custom_hddr_options pc s1) as [[[]|e2] s2] eqn:H2;
      cbn [fst snd].
    2:{ intros [= <- <- <-].
        exists [Build_initial_files], Set_custom_hddr_options, s1.
        rewrite <- app_assoc. cbn [run_stages run_stage]. by rewrite H1. }
    destruct (analyse_target_template_pairs sv s2) as [[[]|e3] s3] eqn:H3;
      cbn [fst snd].
    2:{ intros [= <- <- <-].
        exists [Build_initial_files; Set_custom_hddr_options],
          Analyse_target_template_pairs, s2.
        rewrite <- !app_assoc. cbn [run_stages run_stage]. by rewrite H1, H2. }
    destruct (rebuild_restraints_file pc s3) as [r4 s4] eqn:H4.
    intros [= <- <- <-].
    exists [Build_initial_files; Set_custom_hddr_options;
            Analyse_target_template_pairs], Rebuild_restraints_file, s3.
    rewrite <- !app_assoc. cbn [run_stages run_stage].
    by rewrite H1, H2, H3.
Qed.

Lemma homcsr_ends_as_last_stage_witness :
  is_Some (target (self ex_store))
  /\ homcsr (ex_services ex_tar) ex_parent 0 (ex_store, [])
     = (Ok (), (ex_store_done,
                [Build_initial_files; Set_custom_hddr_options;
                 Analyse_target_template_pairs; Rebuild_restraints_file]))
  /\ exists (before : list stage) (g : stage) (s0 : store),
       [Build_initial_files; Set_custom_hddr_options;
        Analyse_target_template_pairs; Rebuild_restraints_file]
       = [] ++ before ++ [g]
       /\ run_stages (ex_services ex_tar) ex_parent 0 before ex_store = (Ok (), s0)
       /\ run_stage (ex_services ex_tar) ex_parent 0 g s0 = (Ok (), ex_store_done)
       /\ (Ok () = Ok () -> g = Rebuild_restraints_file).
Proof.
  assert (is_Some (target (self ex_store))) as Hsome by (by eexists).
  assert (homcsr (ex_services ex_tar) ex_parent 0 (ex_store, [])
          = (Ok (), (ex_store_done,
                     [Build_initial_files; Set_custom_hddr_options;
                      Analyse_target_template_pairs; Rebuild_restraints_file])))
    as Hrun by (vm_compute; reflexivity).
  split; [exact Hsome|]. split; [exact Hrun|].
  exact (homcsr_ends_as_last_stage _ _ _ _ _ _ _ _ Hsome Hrun).
Defined.

(** ** Rows and what they are resolved from *)

Lemma build_matches_dict_column (aln : alignment)
    (modeller_mod_seq modeller_tem_seq : sequence_obj) (ri : Z) (m te : residue) :
  build_matches_dict aln modeller_mod_seq modeller_tem_seq !! ri = Some (m, te) ->
  exists (c : nat) (pos : gmap string residue) (m0 : residue),
    positions aln !! c = Some pos
    /\ get_residue pos modeller_mod_seq = Some m0
    /\ get_residue pos modeller_tem_seq = Some te
    /\ index m0 = ri
    /\ m = set_id m0 (mod_rank aln modeller_mod_seq c).
Proof.
  unfold build_matches_dict, mod_rank.
  destruct (matches_fold modeller_mod_seq modeller_tem_seq (positions aln))
    as (md & -> & Hsome & _).
  intros Hri. destruct (Hsome ri m te Hri) as (c & pos & m0 & ? & ? & ? & ? & ?).
  by exists c, pos, m0.
Qed.

Lemma target_aligned_lookup (mod_aliseq tar_aliseq : string) (i k : nat) :
  build_mod_tar_res_dict mod_aliseq tar_aliseq !! i = Some k
  <-> target_aligned mod_aliseq tar_aliseq i k.
Proof.
  rewrite build_mod_tar_res_dict_lookup. unfold target_aligned. split.
  - intros (c & [mod_pos tar_pos] & Hc & Hp & -> & ->).
    apply both_nongap_true in Hp as [? ?]. by exists c, mod_pos, tar_pos.
  - intros (c & mod_pos & tar_pos & Hc & ? & ? & <- & <-).
    exists c, (mod_pos, tar_pos). split; [done|]. split; [|done].
    by apply both_nongap_true.
Qed.

Lemma tag_of_types_grp_name_of (t1 t2 : string) :
  tag_of_types t1 t2 (grp_name_of t1 t2).
Proof.
  unfold tag_of_types.
  destruct (grp_name_of_cases t1 t2)
    as [(? & ->)|[(? & ? & ->)|[(? & ? & ? & ->)|(? & ? & ? & ? & ->)]]].
  - by left.
  - right; by left.
  - right; right; by left.
  - right; right; by right.
Qed.

Lemma tag_of_types_cases (t1 t2 tag : string) :
  tag_of_types t1 t2 tag ->
  (tag = "9" <-> both_ca t1 t2)
  /\ (tag = "10" <-> n_and_o t1 t2)
  /\ (tag = "23" <->
        ~ both_ca t1 t2 /\ ~ n_and_o t1 t2 /\ (is_main t1 \/ is_main t2))
  /\ (tag = "26" <-> ~ is_main t1 /\ ~ is_main t2)
  /\ tag ∈ ["9"; "10"; "23"; "26"].
Proof.
  pose proof (both_ca_main t1 t2) as M1.
  pose proof (n_and_o_main t1 t2) as M2.
  pose proof (both_ca_not_n_and_o t1 t2) as X.
  assert (forall t, n_and_o t1 t -> is_main t1) as M3.
  { intros t [[-> _]|[-> _]]; unfold is_main; tauto. }
  intros [(-> & ?)|[(-> & ?)|[(-> & ? & ? & ?)|(-> & ? & ?)]]];
    (split; [|split; [|split; [|split]]]);
    try (split; intros; try discriminate; tauto);
    rewrite !list_elem_of_In; simpl; tauto.
Qed.

(** The row of a restraint, read back: both atoms are resolved, and the
    row holds what they are resolved to. *)
Lemma analyse_restraint_resolved (a : automodel) (aln : alignment)
    (modeller_mod_seq modeller_tem_seq : sequence_obj)
    (mod_aliseq tar_aliseq : string) (tr : list residue) (atm_1 atm_2 : Z)
    (r : row) :
  analyse_restraint a (build_matches_dict aln modeller_mod_seq modeller_tem_seq)
    (build_mod_tar_res_dict mod_aliseq tar_aliseq) tr (atm_1, atm_2) = Ok (Some r) ->
  exists (t1 t2 : string) (x1 x2 : resolved_atom),
    resolves a aln modeller_mod_seq modeller_tem_seq mod_aliseq tar_aliseq tr
      atm_1 t1 x1
    /\ resolves a aln modeller_mod_seq modeller_tem_seq mod_aliseq tar_aliseq tr
         atm_2 t2 x2
    /\ row_holds atm_1 atm_2 t1 t2 x1 x2 r.
Proof.
  intros Hr. apply analyse_restraint_Some in Hr.
  destruct Hr as [t1 t2 m1 te1 m2 te2 i1 i2 k1 k2 tr1 tr2 ta1 ta2 na1 na2
                    Ht1 Ht2 Hm1 Hm2 Hi1 Hi2 Hd1 Hd2 Hr1 Hr2 Ha1 Ha2 Hb1 Hb2].
  apply matched_residues_Some in Hm1 as (ri1 & Hri1 & Hmd1).
  apply matched_residues_Some in Hm2 as (ri2 & Hri2 & Hmd2).
  apply build_matches_dict_column
    in Hmd1 as (c1 & pos1 & m01 & Hc1 & Hmod1 & Htem1 & Hix1 & ->).
  apply build_matches_dict_column
    in Hmd2 as (c2 & pos2 & m02 & Hc2 & Hmod2 & Htem2 & Hix2 & ->).
  cbn [_id set_id] in Hi1, Hi2. injection Hi1 as <-. injection Hi2 as <-.
  apply target_aligned_lookup in Hd1, Hd2.
  exists t1, t2,
    {| res_mod := m01; res_tem := te1; res_tar := tr1;
       atm_tem := ta1; atm_tar := na1 |},
    {| res_mod := m02; res_tem := te2; res_tar := tr2;
       atm_tem := ta2; atm_tar := na2 |}.
  split; [|split].
  - split; [done|]. exists c1, pos1, k1. cbn [res_mod res_tem res_tar atm_tem atm_tar].
    rewrite Hix1. by repeat split.
  - split; [done|]. exists c2, pos2, k2. cbn [res_mod res_tem res_tar atm_tem atm_tar].
    rewrite Hix2. by repeat split.
  - unfold row_holds, make_row;
      cbn [RST_GRP GRP_DN GRP_DT GRP_DD MOD_ATOM_INDEX_I MOD_ATOM_INDEX_J
           MOD_ATOM_TYPE_I MOD_ATOM_TYPE_J MOD_RES_PDB_ID_I MOD_RES_PDB_ID_J
           MOD_RES_NAME_I MOD_RES_NAME_J TEM_RES_PDB_ID_I TEM_RES_PDB_ID_J
           TEM_RES_NAME_I TEM_RES_NAME_J TAR_RES_PDB_ID_I TAR_RES_PDB_ID_J
           TAR_RES_NAME_I TAR_RES_NAME_J res_mod res_tem res_tar atm_tem atm_tar
           set_id index code].
    split; [apply tag_of_types_grp_name_of|]. by repeat split.
Qed.

(** ** The checks a restraint passes before it gives a row *)

Lemma matched_residues_column (a : automodel) (aln : alignment)
    (modeller_mod_seq modeller_tem_seq : sequence_obj) (atm : Z) (m te : residue) :
  matched_residues a (build_matches_dict aln modeller_mod_seq modeller_tem_seq) atm
  = Some (m, te) ->
  exists (c : nat) (pos : gmap string residue) (m0 : residue),
    positions aln !! c = Some pos
    /\ get_residue pos modeller_mod_seq = Some m0
    /\ atm_to_res_dict a !! atm = Some (index m0)
    /\ get_residue pos modeller_tem_seq = Some te
    /\ m = set_id m0 (mod_rank aln modeller_mod_seq c).
Proof.
  intros Hm. apply matched_residues_Some in Hm as (ri & Hri & Hmd).
  apply build_matches_dict_column in Hmd as (c & pos & m0 & ? & ? & ? & <- & ->).
  by exists c, pos, m0.
Qed.

(** C2: a restraint whose two atoms have a type gives a row only if both
    atoms are resolved: the model residue of the atom stands in a column of
    the alignment with a template residue; by its position there (the
    number of model residues in the columns before) it faces a target
    residue in the two aligned sequences, which is the position the
    analysis stores in [_id]; and the template and the target residue hold
    an atom of the type.  When the model residue of either atom has no
    template residue, or faces no target residue, the restraint is passed
    over; and when the target has a residue for every position of its
    aligned sequence, no exception is raised and the restraint is passed
    over whenever either atom is not resolved, a missing atom included.  No
    row of the table carries the two atom indices of a restraint passed
    over. *)
Theorem restraint_row_only_if_resolved (a : automodel) (aln : alignment)
    (modeller_mod_seq modeller_tem_seq : sequence_obj)
    (mod_aliseq tar_aliseq : string) (tr : list residue) (atm_1 atm_2 : Z)
    (t1 t2 : string) :
  atm_type_dict a !! atm_1 = Some t1 ->
  atm_type_dict a !! atm_2 = Some t2 ->
  let md := build_matches_dict aln modeller_mod_seq modeller_tem_seq in
  let d := build_mod_tar_res_dict mod_aliseq tar_aliseq in
  let outcome := analyse_restraint a md d tr (atm_1, atm_2) in
  let resolved :=
    resolves a aln modeller_mod_seq modeller_tem_seq mod_aliseq tar_aliseq tr in
  let faces_no_target := fun atm : Z =>
    forall (c : nat) (pos : gmap string residue) (m : residue),
      positions aln !! c = Some pos ->
      get_residue pos modeller_mod_seq = Some m ->
      atm_to_res_dict a !! atm = Some (index m) ->
      forall k, ~ target_aligned mod_aliseq tar_aliseq
                    (mod_rank aln modeller_mod_seq c) k in
  (forall r, outcome = Ok (Some r) ->
     exists x1 x2 : resolved_atom,
       resolved atm_1 t1 x1 /\ resolved atm_2 t2 x2
       /\ MOD_ATOM_INDEX_I r = atm_1 /\ MOD_ATOM_INDEX_J r = atm_2)
  /\ (forall atm m te,
        matched_residues a md atm = Some (m, te) ->
        exists (c : nat) (pos : gmap string residue) (m0 : residue),
          positions aln !! c = Some pos
          /\ get_residue pos modeller_mod_seq = Some m0
          /\ atm_to_res_dict a !! atm = Some (index m0)
          /\ get_residue pos modeller_tem_seq = Some te
          /\ code m = code m0 /\ index m = index m0
          /\ _id m = Some (mod_rank aln modeller_mod_seq c)
          /\ forall k, d !! mod_rank aln modeller_mod_seq c = Some k
                       <-> target_aligned mod_aliseq tar_aliseq
                             (mod_rank aln modeller_mod_seq c) k)
  /\ ((forall ri1, atm_to_res_dict a !! atm_1 = Some ri1 ->
                   ~ template_aligned aln modeller_mod_seq modeller_tem_seq ri1)
      \/ (forall ri2, atm_to_res_dict a !! atm_2 = Some ri2 ->
                      ~ template_aligned aln modeller_mod_seq modeller_tem_seq ri2) ->
      outcome = Ok None)
  /\ (faces_no_target atm_1 \/ faces_no_target atm_2 -> outcome = Ok None)
  /\ (count_pred (fun p => negb (is_gap p.2)) (columns mod_aliseq tar_aliseq)
      <= length tr ->
      (exists o, outcome = Ok o)
      /\ ((forall x1, ~ resolved atm_1 t1 x1) \/ (forall x2, ~ resolved atm_2 t2 x2) ->
          outcome = Ok None))
  /\ (forall hddrs rows,
        outcome = Ok None ->
        analyse_restraints a md d tr hddrs [] = Ok rows ->
        forall r, r ∈ rows ->
                  ~ (MOD_ATOM_INDEX_I r = atm_1 /\ MOD_ATOM_INDEX_J r = atm_2)).
Proof.
  intros Ht1 Ht2 md d outcome resolved faces_no_target.
  subst outcome md d resolved faces_no_target.
  assert (forall body : string -> string -> result (option row),
            (atm_1_type ← getitem (atm_type_dict a) atm_1;
             atm_2_type ← getitem (atm_type_dict a) atm_2;
             body atm_1_type atm_2_type) = body t1 t2) as Htypes.
  { intros body. apply getitem_Ok in Ht1, Ht2. by rewrite Ht1, Ht2. }
  assert (forall r,
            analyse_restraint a
              (build_matches_dict aln modeller_mod_seq modeller_tem_seq)
              (build_mod_tar_res_dict mod_aliseq tar_aliseq) tr (atm_1, atm_2)
            = Ok (Some r) ->
            exists x1 x2 : resolved_atom,
              resolves a aln modeller_mod_seq modeller_tem_seq mod_aliseq
                tar_aliseq tr atm_1 t1 x1
              /\ resolves a aln modeller_mod_seq modeller_tem_seq mod_aliseq
                   tar_aliseq tr atm_2 t2 x2
              /\ MOD_ATOM_INDEX_I r = atm_1 /\ MOD_ATOM_INDEX_J r = atm_2) as Honly.
  { intros r Hr.
    apply analyse_restraint_resolved in Hr as (t1' & t2' & x1 & x2 & H1 & H2 & Hrow).
    assert (t1' = t1) as -> by (destruct H1 as [? _]; congruence).
    assert (t2' = t2) as -> by (destruct H2 as [? _]; congruence).
    exists x1, x2. split; [done|]. split; [done|].
    unfold row_holds in Hrow. tauto. }
  split; [exact Honly|]. split; [|split; [|split; [|split]]].
  - intros atm m te Hm.
    apply matched_residues_column in Hm as (c & pos & m0 & ? & ? & ? & ? & ->).
    exists c, pos, m0. repeat split; try done; by apply target_aligned_lookup.
  - intros Hno. unfold analyse_restraint. rewrite Htypes.
    destruct Hno as [Hno|Hno].
    + by rewrite (matched_residues_None a aln _ _ atm_1 Hno).
    + rewrite (matched_residues_None a aln _ _ atm_2 Hno).
      by destruct (matched_residues a _ atm_1) as [[? ?]|].
  - intros Hno. unfold analyse_restraint. rewrite Htypes.
    destruct (matched_residues a _ atm_1) as [[m1 te1]|] eqn:Hm1; [|done].
    destruct (matched_residues a _ atm_2) as [[m2 te2]|] eqn:Hm2; [|done].
    apply matched_residues_column
      in Hm1 as (c1 & pos1 & m01 & Hc1 & Hmod1 & Hri1 & _ & ->).
    apply matched_residues_column
      in Hm2 as (c2 & pos2 & m02 & Hc2 & Hmod2 & Hri2 & _ & ->).
    unfold get_id. cbn [_id set_id mbind result_bind].
    destruct (build_mod_tar_res_dict mod_aliseq tar_aliseq
                !! mod_rank aln modeller_mod_seq c1) as [k1|] eqn:Hk1; [|done].
    destruct (build_mod_tar_res_dict mod_aliseq tar_aliseq
                !! mod_rank aln modeller_mod_seq c2) as [k2|] eqn:Hk2; [|done].
    apply target_aligned_lookup in Hk1, Hk2.
    destruct Hno as [Hno|Hno].
    + destruct (Hno c1 pos1 m01 Hc1 Hmod1 Hri1 k1 Hk1).
    + destruct (Hno c2 pos2 m02 Hc2 Hmod2 Hri2 k2 Hk2).
  - intros Hfit.
    assert (exists o,
              analyse_restraint a
                (build_matches_dict aln modeller_mod_seq modeller_tem_seq)
                (build_mod_tar_res_dict mod_aliseq tar_aliseq) tr (atm_1, atm_2)
              = Ok o) as [o Ho].
    { apply analyse_restraint_typed; [by eexists|by eexists|].
      intros k v Hk.
      destruct (build_mod_tar_res_dict_bounds mod_aliseq tar_aliseq k v Hk)
        as [_ Hv]. lia. }
    split; [by exists o|].
    intros Hno. rewrite Ho. destruct o as [r|]; [|done].
    destruct (Honly r Ho) as (x1 & x2 & H1 & H2 & _).
    destruct Hno as [Hno|Hno]; [destruct (Hno x1 H1)|destruct (Hno x2 H2)].
  - intros hddrs rows Hskip Hrows r Hr [Hi Hj].
    apply analyse_restraints_Ok in Hrows as [_ ->]. rewrite app_nil_l in Hr.
    apply elem_of_emitted_rows in Hr as (atm_1' & atm_2' & _ & Hq).
    destruct (qualifies_atom_indices _ _ _ _ _ _ _ Hq) as [Hi' Hj'].
    assert (atm_1' = atm_1) as -> by congruence.
    assert (atm_2' = atm_2) as -> by congruence.
    apply analyse_restraint_Some in Hq. congruence.
Qed.

Lemma restraint_row_witness :
  atm_type_dict ex_self !! 1%Z = Some "CA"
  /\ atm_type_dict ex_self !! 2%Z = Some "CA"
  /\ (exists x1 x2 : resolved_atom,
        resolves ex_self ex_aln ex_mod_seq ex_tem_seq "AC" "AC"
          [ex_tar_1; ex_tar_2] 1 "CA" x1
        /\ resolves ex_self ex_aln ex_mod_seq ex_tem_seq "AC" "AC"
             [ex_tar_1; ex_tar_2] 2 "CA" x2
        /\ MOD_ATOM_INDEX_I ex_row = 1%Z /\ MOD_ATOM_INDEX_J ex_row = 2%Z)
  /\ analyse_restraint ex_self (build_matches_dict ex_aln ex_mod_seq ex_tem_seq)
       (build_mod_tar_res_dict "AC" "A-") [ex_tar_1] (1%Z, 2%Z) = Ok None.
Proof.
  assert (atm_type_dict ex_self !! 1%Z = Some "CA") as H1 by (vm_compute; reflexivity).
  assert (atm_type_dict ex_self !! 2%Z = Some "CA") as H2 by (vm_compute; reflexivity).
  split; [exact H1|]. split; [exact H2|]. split.
  - destruct (restraint_row_only_if_resolved ex_self ex_aln ex_mod_seq ex_tem_seq
                "AC" "AC" [ex_tar_1; ex_tar_2] 1 2 "CA" "CA" H1 H2) as [Honly _].
    apply Honly. vm_compute. reflexivity.
  - destruct (restraint_row_only_if_resolved ex_self ex_aln ex_mod_seq ex_tem_seq
                "AC" "A-" [ex_tar_1] 1 2 "CA" "CA" H1 H2)
      as (_ & _ & _ & Hgap & _).
    apply Hgap. right. intros c pos m Hc Hm Hri k (cc & mp & tp & Hcc & Hmp & Htp & Hi & _).
    destruct c as [|[|c]]; [| |done].
    + injection Hc as <-. vm_compute in Hm. injection Hm as <-.
      vm_compute in Hri. discriminate.
    + destruct cc as [|[|cc]]; [| |done].
      * vm_compute in Hi. discriminate.
      * injection Hcc as <- <-. done.
Defined.

(** ** The tag of a row *)

(** C3: every row of the table of a template comes from a restraint whose
    two atom indices and two atom types it carries, and its tag is decided
    by the two types: 9 exactly for two CA atoms, 10 exactly for N with O
    in either order, 23 exactly for every other pair with a main-chain atom
    (CA, N, C, O, OXT), 26 exactly when neither atom is a main-chain atom;
    the tag is the one the classification gives the two types, which for
    every pair of types is one of the four and only one. *)
Theorem row_tag_classification :
  (forall (a : automodel) (md : gmap Z (residue * residue)) (d : gmap nat nat)
          (tr : list residue) (hddrs : list (Z * Z)) (rows : list row) (r : row),
      analyse_restraints a md d tr hddrs [] = Ok rows -> r ∈ rows ->
      exists (atm_1 atm_2 : Z) (t1 t2 : string),
        (atm_1, atm_2) ∈ hddrs
        /\ MOD_ATOM_INDEX_I r = atm_1 /\ MOD_ATOM_INDEX_J r = atm_2
        /\ atm_type_dict a !! atm_1 = Some t1 /\ atm_type_dict a !! atm_2 = Some t2
        /\ MOD_ATOM_TYPE_I r = t1 /\ MOD_ATOM_TYPE_J r = t2
        /\ RST_GRP r = grp_name_of t1 t2
        /\ (RST_GRP r = "9" <-> both_ca t1 t2)
        /\ (RST_GRP r = "10" <-> n_and_o t1 t2)
        /\ (RST_GRP r = "23" <->
              ~ both_ca t1 t2 /\ ~ n_and_o t1 t2 /\ (is_main t1 \/ is_main t2))
        /\ (RST_GRP r = "26" <-> ~ is_main t1 /\ ~ is_main t2)
        /\ RST_GRP r ∈ ["9"; "10"; "23"; "26"])
  /\ (forall t1 t2 : string,
        (grp_name_of t1 t2 = "9" <-> both_ca t1 t2)
        /\ (grp_name_of t1 t2 = "10" <-> n_and_o t1 t2)
        /\ (grp_name_of t1 t2 = "23" <->
              ~ both_ca t1 t2 /\ ~ n_and_o t1 t2 /\ (is_main t1 \/ is_main t2))
        /\ (grp_name_of t1 t2 = "26" <-> ~ is_main t1 /\ ~ is_main t2)
        /\ grp_name_of t1 t2 ∈ ["9"; "10"; "23"; "26"])
  /\ (forall t : string, is_main t <-> t ∈ main_chain_atoms).
Proof.
  split; [|split].
  - intros a md d tr hddrs rows r Hrows Hr.
    apply analyse_restraints_Ok in Hrows as [_ ->]. rewrite app_nil_l in Hr.
    apply elem_of_emitted_rows in Hr as (atm_1 & atm_2 & Hin & Hq).
    destruct Hq as [t1 t2 m1 te1 m2 te2 i1 i2 k1 k2 tr1 tr2 ? ? ? ? Ht1 Ht2].
    exists atm_1, atm_2, t1, t2.
    cbn [make_row RST_GRP MOD_ATOM_INDEX_I MOD_ATOM_INDEX_J MOD_ATOM_TYPE_I
         MOD_ATOM_TYPE_J].
    do 8 (split; [done|]).
    apply tag_of_types_cases, tag_of_types_grp_name_of.
  - intros t1 t2.
    destruct (tag_of_types_cases t1 t2 _ (tag_of_types_grp_name_of t1 t2))
      as (? & ? & ? & ? & ?).
    by do 4 (split; [done|]).
  - intros t. symmetry. apply elem_of_main_chain_atoms.
Qed.

Lemma row_tag_classification_witness :
  analyse_restraints ex_self (build_matches_dict ex_aln ex_mod_seq ex_tem_seq)
    (build_mod_tar_res_dict "AC" "AC") [ex_tar_1; ex_tar_2] [(1%Z, 2%Z)] []
  = Ok [ex_row]
  /\ exists (atm_1 atm_2 : Z) (t1 t2 : string),
       (atm_1, atm_2) ∈ [(1%Z, 2%Z)]
       /\ MOD_ATOM_INDEX_I ex_row = atm_1 /\ MOD_ATOM_INDEX_J ex_row = atm_2
       /\ atm_type_dict ex_self !! atm_1 = Some t1
       /\ atm_type_dict ex_self !! atm_2 = Some t2
       /\ MOD_ATOM_TYPE_I ex_row = t1 /\ MOD_ATOM_TYPE_J ex_row = t2
       /\ RST_GRP ex_row = grp_name_of t1 t2
       /\ (RST_GRP ex_row = "9" <-> both_ca t1 t2)
       /\ (RST_GRP ex_row = "10" <-> n_and_o t1 t2)
       /\ (RST_GRP ex_row = "23" <->
             ~ both_ca t1 t2 /\ ~ n_and_o t1 t2 /\ (is_main t1 \/ is_main t2))
       /\ (RST_GRP ex_row = "26" <-> ~ is_main t1 /\ ~ is_main t2)
       /\ RST_GRP ex_row ∈ ["9"; "10"; "23"; "26"].
Proof.
  assert (analyse_restraints ex_self
            (build_matches_dict ex_aln ex_mod_seq ex_tem_seq)
            (build_mod_tar_res_dict "AC" "AC") [ex_tar_1; ex_tar_2]
            [(1%Z, 2%Z)] [] = Ok [ex_row]) as Hrows by (vm_compute; reflexivity).
  split; [exact Hrows|].
  apply (proj1 row_tag_classification _ _ _ _ _ _ ex_row Hrows). by left.
Defined.

(** ** The chain of the target *)

Lemma find_first {A : Type} (f : A -> bool) (l : list A) (i : nat) (x : A) :
  l !! i = Some x -> f x = true ->
  (forall j y, j < i -> l !! j = Some y -> f y = false) ->
  find f l = Some x.
Proof.
  revert i. induction l as [|y l IH]; intros i Hi Hx Hbefore; [done|].
  cbn [find]. destruct i as [|i].
  - injection Hi as ->. by rewrite Hx.
  - rewrite (Hbefore 0 y) by (done || lia).
    apply (IH i); [done|done|].
    intros j z Hj Hz. apply (Hbefore (S j) z); [lia|done].
Qed.

Lemma find_none {A : Type} (f : A -> bool) (l : list A) :
  (forall x, x ∈ l -> f x = false) -> find f l = None.
Proof.
  induction l as [|y l IH]; intros Hall; [done|].
  cbn [find]. rewrite (Hall y) by by left.
  apply IH. intros x Hx. apply Hall. by right.
Qed.

(** C7: for a single-chain model, when the target structure has more than
    one chain and no chain was given to [set_target_structure], the
    analysis raises the [ValueError] of the missing chain and leaves the
    store as it was, so no table has been written; when a chain was given,
    the analysis goes on with the residues of the chain of the structure
    that has the name given (the first of that name) and with no other
    residue of the structure; and when the structure has no chain of that
    name, the lookup fails with [KeyError], the store left as it was. *)
Theorem multichain_target_needs_chain (sv : services) (s : store)
    (modeller_mod_seq : sequence_obj) (t : target_options)
    (modeller_tar_obj : structure) :
  aln_getitem (read_alignment sv) (sequence (self s)) = Ok modeller_mod_seq ->
  seq_n_chains modeller_mod_seq <= 1 ->
  target (self s) = Some t ->
  complete_pdb sv (target_filepath t) = Ok modeller_tar_obj ->
  1 < length (chains modeller_tar_obj) ->
  (target_chain t = None ->
   analyse_target_template_pairs sv s
   = (Raise (ValueError
               (multichain_target_message (length (chains modeller_tar_obj)))), s))
  /\ (forall (c : string) (i : nat) (ch : chain),
        target_chain t = Some c ->
        chains modeller_tar_obj !! i = Some ch -> chain_name ch = c ->
        (forall j ch', j < i -> chains modeller_tar_obj !! j = Some ch' ->
                       chain_name ch' <> c) ->
        exists al,
          align_model_and_target sv (self s) = Ok al
          /\ al_tar_residues al = chain_residues ch
          /\ al_tar_aliseq al
             = join_codes
                 ((fun p => _get_modeller_res_code p.1)
                    <$> salign sv (join_codes (code <$> chain_residues ch))
                          (join_codes (code <$> seq_residues modeller_mod_seq)))
          /\ al_mod_aliseq al
             = join_codes
                 ((fun p => _get_modeller_res_code p.2)
                    <$> salign sv (join_codes (code <$> chain_residues ch))
                          (join_codes (code <$> seq_residues modeller_mod_seq)))
          /\ analyse_target_template_pairs sv s
             = match check_and_correspond sv (self s) al with
               | Raise e => (Raise e, s)
               | Ok mod_tar_res_dict =>
                   analyse_templates (al_aln al) (al_mod_seq al) mod_tar_res_dict
                     (chain_residues ch) (enumerate (knowns (self s))) s
               end)
  /\ (forall c : string,
        target_chain t = Some c ->
        (forall ch, ch ∈ chains modeller_tar_obj -> chain_name ch <> c) ->
        analyse_target_template_pairs sv s = (Raise KeyError, s)).
Proof.
  intros Hmod Hone Htarget Hpdb Hmany.
  assert (forall k : sequence_obj -> target_options -> result aligned,
            (m ← aln_getitem (read_alignment sv) (sequence (self s));
             if bool_decide (1 < seq_n_chains m)
             then Raise (NotImplementedError multichain_model_message)
             else t' ← get_target (self s); k m t')
            = k modeller_mod_seq t) as Hhead.
  { intros k. rewrite Hmod. cbn [mbind result_bind].
    rewrite bool_decide_eq_false_2 by lia.
    unfold get_target. by rewrite Htarget. }
  split; [|split].
  - intros Hnone. unfold analyse_target_template_pairs, align_model_and_target.
    rewrite Hhead. unfold get_target_residues. rewrite Hpdb.
    cbn [mbind result_bind]. rewrite bool_decide_eq_true_2 by done.
    by rewrite Hnone.
  - intros c i ch Hsome Hi Hname Hfirst.
    assert (chain_getitem modeller_tar_obj c = Ok ch) as Hch.
    { unfold chain_getitem.
      rewrite (find_first _ _ i ch Hi); [done|by apply bool_decide_eq_true_2|].
      intros j ch' Hj Hch'. apply bool_decide_eq_false_2. by eapply Hfirst. }
    assert (get_target_residues sv t = Ok (chain_residues ch)) as Hres.
    { unfold get_target_residues. rewrite Hpdb. cbn [mbind result_bind].
      rewrite bool_decide_eq_true_2 by done. by rewrite Hsome, Hch. }
    eexists. split.
    { unfold align_model_and_target. rewrite Hhead, Hres.
      cbn [mbind result_bind]. reflexivity. }
    split; [done|]. split; [done|]. split; [done|].
    unfold analyse_target_template_pairs, align_model_and_target.
    rewrite Hhead, Hres. cbn [mbind result_bind]. reflexivity.
  - intros c Hsome Hnone.
    unfold analyse_target_template_pairs, align_model_and_target.
    rewrite Hhead. unfold get_target_residues. rewrite Hpdb.
    cbn [mbind result_bind]. rewrite bool_decide_eq_true_2 by done.
    rewrite Hsome. unfold chain_getitem. rewrite find_none; [done|].
    intros ch Hch. apply bool_decide_eq_false_2. by apply Hnone.
Qed.

Lemma multichain_target_witness :
  (aln_getitem (read_alignment (ex_services ex_tar_3)) (sequence (self ex_store))
   = Ok ex_mod_seq
   /\ seq_n_chains ex_mod_seq <= 1
   /\ target (self ex_store) = Some ex_target
   /\ complete_pdb (ex_services ex_tar_3) (target_filepath ex_target) = Ok ex_tar_3
   /\ 1 < length (chains ex_tar_3)
   /\ analyse_target_template_pairs (ex_services ex_tar_3) ex_store
      = (Raise (ValueError (multichain_target_message 3)), ex_store))
  /\ (target (self ex_store_chain_B)
      = Some {| target_filepath := "target.pdb"; target_chain := Some "B";
                mod_tar_seqid_threshold := default_mod_tar_seqid_threshold;
                use_target_distances := false |}
      /\ exists al,
           align_model_and_target (ex_services ex_tar_3) (self ex_store_chain_B)
           = Ok al
           /\ al_tar_residues al = [ex_tar_1]
           /\ al_tar_aliseq al = "A-"
           /\ al_mod_aliseq al = "AC").
Proof.
  assert (aln_getitem (read_alignment (ex_services ex_tar_3))
            (sequence (self ex_store)) = Ok ex_mod_seq) as Hmod
    by (vm_compute; reflexivity).
  assert (seq_n_chains ex_mod_seq <= 1) as Hone by (simpl; lia).
  assert (target (self ex_store) = Some ex_target) as Htarget by reflexivity.
  assert (complete_pdb (ex_services ex_tar_3) (target_filepath ex_target)
          = Ok ex_tar_3) as Hpdb by reflexivity.
  assert (1 < length (chains ex_tar_3)) as Hmany by (simpl; lia).
  split.
  - repeat (split; [assumption|]).
    apply (multichain_target_needs_chain _ _ _ _ _ Hmod Hone Htarget Hpdb Hmany).
    reflexivity.
  - split; [reflexivity|].
    destruct (multichain_target_needs_chain (ex_services ex_tar_3)
                ex_store_chain_B ex_mod_seq
                {| target_filepath := "target.pdb"; target_chain := Some "B";
                   mod_tar_seqid_threshold := default_mod_tar_seqid_threshold;
                   use_target_distances := false |}
                ex_tar_3 Hmod Hone eq_refl Hpdb Hmany) as (_ & Hgiven & _).
    destruct (Hgiven "B" 1 {| chain_name := "B"; chain_residues := [ex_tar_1] |})
      as (al & Hal & Hres & Htar & Hmodseq & _).
    + reflexivity.
    + reflexivity.
    + reflexivity.
    + intros j ch' Hj Hch'. destruct j as [|j]; [|lia].
      injection Hch' as <-. discriminate.
    + exists al. split; [exact Hal|]. split; [exact Hres|].
      split; [rewrite Htar|rewrite Hmodseq]; vm_compute; reflexivity.
Defined.

(** ** The order of the build stages *)

(** C8: without a target, [homcsr] raises the [ValueError] asking for
    [set_target_structure] and calls no method: store and trace are as they
    were.  With a target, the methods it has called are, in this order, the
    first ones of: the initial files; the default options, only if no
    option was configured when the initial files are done; the analysis;
    the rebuild of the restraints file.  Each ran on the store the one
    before left, and all but the last returned; what [homcsr] returns or
    raises, and the store it leaves, are those of the last; and it returns
    only when it has called them all. *)
Theorem homcsr_stage_order (sv : services) (pc : parent_class) (exit_stage : Z)
    (s : store) (tr : list stage) :
  (target (self s) = None ->
   homcsr sv pc exit_stage (s, tr) = (Raise (ValueError homcsr_message), (s, tr)))
  /\ (is_Some (target (self s)) ->
      let configured :=
        _has_custom_hddr_options (self (build_initial_files pc exit_stage s).2) in
      exists (before : list stage) (g : stage) (s0 : store),
        before ++ [g] `prefix_of` stages_in_order configured
        /\ run_stages sv pc exit_stage before s = (Ok (), s0)
        /\ homcsr sv pc exit_stage (s, tr)
           = ((run_stage sv pc exit_stage g s0).1,
              ((run_stage sv pc exit_stage g s0).2, tr ++ before ++ [g]))
        /\ ((run_stage sv pc exit_stage g s0).1 = Ok () ->
            before ++ [g] = stages_in_order configured)
        /\ (Set_custom_hddr_options ∈ before ++ [g] -> configured = false)).
Proof.
  split.
  - intros Hnone. unfold homcsr, read, raise, mbind, traced_bind. cbn [fst].
    rewrite Hnone. by rewrite bool_decide_eq_false_2 by (by intros [? ?]).
  - intros Hsome configured.
    unfold homcsr, read, raise, call, mbind, traced_bind, mret, traced_ret.
    cbn [fst snd].
    rewrite bool_decide_eq_true_2 by done. cbn [negb fst snd].
    subst configured.
    destruct (build_initial_files pc exit_stage s) as [[[]|e1] s1] eqn:H1;
      cbn [fst snd].
    2:{ exists [], Build_initial_files, s. cbn [run_stage run_stages app].
        rewrite H1. cbn [fst snd].
        split; [by eexists|]. split; [done|]. split; [done|]. split; [done|].
        intros Hin. apply list_elem_of_singleton in Hin. discriminate. }
    destruct (_has_custom_hddr_options (self s1)) eqn:Hconf;
      cbn [negb mret traced_ret fst snd].
    + destruct (analyse_target_template_pairs sv s1) as [[[]|e3] s3] eqn:H3;
        cbn [fst snd].
      2:{ exists [Build_initial_files], Analyse_target_template_pairs, s1.
          cbn [run_stage run_stages app]. rewrite H1, H3. cbn [fst snd].
          rewrite <- app_assoc.
          split; [by eexists|]. split; [done|]. split; [done|]. split; [done|].
          rewrite !elem_of_cons, elem_of_nil. intros [?|[?|[]]]; discriminate. }
      destruct (rebuild_restraints_file pc s3) as [r4 s4] eqn:H4; cbn [fst snd].
      exists [Build_initial_files; Analyse_target_template_pairs],
        Rebuild_restraints_file, s3.
      cbn [run_stage run_stages app]. rewrite H1, H3, H4. cbn [fst snd].
      rewrite <- !app_assoc.
      split; [done|]. split; [done|]. split; [done|]. split; [done|].
      rewrite !elem_of_cons, elem_of_nil. intros [?|[?|[?|[]]]]; discriminate.
    + destruct (set_custom_hddr_options pc s1) as [[[]|e2] s2] eqn:H2;
        cbn [fst snd].
      2:{ exists [Build_initial_files], Set_custom_hddr_options, s1.
          cbn [run_stage run_stages app]. rewrite H1, H2. cbn [fst snd].
          rewrite <- app_assoc.
          split; [by eexists|]. split; [done|]. split; [done|]. by split. }
      destruct (analyse_target_template_pairs sv s2) as [[[]|e3] s3] eqn:H3;
        cbn [fst snd].
      2:{ exists [Build_initial_files; Set_custom_hddr_options],
            Analyse_target_template_pairs, s2.
          cbn [run_stage run_stages app]. rewrite H1, H2, H3. cbn [fst snd].
          rewrite <- !app_assoc.
          split; [by eexists|]. split; [done|]. split; [done|]. by split. }
      destruct (rebuild_restraints_file pc s3) as [r4 s4] eqn:H4; cbn [fst snd].
      exists [Build_initial_files; Set_custom_hddr_options;
              Analyse_target_template_pairs], Rebuild_restraints_file, s3.
      cbn [run_stage run_stages app]. rewrite H1, H2, H3, H4. cbn [fst snd].
      rewrite <- !app_assoc.
      split; [done|]. split; [done|]. split; [done|]. by split.
Qed.

Lemma homcsr_stage_order_witness :
  is_Some (target (self ex_store))
  /\ homcsr (ex_services ex_tar) ex_parent 0 (ex_store, [])
     = (Ok (), (ex_store_done, stages_in_order false))
  /\ exists (before : list stage) (g : stage) (s0 : store),
       before ++ [g] `prefix_of` stages_in_order false
       /\ run_stages (ex_services ex_tar) ex_parent 0 before ex_store = (Ok (), s0)
       /\ homcsr (ex_services ex_tar) ex_parent 0 (ex_store, [])
          = ((run_stage (ex_services ex_tar) ex_parent 0 g s0).1,
             ((run_stage (ex_services ex_tar) ex_parent 0 g s0).2,
              [] ++ before ++ [g]))
       /\ ((run_stage (ex_services ex_tar) ex_parent 0 g s0).1 = Ok () ->
           before ++ [g] = stages_in_order false)
       /\ (Set_custom_hddr_options ∈ before ++ [g] -> false = false).
Proof.
  assert (is_Some (target (self ex_store))) as Hsome by (by eexists).
  split; [exact Hsome|]. split; [vm_compute; reflexivity|].
  exact (proj2 (homcsr_stage_order (ex_services ex_tar) ex_parent 0 ex_store [])
           Hsome).
Defined.

(** ** The tables of a successful analysis *)

Lemma check_and_correspond_Ok (sv : services) (a : automodel) (al : aligned)
    (mod_tar_res_dict : gmap nat nat) :
  check_and_correspond sv a al = Ok mod_tar_res_dict ->
  mod_tar_res_dict = build_mod_tar_res_dict (al_mod_aliseq al) (al_tar_aliseq al).
Proof.
  unfold check_and_correspond.
  destruct (check_seqid _ _ _); cbn [mbind result_bind]; [|done].
  destruct (_get_template_filepaths sv a (al_aln al)); cbn [mbind result_bind];
    [|done].
  by intros [= <-].
Qed.

(** The tables behind the files of a successful analysis. *)
Lemma analysis_tables (sv : services) (s s' : store) :
  analyse_target_template_pairs sv s = (Ok (), s') ->
  exists (al : aligned) (tables : list (list row)),
    align_model_and_target sv (self s) = Ok al
    /\ length tables = length (knowns (self s))
    /\ files s' = files s ++
         imap (fun i rows =>
                 (analysis_filename_of (sequence (self s)) i, csv_of rows)) tables
    /\ (forall i, i < length (knowns (self s)) ->
          hddr_params_filepaths (self s') !! i
          = Some (Some (analysis_filename_of (sequence (self s)) i)))
    /\ (forall i tem_name,
          knowns (self s) !! i = Some tem_name ->
          exists modeller_tem_seq rows,
            aln_getitem (al_aln al) tem_name = Ok modeller_tem_seq
            /\ tables !! i = Some rows
            /\ rows = omap (emitted_row (self s)
                              (build_matches_dict (al_aln al) (al_mod_seq al)
                                 modeller_tem_seq)
                              (build_mod_tar_res_dict (al_mod_aliseq al)
                                 (al_tar_aliseq al))
                              (al_tar_residues al))
                           (hddr_dict_all (self s))).
Proof.
  unfold analyse_target_template_pairs.
  destruct (align_model_and_target sv (self s)) as [al|] eqn:Hal; [|done].
  destruct (check_and_correspond sv (self s) al) as [d|] eqn:Hd; [|done].
  apply check_and_correspond_Ok in Hd as ->.
  intros Hloop. unfold enumerate in Hloop.
  apply analyse_templates_Ok in Hloop as (tables & Htables & Hfiles & Hself & Hall).
  pose proof (Forall2_length _ _ _ Htables) as Hlen.
  rewrite enumerate_from_length in Hlen.
  exists al, tables. split; [done|]. split; [done|]. split.
  { rewrite Hfiles. f_equal.
    by rewrite (zip_with_enumerate_from
                  (fun i rows => (analysis_filename_of (sequence (self s)) i,
                                  csv_of rows))). }
  split.
  { intros i Hlt.
    rewrite Hself. cbn [hddr_params_filepaths with_hddr_params_filepaths].
    assert (0 + length (knowns (self s))
            <= length (hddr_params_filepaths (self s))) as Hfit.
    { rewrite Forall_forall in Hall.
      destruct (knowns (self s)) as [|k0 ks] eqn:Hks using rev_ind; [simpl; lia|].
      clear IHks.
      assert (enumerate_from 0 (ks ++ [k0]) !! length ks = Some (0 + length ks, k0))
        as Hlast by (apply enumerate_from_lookup; by rewrite list_lookup_middle).
      apply list_elem_of_lookup_2, Hall in Hlast. rewrite length_app. simpl in *.
      lia. }
    apply (record_filepaths_lookup _ 0 _ _ i Hfit). lia. }
  intros i tem_name Hi.
  pose proof (enumerate_from_lookup 0 i _ _ Hi) as Hti.
  destruct (Forall2_lookup_l _ _ _ _ _ Htables Hti) as (rows & Hrows & Hrow).
  cbn [snd] in Hrow. unfold template_rows in Hrow.
  destruct (aln_getitem (al_aln al) tem_name) as [modeller_tem_seq|] eqn:Htem;
    [|done].
  cbn [mbind result_bind] in Hrow.
  apply analyse_restraints_Ok in Hrow as [_ Hrow]. rewrite app_nil_l in Hrow.
  by exists modeller_tem_seq, rows.
Qed.



(** ** The files of the analysis, whatever its outcome *)

Lemma file_system_after_app (fs : gmap string csv_file)
    (l1 l2 : list (string * csv_file)) :
  file_system_after fs (l1 ++ l2)
  = file_system_after (file_system_after fs l1) l2.
Proof. unfold file_system_after. by rewrite foldl_app. Qed.

Lemma file_system_after_other (fs : gmap string csv_file)
    (writes : list (string * csv_file)) (name : string) :
  (forall w, w ∈ writes -> w.1 <> name) ->
  file_system_after fs writes !! name = fs !! name.
Proof.
  revert fs. induction writes as [|w writes IH]; intros fs Hno; [done|].
  cbn [file_system_after foldl]. fold (file_system_after (<[w.1:=w.2]> fs) writes).
  rewrite IH by (intros w' Hw'; apply Hno; by right).
  apply lookup_insert_ne, Hno. by left.
Qed.

Lemma file_system_after_written (fs : gmap string csv_file)
    (writes : list (string * csv_file)) (i : nat) (w : string * csv_file) :
  writes !! i = Some w ->
  (forall j w', writes !! j = Some w' -> w'.1 = w.1 -> j = i) ->
  file_system_after fs writes !! w.1 = Some w.2.
Proof.
  revert fs i. induction writes as [|w0 writes IH]; intros fs i Hi Huniq; [done|].
  cbn [file_system_after foldl]. fold (file_system_after (<[w0.1:=w0.2]> fs) writes).
  destruct i as [|i].
  - injection Hi as ->. rewrite file_system_after_other.
    + apply lookup_insert_eq.
    + intros w' Hw' Heq. apply list_elem_of_lookup_1 in Hw' as [j Hj].
      by specialize (Huniq (S j) w' Hj Heq).
  - apply (IH _ i Hi). intros j w' Hj Heq.
    specialize (Huniq (S j) w' Hj Heq). lia.
Qed.

(** X8: whatever its outcome, the analysis changes no attribute of the
    object but [hddr_params_filepaths], whose length it keeps; it writes at
    most one file for each template, the write of 0-based rank [i] being
    the table of template [i]; every name it stores in
    [hddr_params_filepaths] is the name of a table it has written.  Each
    write creates the file or replaces the one of that name: on any file
    system, a file whose name is not that of a table written is left as it
    was, and under the name of a table written the file is that table,
    whatever was there. *)
Theorem analysis_frame (sv : services) (s s' : store) (r : result unit) :
  analyse_target_template_pairs sv s = (r, s') ->
  exists (l : list (option string)) (new : list (string * csv_file)),
    self s' = with_hddr_params_filepaths (self s) l
    /\ length l = length (hddr_params_filepaths (self s))
    /\ files s' = files s ++ new
    /\ length new <= length (knowns (self s))
    /\ (forall i f, new !! i = Some f ->
                    f.1 = analysis_filename_of (sequence (self s)) i)
    /\ (forall i name,
          l !! i = Some (Some name) ->
          hddr_params_filepaths (self s) !! i = Some (Some name) \/ name ∈ new.*1)
    /\ (forall (fs : gmap string csv_file) (name : string),
          (forall i, i < length new ->
                     name <> analysis_filename_of (sequence (self s)) i) ->
          file_system_after fs (files s') !! name
          = file_system_after fs (files s) !! name)
    /\ (forall (fs : gmap string csv_file) (i : nat) (f : string * csv_file),
          new !! i = Some f ->
          file_system_after fs (files s') !! f.1 = Some f.2).
Proof.
  intros Hrun.
  assert (exists (l : list (option string)) (new : list (string * csv_file)),
            self s' = with_hddr_params_filepaths (self s) l
            /\ length l = length (hddr_params_filepaths (self s))
            /\ files s' = files s ++ new
            /\ length new <= length (knowns (self s))
            /\ (forall i f, new !! i = Some f ->
                            f.1 = analysis_filename_of (sequence (self s)) i)
            /\ (forall i name,
                  l !! i = Some (Some name) ->
                  hddr_params_filepaths (self s) !! i = Some (Some name)
                  \/ name ∈ new.*1))
    as (l & new & Hself & Hlen & Hfiles & Hnew & Hnames & Hrec).
  { revert Hrun. unfold analyse_target_template_pairs.
    assert (forall e, (Raise e, s) = (r, s') ->
              exists (l : list (option string)) (new : list (string * csv_file)),
                self s' = with_hddr_params_filepaths (self s) l
                /\ length l = length (hddr_params_filepaths (self s))
                /\ files s' = files s ++ new
                /\ length new <= length (knowns (self s))
                /\ (forall i f, new !! i = Some f ->
                                f.1 = analysis_filename_of (sequence (self s)) i)
                /\ (forall i name,
                      l !! i = Some (Some name) ->
                      hddr_params_filepaths (self s) !! i = Some (Some name)
                      \/ name ∈ new.*1)) as Hearly.
    { intros e [= <- <-]. exists (hddr_params_filepaths (self s)), [].
      rewrite with_hddr_params_filepaths_id, app_nil_r.
      repeat split; auto; simpl; [lia|]. intros i f Hf. by rewrite lookup_nil in Hf. }
    destruct (align_model_and_target sv (self s)) as [al|e]; [|apply Hearly].
    destruct (check_and_correspond sv (self s) al) as [d|e]; [|apply Hearly].
    intros Hloop. unfold enumerate in Hloop.
    apply analyse_templates_any in Hloop as (tables & l & Hloop). cbv zeta in Hloop.
    destruct Hloop as (Hself & Hlen & Hfiles & Htables & Hrec).
    eexists l, _. split; [done|]. split; [done|]. split; [exact Hfiles|].
    split; [|split; [|done]].
    - rewrite length_zip_with, enumerate_from_length. lia.
    - intros i f Hf. apply lookup_zip_with_Some in Hf as (t & rows & -> & Ht & _).
      apply enumerate_from_lookup_inv in Ht as [-> _]. done. }
  exists l, new. do 6 (split; [done|]). split.
  - intros fs name Hname. rewrite Hfiles, file_system_after_app.
    apply file_system_after_other. intros w Hw Heq.
    apply list_elem_of_lookup_1 in Hw as [i Hi].
    apply (Hname i); [by eapply lookup_lt_Some|].
    by rewrite <- Heq, (Hnames i w Hi).
  - intros fs i f Hi. rewrite Hfiles, file_system_after_app.
    apply (file_system_after_written _ _ i f Hi).
    intros j w' Hj Heq. rewrite (Hnames j w' Hj), (Hnames i f Hi) in Heq.
    by apply analysis_filename_of_inj in Heq.
Qed.

Lemma analysis_frame_witness :
  analyse_target_template_pairs (ex_services ex_tar) ex_store_rerun
  = (Ok (), {| self := self ex_store_done;
               files := files ex_store_rerun ++ files ex_store_done |})
  /\ file_system_after ∅ (files ex_store_rerun) !! "model_1_tar_tem_0.csv"
     = Some (csv_of [])
  /\ file_system_after ∅ (files ex_store_rerun ++ files ex_store_done)
       !! "model_1_tar_tem_0.csv"
     = Some (csv_of [ex_row]).
Proof.
  assert (analyse_target_template_pairs (ex_services ex_tar) ex_store_rerun
          = (Ok (), {| self := self ex_store_done;
                       files := files ex_store_rerun ++ files ex_store_done |}))
    as Hdone by (vm_compute; reflexivity).
  split; [exact Hdone|]. split; [reflexivity|].
  destruct (analysis_frame _ _ _ _ Hdone)
    as (l & new & _ & _ & Hfiles & _ & _ & _ & _ & Hwritten).
  cbn [files] in Hfiles. apply app_inv_head in Hfiles. subst new.
  exact (Hwritten ∅ 0 ("model_1_tar_tem_0.csv", csv_of [ex_row]) eq_refl).
Defined.

(** ** The options handed to the parent class *)

(** X15: with a target set, [set_custom_hddr_options] hands to the parent
    class one [None] for each template and the column names [GRP_DD] for
    sigma, [MOD_ATOM_INDEX_I] and [MOD_ATOM_INDEX_J] for the two atoms, and
    for the location [GRP_DN] when [use_target_distances] was chosen and
    [GRP_DT] otherwise; with no target it raises [AttributeError] and
    hands nothing to the parent.  Every table a successful analysis writes
    with at least one row has these columns in its header; a table with no
    row is written with no header, so it has none of them. *)
Theorem set_custom_hddr_options_names_table_columns (pc : parent_class)
    (s : store) :
  (forall t, target (self s) = Some t ->
     set_custom_hddr_options pc s
     = Automodel_custom_restraints_set_custom_hddr_options pc
         {| opt_hddr_params_filepaths := replicate (length (knowns (self s))) None;
            opt_sigma_col := "GRP_DD";
            opt_location_col :=
              if use_target_distances t then "GRP_DN" else "GRP_DT";
            opt_atom_i_col := "MOD_ATOM_INDEX_I";
            opt_atom_j_col := "MOD_ATOM_INDEX_J" |} s)
  /\ (target (self s) = None ->
      set_custom_hddr_options pc s = (Raise AttributeError, s))
  /\ (forall (sv : services) (s1 s1' : store) (new : list (string * csv_file))
             (f : string * csv_file),
        analyse_target_template_pairs sv s1 = (Ok (), s1') ->
        files s1' = files s1 ++ new -> f ∈ new ->
        (csv_rows f.2 <> [] ->
         "GRP_DD" ∈ fieldnames f.2 /\ "GRP_DN" ∈ fieldnames f.2
         /\ "GRP_DT" ∈ fieldnames f.2 /\ "MOD_ATOM_INDEX_I" ∈ fieldnames f.2
         /\ "MOD_ATOM_INDEX_J" ∈ fieldnames f.2)
        /\ (csv_rows f.2 = [] -> fieldnames f.2 = [])).
Proof.
  split; [|split].
  - intros t Ht. unfold set_custom_hddr_options, get_target. rewrite Ht.
    by destruct (use_target_distances t).
  - intros Hnone. unfold set_custom_hddr_options, get_target. by rewrite Hnone.
  - intros sv s1 s1' new f Hrun Hfiles Hf.
    apply analysis_tables in Hrun as (al & tables & _ & _ & Hfiles' & _).
    rewrite Hfiles' in Hfiles. apply app_inv_head in Hfiles. subst new.
    apply list_elem_of_lookup_1 in Hf as [i Hi].
    rewrite list_lookup_imap in Hi.
    destruct (tables !! i) as [rows|]; [|done]. injection Hi as <-.
    cbn [snd]. destruct rows as [|r0 rows]; cbn [csv_of csv_rows fieldnames].
    + by split.
    + split; [|done]. intros _.
      repeat split; by apply (bool_decide_unpack _); vm_compute.
Qed.
